(** * xcode-runner: the Go sources as Rocq functions

    The repository holds two revisions of one command-line tool:
    [src/xcode-runner.go], which lists simulators through a JSON listing, and
    [src/unnamed/part_000], which parses the structured text listing of
    [xctrace] and deploys through [devicectl].  Functions that are the same
    in both files are embedded once; the two [GetDevices] and the two [main]
    live in the modules [XcodeRunner] and [Part000].

    Go strings are byte strings: they are modelled by [string], whose
    characters are the 256 byte values.  Go's [int] results ([len], indices)
    are in [Z].  A Go call ends in one of three ways, which [result] keeps
    apart: a normal return with a nil error, a normal return with an error,
    and a run-time panic. *)

From Stdlib Require Import ZArith Ascii String List Lia Permutation.
From stdpp Require Import gmap strings list fin_maps.

(** ** Outcomes of a Go call *)

Inductive result (A : Type) : Type :=
  | Ok (a : A)
  | Err (e : string)
  | Panic (msg : string).
Arguments Ok {A} a.
Arguments Err {A} e.
Arguments Panic {A} msg.

Definition bind {A B : Type} (c : result A) (k : A -> result B) : result B :=
  match c with
  | Ok a => k a
  | Err e => Err e
  | Panic msg => Panic msg
  end.

Notation "x <- c ;; k" := (bind c (fun x => k))
  (at level 100, c at next level, right associativity).

(** A loop body run over the elements of a slice, stopping at the first
    error or panic. *)
Fixpoint foldM {A S : Type} (body : S -> A -> result S) (l : list A) (st : S)
  : result S :=
  match l with
  | [] => Ok st
  | x :: rest => st' <- body st x ;; foldM body rest st'
  end.

Definition returned {A : Type} (r : result A) : bool :=
  match r with Panic _ => false | _ => true end.

(** ** Package [strings] and the slice expressions of the language *)

Module GoStrings.
Local Open Scope Z_scope.

Fixpoint len (s : string) : Z :=
  match s with
  | EmptyString => 0
  | String _ rest => Z.succ (len rest)
  end.

(** [s[lo:hi]], [s[lo:]] and [s[:hi]]: a run-time panic unless
    [0 <= lo <= hi <= len(s)]. *)
Definition slice (s : string) (lo hi : Z) : result string :=
  if (0 <=? lo) && (lo <=? hi) && (hi <=? len s)
  then Ok (String.substring (Z.to_nat lo) (Z.to_nat (hi - lo)) s)
  else Panic "slice bounds out of range".

Definition sliceFrom (s : string) (lo : Z) : result string := slice s lo (len s).
Definition sliceTo (s : string) (hi : Z) : result string := slice s 0 hi.

Definition HasPrefix (s prefix : string) : bool := String.prefix prefix s.

Definition HasSuffix (s suffix : string) : bool :=
  (len suffix <=? len s) &&
  String.eqb
    (String.substring (Z.to_nat (len s - len suffix)) (Z.to_nat (len suffix)) s)
    suffix.

(** [Index]: the first position at which [substr] starts, or [-1]. *)
Fixpoint indexFrom (i : Z) (s substr : string) : Z :=
  if String.prefix substr s then i
  else match s with
       | EmptyString => -1
       | String _ rest => indexFrom (i + 1) rest substr
       end.

Definition Index (s substr : string) : Z := indexFrom 0 s substr.

Definition Contains (s substr : string) : bool := 0 <=? Index s substr.

(** [LastIndex]: the last position at which [substr] starts, or [-1]. *)
Fixpoint lastIndexFrom (i : Z) (s substr : string) (found : Z) : Z :=
  let found' := if String.prefix substr s then i else found in
  match s with
  | EmptyString => found'
  | String _ rest => lastIndexFrom (i + 1) rest substr found'
  end.

Definition LastIndex (s substr : string) : Z := lastIndexFrom 0 s substr (-1).

Fixpoint byteIn (c : ascii) (chars : string) : bool :=
  match chars with
  | EmptyString => false
  | String d rest => Ascii.eqb c d || byteIn c rest
  end.

(** [IndexAny] for a set [chars] of ASCII characters, the only use in the
    sources: the library then compares byte by byte. *)
Fixpoint indexAnyFrom (i : Z) (s chars : string) : Z :=
  match s with
  | EmptyString => -1
  | String c rest => if byteIn c chars then i else indexAnyFrom (i + 1) rest chars
  end.

Definition ContainsAny (s chars : string) : bool := 0 <=? indexAnyFrom 0 s chars.

Definition TrimSuffix (s suffix : string) : string :=
  if HasSuffix s suffix
  then String.substring 0 (Z.to_nat (len s - len suffix)) s
  else s.

(** [TrimSpace] removes the leading and the trailing white space runes.
    [unicode.IsSpace] holds of the code points with the White_Space
    property; a rune is recognised in the string by its UTF-8 encoding, and
    bytes that do not decode count as a rune that is not a space. *)
Definition utf8 (bytes : list N) : string :=
  string_of_list_ascii (map ascii_of_N bytes).

Definition whiteSpaceRunes : list string :=
  [ utf8 [0x09]; utf8 [0x0A]; utf8 [0x0B]; utf8 [0x0C]; utf8 [0x0D]; utf8 [0x20];
    utf8 [0xC2; 0x85]; utf8 [0xC2; 0xA0];
    utf8 [0xE1; 0x9A; 0x80];
    utf8 [0xE2; 0x80; 0x80]; utf8 [0xE2; 0x80; 0x81]; utf8 [0xE2; 0x80; 0x82];
    utf8 [0xE2; 0x80; 0x83]; utf8 [0xE2; 0x80; 0x84]; utf8 [0xE2; 0x80; 0x85];
    utf8 [0xE2; 0x80; 0x86]; utf8 [0xE2; 0x80; 0x87]; utf8 [0xE2; 0x80; 0x88];
    utf8 [0xE2; 0x80; 0x89]; utf8 [0xE2; 0x80; 0x8A];
    utf8 [0xE2; 0x80; 0xA8]; utf8 [0xE2; 0x80; 0xA9]; utf8 [0xE2; 0x80; 0xAF];
    utf8 [0xE2; 0x81; 0x9F];
    utf8 [0xE3; 0x80; 0x80] ]%N.

(** Width in bytes of the rune of [runes] that [s] starts with, [0] if it
    starts with none of them. *)
Definition runeWidth (runes : list string) (s : string) : nat :=
  match List.find (fun r => String.prefix r s) runes with
  | Some r => String.length r
  | None => O
  end.

(** The loop of [TrimLeftFunc]: [skip] counts the bytes of the current rune
    that are still to be passed over. *)
Fixpoint trimLeftFrom (runes : list string) (skip : nat) (s : string) : string :=
  match s with
  | EmptyString => EmptyString
  | String _ rest =>
      match skip with
      | S k => trimLeftFrom runes k rest
      | O => match runeWidth runes s with
             | O => s
             | S k => trimLeftFrom runes k rest
             end
      end
  end.

Definition TrimLeftSpace (s : string) : string := trimLeftFrom whiteSpaceRunes 0 s.

(** [TrimRightFunc] decodes runes backwards from the end of the string: the
    same loop on the reversed string with the reversed encodings. *)
Definition TrimRightSpace (s : string) : string :=
  String.rev (trimLeftFrom (map String.rev whiteSpaceRunes) 0 (String.rev s)).

Definition TrimSpace (s : string) : string := TrimRightSpace (TrimLeftSpace s).

End GoStrings.

(** ** Package [bufio]: a [Scanner] with the [ScanLines] split function *)

Module GoBufio.
Import GoStrings.
Local Open Scope Z_scope.

(** The pieces of the input between line feeds; the empty piece after a
    final line feed is no line. *)
Fixpoint splitLines (s : string) : list string :=
  match s with
  | EmptyString => []
  | String c rest =>
      if Ascii.eqb c "010" then EmptyString :: splitLines rest
      else match splitLines rest with
           | [] => [String c EmptyString]
           | l :: ls => String c l :: ls
           end
  end.

(** [dropCR] removes one carriage return from the end of a token. *)
Fixpoint dropCR (data : string) : string :=
  match data with
  | EmptyString => EmptyString
  | String c rest =>
      match rest with
      | EmptyString => if Ascii.eqb c "013" then EmptyString else data
      | _ => String c (dropCR rest)
      end
  end.

(** The buffer of a [Scanner] grows to [MaxScanTokenSize] bytes and no
    further.  A line of that many bytes or more fills the buffer before
    its end is seen, and [Scan] returns false with [ErrTooLong]: that line
    and all that follows is never delivered.  Neither loop of the sources
    looks at [scanner.Err()]. *)
Definition MaxScanTokenSize : Z := 64 * 1024.

Fixpoint scanTokens (raw : list string) : list string :=
  match raw with
  | [] => []
  | l :: rest =>
      if MaxScanTokenSize <=? len l then [] else dropCR l :: scanTokens rest
  end.

(** The successive values of [scanner.Text()] while [scanner.Scan()] is
    true. *)
Definition ScanLines (input : string) : list string := scanTokens (splitLines input).

End GoBufio.

(** ** Package [path/filepath] *)

Module GoFilepath.

(** [Ext] walks back from the end of the path to the last dot of the last
    element.  [extScan] is that walk told from the front: [None] while
    neither a dot nor a separator has been met to the right. *)
Fixpoint extScan (path : string) : option string :=
  match path with
  | EmptyString => None
  | String c rest =>
      match extScan rest with
      | Some e => Some e
      | None =>
          if Ascii.eqb c "." then Some path
          else if Ascii.eqb c "/" then Some EmptyString
          else None
      end
  end.

Definition Ext (path : string) : string := default EmptyString (extScan path).

End GoFilepath.

(** ** Package [regexp]: the one pattern the sources compile

    [^(.+) \(([A-F0-9]{8}-[A-F0-9]{4}-[A-F0-9]{4}-[A-F0-9]{4}-[A-F0-9]{12}|[0-9]{8}-[0-9]{16})\)$] *)

Module GoRegexp.
Import GoStrings.

Definition upperHex (c : ascii) : bool := byteIn c "0123456789ABCDEF".
Definition digit (c : ascii) : bool := byteIn c "0123456789".

(** [[class]{n}]: exactly [n] bytes of the class; the rest of the input. *)
Fixpoint repeatClass (class : ascii -> bool) (n : nat) (s : string) : option string :=
  match n with
  | O => Some s
  | S k => match s with
           | String c rest => if class c then repeatClass class k rest else None
           | EmptyString => None
           end
  end.

(** Runs of the class of the given sizes with a hyphen between two runs. *)
Fixpoint hyphenated (class : ascii -> bool) (sizes : list nat) (s : string)
  : option string :=
  match sizes with
  | [] => Some s
  | [n] => repeatClass class n s
  | n :: more =>
      match repeatClass class n s with
      | Some (String "-" rest) => hyphenated class more rest
      | _ => None
      end
  end.

(** The alternation of the second group, for a whole string. *)
Definition identifierForm (id : string) : bool :=
  match hyphenated upperHex [8; 4; 4; 4; 12]%nat id with
  | Some EmptyString => true
  | _ => match hyphenated digit [8; 16]%nat id with
         | Some EmptyString => true
         | _ => false
         end
  end.

(** [ \((...)\)$] at the current position. *)
Definition identifierTail (s : string) : bool :=
  match s with
  | String " " (String "(" rest) =>
      match hyphenated upperHex [8; 4; 4; 4; 12]%nat rest with
      | Some (String ")" EmptyString) => true
      | _ => match hyphenated digit [8; 16]%nat rest with
             | Some (String ")" EmptyString) => true
             | _ => false
             end
      end
  | _ => false
  end.

(** [^(.+)] then the tail: [.] takes any character but a line feed, and
    [seen] tells that the first group is not empty. *)
Fixpoint matchFrom (seen : bool) (s : string) : bool :=
  (seen && identifierTail s) ||
  match s with
  | EmptyString => false
  | String c rest => if Ascii.eqb c "010" then false else matchFrom true rest
  end.

Definition MatchString (line : string) : bool := matchFrom false line.

End GoRegexp.

(** ** Data of the program and its collaborators *)

Record Device : Type := {
  Name : string;
  UDID : string;
  Avail : bool
}.

Record DeviceList : Type := {
  Devices : gmap string (list Device)
}.

(** What [json.Unmarshal] stores in a value of type [any]; a number is kept
    as the bit pattern of its [float64]. *)
#[warnings="-register-all"]
Inductive any : Type :=
  | anyNil
  | anyBool (b : bool)
  | anyFloat64 (bits : Z)
  | anyString (s : string)
  | anySlice (elems : list any)
  | anyMap (m : gmap string any).

(** [m[key]] on a [map[string]any]: the zero value [nil] for an absent key
    (and for every key of a nil map, which reads as the empty map). *)
Definition index (m : gmap string any) (key : string) : any :=
  default anyNil (m !! key).

(** The type assertions [v.(map[string]any)] and [v.(string)] in their
    one-result form, which panics when the dynamic type differs. *)
Definition assertMap (v : any) : result (gmap string any) :=
  match v with
  | anyMap m => Ok m
  | _ => Panic "interface conversion: interface {} is not map[string]interface {}"
  end.

Definition assertString (v : any) : result string :=
  match v with
  | anyString s => Ok s
  | _ => Panic "interface conversion: interface {} is not string"
  end.

Record DirEntry : Type := {
  entryName : string;
  IsDir : bool
}.

(** A finished child process: the error of [Run]/[Output], if any, and the
    bytes the caller captured. *)
Record execution : Type := {
  exitError : option string;
  captured : string
}.

(** Everything outside the process.  [rangeGroups] and [rangeNames] are the
    orders in which the runtime visits the keys of a map in a [range]
    loop, which the language leaves open. *)
Record world : Type := {
  run : string -> list string -> execution;
  ReadDir : string -> string + list DirEntry;
  unmarshalBuildSettings : string -> string + list (gmap string any);
  unmarshalDeviceList : string -> string + DeviceList;
  rangeGroups : gmap string (list Device) -> list (string * list Device);
  rangeNames : gmap string string -> list string;
  prompt : string -> list string -> string + string
}.

(** A runtime visits every key of a map once. *)
Definition visitsEachGroupOnce (w : world) : Prop :=
  forall groups, rangeGroups w groups ≡ₚ map_to_list groups.

Definition lift {A : Type} (r : string + A) : result A :=
  match r with
  | inl e => Err e
  | inr a => Ok a
  end.

Definition LF : string := String "010" EmptyString.

(** ** Functions shared by the two files *)

Import GoStrings GoBufio GoFilepath GoRegexp.

Definition RunShellCommand (w : world) (command : string) (args : list string)
  : result string :=
  let cmd := run w command args in
  match exitError cmd with
  | Some err => Err ("error running command: " +:+ err +:+ LF +:+ captured cmd)
  | None => Ok (captured cmd)
  end.

Record schemesLoop : Type := {
  schemes : list string;
  inSchemes : bool
}.

Definition schemesBody (st : schemesLoop) (text : string) : schemesLoop :=
  let line := TrimSpace text in
  let schemes' :=
    if inSchemes st && negb (String.eqb line EmptyString)
    then schemes st ++ [line] else schemes st in
  let inSchemes' := if Contains line "Schemes:" then true else inSchemes st in
  {| schemes := schemes'; inSchemes := inSchemes' |}.

Definition GetSchemes (w : world) : result (list string) :=
  output <- RunShellCommand w "xcodebuild" ["-list"] ;;
  let st := fold_left schemesBody (ScanLines output)
                      {| schemes := []; inSchemes := false |} in
  match schemes st with
  | [] => Err "no schemes found"
  | _ => Ok (schemes st)
  end.

Definition PromptUser (w : world) (label : string) (items : list string)
  : result string :=
  lift (prompt w label items).

Record detectLoop : Type := {
  project : string;
  workspace : string
}.

Definition detectBody (st : detectLoop) (file : DirEntry) : detectLoop :=
  if IsDir file then
    if String.eqb (Ext (entryName file)) ".xcworkspace"
    then {| project := project st; workspace := entryName file |}
    else if String.eqb (Ext (entryName file)) ".xcodeproj"
    then {| project := entryName file; workspace := workspace st |}
    else st
  else st.

Definition detectXcodeProject (w : world) : result string :=
  files <- lift (ReadDir w ".") ;;
  let st := fold_left detectBody files
                      {| project := EmptyString; workspace := EmptyString |} in
  if negb (String.eqb (workspace st) EmptyString) then Ok (workspace st)
  else if negb (String.eqb (project st) EmptyString) then Ok (project st)
  else Err "no .xcodeproj or .xcworkspace found in the current directory".

Definition showBuildSettingsArgs (selectedScheme deviceID : string) : list string :=
  ["-scheme"; selectedScheme; "-destination"; "id=" +:+ deviceID;
   "-showBuildSettings"; "-json"].

Definition GetBuildSettings (w : world) (selectedScheme deviceID : string)
  : result (string * string) :=
  let cmd := run w "xcodebuild" (showBuildSettingsArgs selectedScheme deviceID) in
  match exitError cmd with
  | Some err => Err err
  | None =>
      buildSettings <- lift (unmarshalBuildSettings w (captured cmd)) ;;
      match buildSettings with
      | first :: _ =>
          settings <- assertMap (index first "buildSettings") ;;
          builtProductsDir <- assertString (index settings "BUILT_PRODUCTS_DIR") ;;
          contentsFolderPath <- assertString (index settings "CONTENTS_FOLDER_PATH") ;;
          bundleIdentifier <- assertString (index settings "PRODUCT_BUNDLE_IDENTIFIER") ;;
          let appPath := builtProductsDir +:+ "/" +:+ contentsFolderPath in
          Ok (appPath, bundleIdentifier)
      | [] => Err "Unable to find the required build settings"
      end
  end.

(** What the program does that an observer sees: the lines it prints, told
    by their kind and arguments, and the commands it runs for their
    effect. *)
Inductive notice : Type :=
  | Banner
  | ErrorDetecting (err : string)
  | DetectedProject (projectPath : string)
  | ErrorFetchingSchemes (err : string)
  | ErrorSelectingScheme (err : string)
  | ErrorFetchingDevices (err : string)
  | ErrorSelectingDevice (err : string)
  | NoUDIDForDevice
  | Building (selectedScheme selectedDevice deviceUDID : string)
  | ErrorGettingBuildSettings (err : string)
  | NoAppPathOrBundleIdentifier
  | BuildFailed
  | InstallingOnSimulator
  | DeployingToPhysicalDevice
  | Done.

Inductive event : Type :=
  | Println (n : notice)
  | Exec (command : string) (args : list string).

(** [x, err := f(); if err != nil { print; return }]: the trace so far is
    [t]; a panic of [f] aborts the program. *)
Definition orReport {A : Type} (t : list event) (r : result A)
  (report : string -> notice) (k : A -> result (list event))
  : result (list event) :=
  match r with
  | Ok a => k a
  | Err e => Ok (t ++ [Println (report e)])
  | Panic msg => Panic msg
  end.

(** ** [src/xcode-runner.go]: simulators from the JSON listing *)

Module XcodeRunner.

(** The inner loop: the available devices of one group, stored by name. *)
Definition collectGroup (devices : gmap string string) (deviceGroup : list Device)
  : gmap string string :=
  fold_left
    (fun devices device =>
       if Avail device then <[Name device := UDID device]> devices else devices)
    deviceGroup devices.

(** The outer loop, over the groups in the order the runtime visits them. *)
Definition collect (visited : list (string * list Device)) : gmap string string :=
  fold_left (fun devices group => collectGroup devices (snd group)) visited ∅.

Definition GetDevices (w : world) : result (gmap string string) :=
  let cmd := run w "xcrun" ["simctl"; "list"; "devices"; "--json"] in
  match exitError cmd with
  | Some err => Err err
  | None =>
      deviceList <- lift (unmarshalDeviceList w (captured cmd)) ;;
      let devices := collect (rangeGroups w (Devices deviceList)) in
      if bool_decide (size devices = 0%nat)
      then Err "no available simulators found"
      else Ok devices
  end.

Definition buildArgs (selectedScheme deviceUDID : string) : list string :=
  ["-scheme"; selectedScheme; "-destination"; "id=" +:+ deviceUDID; "clean"; "build"].

Definition main (w : world) : result (list event) :=
  let t0 := [Println Banner] in
  orReport t0 (detectXcodeProject w) ErrorDetecting (fun projectPath =>
  let t1 := t0 ++ [Println (DetectedProject projectPath)] in
  orReport t1 (GetSchemes w) ErrorFetchingSchemes (fun schemes =>
  orReport t1 (PromptUser w "Select a Scheme" schemes) ErrorSelectingScheme
    (fun selectedScheme =>
  orReport t1 (GetDevices w) ErrorFetchingDevices (fun devices =>
  let deviceNames := rangeNames w devices in
  orReport t1 (PromptUser w "Select a Device" deviceNames) ErrorSelectingDevice
    (fun selectedDevice =>
  match devices !! selectedDevice with
  | None => Ok (t1 ++ [Println NoUDIDForDevice])
  | Some deviceUDID =>
  let t2 := t1 ++ [Println (Building selectedScheme selectedDevice deviceUDID)] in
  orReport t2 (GetBuildSettings w selectedScheme deviceUDID)
    ErrorGettingBuildSettings (fun settings =>
  let appPath := fst settings in
  let bundleIdentifier := snd settings in
  if String.eqb appPath EmptyString || String.eqb bundleIdentifier EmptyString
  then Ok (t2 ++ [Println NoAppPathOrBundleIdentifier])
  else
  let t3 := t2 ++ [Exec "xcodebuild" (buildArgs selectedScheme deviceUDID)] in
  match exitError (run w "xcodebuild" (buildArgs selectedScheme deviceUDID)) with
  | Some _ => Ok (t3 ++ [Println BuildFailed])
  | None =>
  let t4 :=
    if Contains deviceUDID "-" then
      t3 ++ [Println InstallingOnSimulator;
             Exec "xcrun" ["simctl"; "bootstatus"; deviceUDID; "-b"];
             Exec "xcrun" ["simctl"; "install"; deviceUDID; appPath];
             Exec "xcrun" ["simctl"; "launch"; deviceUDID; bundleIdentifier]]
    else
      t3 ++ [Println DeployingToPhysicalDevice;
             Exec "ios-deploy" ["--bundle"; "build/Debug-iphoneos/*.app";
                                "--id"; deviceUDID; "--debug"]] in
  Ok (t4 ++ [Println Done])
  end)
  end))))).

End XcodeRunner.

(** ** [src/unnamed/part_000]: devices from the text listing of [xctrace] *)

Module Part000.
Local Open Scope Z_scope.

Record devicesLoop : Type := {
  currentSection : string;
  devices : gmap string string
}.

(** One turn of the scanning loop on the line [line]. *)
Definition devicesBody (st : devicesLoop) (line : string) : result devicesLoop :=
  if HasPrefix line "== " then
    Ok {| currentSection := line; devices := devices st |}
  else if String.eqb line EmptyString
          || String.eqb (currentSection st) "== Devices Offline ==" then
    Ok st
  else if String.eqb (currentSection st) "== Devices =="
          || String.eqb (currentSection st) "== Simulators ==" then
    let lastParenIndex := LastIndex line "(" in
    if lastParenIndex =? -1 then Ok st
    else
      udidPart <- sliceFrom line (lastParenIndex + 1) ;;
      let udid := TrimSuffix udidPart ")" in
      deviceName <- sliceTo line (lastParenIndex - 1) ;;
      let versionParenIndex := LastIndex deviceName "(" in
      deviceName <-
        (if negb (versionParenIndex =? -1)
         then prefix <- sliceTo deviceName versionParenIndex ;; Ok (TrimSpace prefix)
         else Ok deviceName) ;;
      if MatchString line
         || ((0 <? len udid)
             && (Contains udid "-" || ContainsAny udid "0123456789ABCDEF"))
      then Ok {| currentSection := currentSection st;
                 devices := <[deviceName := udid]> (devices st) |}
      else Ok st
  else Ok st.

(** The loop over the lines, and the check that follows it. *)
Definition scanDevices (lines : list string) : result (gmap string string) :=
  st <- foldM devicesBody lines
          {| currentSection := EmptyString; devices := ∅ |} ;;
  if bool_decide (size (devices st) = 0%nat)
  then Err "no available simulators found"
  else Ok (devices st).

Definition GetDevices (w : world) : result (gmap string string) :=
  let cmd := run w "xcrun" ["xctrace"; "list"; "devices"] in
  match exitError cmd with
  | Some err => Err err
  | None => scanDevices (ScanLines (captured cmd))
  end.

Definition buildArgs (selectedScheme deviceUDID : string) : list string :=
  ["-scheme"; selectedScheme; "-destination"; "id=" +:+ deviceUDID;
   "-configuration"; "Debug"; "build"].

Definition main (w : world) : result (list event) :=
  let t0 := [Println Banner] in
  orReport t0 (detectXcodeProject w) ErrorDetecting (fun projectPath =>
  let t1 := t0 ++ [Println (DetectedProject projectPath)] in
  orReport t1 (GetSchemes w) ErrorFetchingSchemes (fun schemes =>
  match schemes with
  | [] => Panic "index out of range [0] with length 0"
  | selectedScheme :: _ =>
  orReport t1 (GetDevices w) ErrorFetchingDevices (fun devices =>
  let deviceNames := rangeNames w devices in
  orReport t1 (PromptUser w "Select a Device" deviceNames) ErrorSelectingDevice
    (fun selectedDevice =>
  match devices !! selectedDevice with
  | None => Ok (t1 ++ [Println NoUDIDForDevice])
  | Some deviceUDID =>
  let t2 := t1 ++ [Println (Building selectedScheme selectedDevice deviceUDID)] in
  orReport t2 (GetBuildSettings w selectedScheme deviceUDID)
    ErrorGettingBuildSettings (fun settings =>
  let appPath := fst settings in
  let bundleIdentifier := snd settings in
  if String.eqb appPath EmptyString || String.eqb bundleIdentifier EmptyString
  then Ok (t2 ++ [Println NoAppPathOrBundleIdentifier])
  else
  let isSim := Contains appPath "simulator" in
  let t3 := t2 ++ [Exec "xcodebuild" (buildArgs selectedScheme deviceUDID)] in
  match exitError (run w "xcodebuild" (buildArgs selectedScheme deviceUDID)) with
  | Some _ => Ok (t3 ++ [Println BuildFailed])
  | None =>
  let t4 :=
    if isSim then
      t3 ++ [Println InstallingOnSimulator;
             Exec "xcrun" ["simctl"; "bootstatus"; deviceUDID; "-b"];
             Exec "xcrun" ["simctl"; "install"; deviceUDID; appPath];
             Exec "xcrun" ["simctl"; "launch"; deviceUDID; bundleIdentifier]]
    else
      t3 ++ [Println DeployingToPhysicalDevice;
             Exec "xcrun" ["devicectl"; "device"; "install"; "app";
                           "--device"; deviceUDID; "--bundle"; appPath];
             Exec "xcrun" ["devicectl"; "device"; "process"; "launch";
                           "--device"; deviceUDID; "--start-stopped";
                           bundleIdentifier]] in
  Ok (t4 ++ [Println Done])
  end)
  end))
  end)).

End Part000.

(** * The vocabulary of the statements *)

(** ** Byte strings *)

Fixpoint allBytes (P : ascii -> bool) (s : string) : bool :=
  match s with
  | EmptyString => true
  | String c rest => P c && allBytes P rest
  end.

(** The last byte of the string is [z]. *)
Fixpoint endsWith (z : ascii) (s : string) : bool :=
  match s with
  | EmptyString => false
  | String c EmptyString => Ascii.eqb c z
  | String _ rest => endsWith z rest
  end.

Definition noParen (s : string) : bool :=
  allBytes (fun c => negb (Ascii.eqb c "(")) s.

Definition classOrHyphen (class : ascii -> bool) (c : ascii) : bool :=
  class c || Ascii.eqb c "-".

(** What is left of the input is the closing parenthesis. *)
Definition closes (left : option string) : bool :=
  match left with
  | Some (String ")" EmptyString) => true
  | _ => false
  end.

(** ** The project locator *)

(** A workspace entry and a project entry of a directory listing: a
    sub-directory with the extension in question. *)
Definition isWorkspace (file : DirEntry) : bool :=
  IsDir file && String.eqb (Ext (entryName file)) ".xcworkspace".

Definition isProject (file : DirEntry) : bool :=
  IsDir file && String.eqb (Ext (entryName file)) ".xcodeproj".

Definition notFound : string :=
  "no .xcodeproj or .xcworkspace found in the current directory".

(** ** The scheme parser *)

(** The lines of a text: its pieces between line feeds, each without the
    carriage return that may end it. *)
Definition textLines (text : string) : list string := map dropCR (splitLines text).

(** Every line of the text is short enough for the buffer of the scanner. *)
Definition fitsScanner (text : string) : Prop :=
  Forall (fun l => (len l < MaxScanTokenSize)%Z) (splitLines text).

Definition hasMarker (line : string) : bool := Contains line "Schemes:".

Definition nonBlank (line : string) : bool :=
  negb (String.eqb (TrimSpace line) EmptyString).

Definition noSchemes : string := "no schemes found".

(** ** The build settings *)

Definition requiredKeys : list string :=
  ["BUILT_PRODUCTS_DIR"; "CONTENTS_FOLDER_PATH"; "PRODUCT_BUNDLE_IDENTIFIER"].

(** The key is absent from the mapping or bound to a value that is not a
    string. *)
Definition notAString (settings : gmap string any) (key : string) : Prop :=
  forall s, settings !! key <> Some (anyString s).

(** ** The registry of the JSON listing *)

Definition simctlArgs : list string := ["simctl"; "list"; "devices"; "--json"].

(** The map after one turn of the inner loop. *)
Definition storeDevice (devices : gmap string string) (device : Device)
  : gmap string string :=
  if Avail device then <[Name device := UDID device]> devices else devices.

(** The records in the order in which the two loops meet them. *)
Definition visitedRecords (visited : list (string * list Device)) : list Device :=
  concat (map snd visited).

(** The identifier of the last available record of that name. *)
Definition lastSeen (name : string) (records : list Device) : option string :=
  UDID <$> last (filter (fun d => Avail d = true /\ Name d = name) records).

(** ** The registry of the text listing *)

Definition xctraceArgs : list string := ["xctrace"; "list"; "devices"].

(** The header that the line after [lines] lies under: the last of
    [lines] that starts a section, the empty string before the first. *)
Definition sectionOf (lines : list string) : string :=
  fold_left (fun section line => if HasPrefix line "== " then line else section)
            lines EmptyString.

(** The identifier of a line: what follows its last opening parenthesis,
    without a closing parenthesis at the end. *)
Definition extractedIdentifier (line : string) : option string :=
  let lastParenIndex := LastIndex line "(" in
  if (lastParenIndex =? -1)%Z then None
  else match sliceFrom line (lastParenIndex + 1) with
       | Ok udidPart => Some (TrimSuffix udidPart ")")
       | _ => None
       end.

(** Not empty, and with a hyphen or one of the characters [0-9A-F]. *)
Definition fallbackForm (udid : string) : bool :=
  (0 <? len udid)%Z && (Contains udid "-" || ContainsAny udid "0123456789ABCDEF").

(** The form of the pattern, or else the permissive form. *)
Definition acceptable (udid : string) : bool :=
  identifierForm udid || fallbackForm udid.

(** ** The orchestrator *)

Definition simulatorSteps (deviceUDID appPath bundleIdentifier : string) : list event :=
  [ Println InstallingOnSimulator;
    Exec "xcrun" ["simctl"; "bootstatus"; deviceUDID; "-b"];
    Exec "xcrun" ["simctl"; "install"; deviceUDID; appPath];
    Exec "xcrun" ["simctl"; "launch"; deviceUDID; bundleIdentifier] ].

Definition physicalSteps (deviceUDID appPath bundleIdentifier : string) : list event :=
  [ Println DeployingToPhysicalDevice;
    Exec "xcrun" ["devicectl"; "device"; "install"; "app";
                  "--device"; deviceUDID; "--bundle"; appPath];
    Exec "xcrun" ["devicectl"; "device"; "process"; "launch";
                  "--device"; deviceUDID; "--start-stopped"; bundleIdentifier] ].

Definition legacyPhysicalSteps (deviceUDID : string) : list event :=
  [ Println DeployingToPhysicalDevice;
    Exec "ios-deploy" ["--bundle"; "build/Debug-iphoneos/*.app";
                       "--id"; deviceUDID; "--debug"] ].

(** * Sample collaborators

    Concrete worlds and inputs on which the statements are exercised. *)

Definition silent : execution := {| exitError := None; captured := EmptyString |}.

Definition prints (out : string) : execution :=
  {| exitError := None; captured := out |}.

Definition sampleWorld (files : list DirEntry)
  (runs : string -> list string -> execution)
  (settings : string + list (gmap string any))
  (listing : string + DeviceList)
  (choice : string + string) : world :=
  {| run := runs;
     ReadDir := fun _ => inr files;
     unmarshalBuildSettings := fun _ => settings;
     unmarshalDeviceList := fun _ => listing;
     rangeGroups := map_to_list;
     rangeNames := fun m => map fst (map_to_list m);
     prompt := fun _ _ => choice |}.

(** A runtime that visits the groups in the opposite order. *)
Definition backwards (w : world) : world :=
  {| run := run w;
     ReadDir := ReadDir w;
     unmarshalBuildSettings := unmarshalBuildSettings w;
     unmarshalDeviceList := unmarshalDeviceList w;
     rangeGroups := fun groups => reverse (rangeGroups w groups);
     rangeNames := rangeNames w;
     prompt := prompt w |}.

(** Worlds in which one collaborator answers and the others fail. *)
Definition dir (name : string) : DirEntry := {| entryName := name; IsDir := true |}.

Definition onlyFiles (files : list DirEntry) : world :=
  sampleWorld files (fun _ _ => silent) (inl "unexpected end of JSON input")
              (inl "unexpected end of JSON input") (inl "^C").

Definition onlyOutput (out : string) : world :=
  sampleWorld [] (fun _ _ => prints out) (inl "unexpected end of JSON input")
              (inl "unexpected end of JSON input") (inl "^C").

Definition onlySettings (payload : list (gmap string any)) : world :=
  sampleWorld [] (fun _ _ => silent) (inr payload)
              (inl "unexpected end of JSON input") (inl "^C").

Definition onlyListing (groups : list (string * list Device)) : world :=
  sampleWorld [] (fun _ _ => silent) (inl "unexpected end of JSON input")
              (inr {| Devices := list_to_map groups |}) (inl "^C").

(** Scheme listings. *)
Definition twoSchemes : string :=
  "Schemes:" +:+ LF +:+ "  Debug" +:+ LF +:+ "  Release" +:+ LF.

Definition schemesText : string :=
  "Information about project App:" +:+ LF +:+
  "    Schemes:" +:+ LF +:+
  "        App" +:+ LF +:+
  "        AppTests" +:+ LF.

(** A line of 131072 bytes before the header of the scheme section. *)
Definition oversizedLine : string := Nat.iter 17 (fun s => s +:+ s) "x".

Definition oversizedText : string :=
  oversizedLine +:+ LF +:+ "Schemes:" +:+ LF +:+ "Debug" +:+ LF.

(** Build settings. *)
Definition settingsRecord (fields : list (string * any)) : gmap string any :=
  {[ "buildSettings" := anyMap (list_to_map fields) ]}.

Definition minimalFields : list (string * any) :=
  [ ("BUILT_PRODUCTS_DIR", anyString "/tmp/Build/Debug-iphonesimulator");
    ("CONTENTS_FOLDER_PATH", anyString "App.app");
    ("PRODUCT_BUNDLE_IDENTIFIER", anyString "com.example.App") ].

Definition minimalSettings : list (gmap string any) :=
  [ settingsRecord minimalFields ].

Definition settingsWithoutBundleIdentifier : list (gmap string any) :=
  [ settingsRecord
      [ ("BUILT_PRODUCTS_DIR", anyString "/tmp/Build/Debug-iphonesimulator");
        ("CONTENTS_FOLDER_PATH", anyString "App.app") ] ].

Definition phoneFields : list (string * any) :=
  [ ("BUILT_PRODUCTS_DIR", anyString "/tmp/Build/Debug-iphoneos");
    ("CONTENTS_FOLDER_PATH", anyString "App.app");
    ("PRODUCT_BUNDLE_IDENTIFIER", anyString "com.example.App") ].

(** JSON listings. *)
Definition oneSimulator : list (string * list Device) :=
  [ ("com.apple.CoreSimulator.SimRuntime.iOS-17-0",
     [ {| Name := "iPhone 15"; UDID := "ABCD-1234"; Avail := true |};
       {| Name := "iPhone 14"; UDID := "EF01-5678"; Avail := false |} ]) ].

Definition sameNameTwice : list (string * list Device) :=
  [ ("com.apple.CoreSimulator.SimRuntime.iOS-16-4",
     [ {| Name := "iPhone 15"; UDID := "AAAA-0001"; Avail := true |} ]);
    ("com.apple.CoreSimulator.SimRuntime.iOS-17-0",
     [ {| Name := "iPhone 15"; UDID := "BBBB-0002"; Avail := true |} ]) ].

(** Text listings. *)
Definition devicesText : string :=
  "== Devices ==" +:+ LF +:+
  "My iPhone (17.0) (00008030-001C195E0E87802E)" +:+ LF +:+
  "== Simulators ==" +:+ LF +:+
  "iPhone 15 (17.0) (12345678-1234-1234-1234-123456789ABC)" +:+ LF.

Definition offlineText : string :=
  "== Devices Offline ==" +:+ LF +:+
  "Old iPhone (16.2) (00008030-001C195E0E87802E)" +:+ LF +:+
  "== Simulators ==" +:+ LF +:+
  "iPhone 15 (17.0) (12345678-1234-1234-1234-123456789ABC)" +:+ LF.

(** Records whose only parenthesis opens the line. *)
Definition parenFirstText : string :=
  "== Devices ==" +:+ LF +:+ "(ABC)" +:+ LF.

Definition bareIdentifierText : string :=
  "== Simulators ==" +:+ LF +:+ "(12345678-1234-1234-1234-123456789ABC)" +:+ LF.

(** A whole session: a project directory, the two listings, settings of a
    build for a physical phone, and an operator who picks that phone. *)
Definition phoneSession : world :=
  sampleWorld [dir "App.xcodeproj"]
    (fun command args =>
       if String.eqb command "xcrun" then prints devicesText
       else if bool_decide (args = ["-list"]) then prints schemesText
       else silent)
    (inr [settingsRecord phoneFields])
    (inl "unexpected end of JSON input")
    (inr "My iPhone").

(** A whole session of [xcode-runner.go]: the same project and schemes, the
    JSON listing with one available simulator, settings of a build for a
    physical phone, and an operator who picks the scheme [App] and that
    simulator. *)
Definition legacySession : world :=
  {| run := fun command args =>
              if bool_decide (args = ["-list"]) then prints schemesText else silent;
     ReadDir := fun _ => inr [dir "App.xcodeproj"];
     unmarshalBuildSettings := fun _ => inr [settingsRecord phoneFields];
     unmarshalDeviceList := fun _ => inr {| Devices := list_to_map oneSimulator |};
     rangeGroups := map_to_list;
     rangeNames := fun m => map fst (map_to_list m);
     prompt := fun label _ =>
                 if String.eqb label "Select a Scheme" then inr "App"
                 else inr "iPhone 15" |}.

(** Case analysis on the next test or the next fallible step of a loop
    body. *)
Ltac body_case :=
  match goal with
  | |- context [bind ?c _] =>
      lazymatch c with
      | context [bind _ _] => fail
      | _ => destruct c; cbn [bind]
      end
  | |- context [if ?c then _ else _] =>
      lazymatch c with
      | context [if _ then _ else _] => fail
      | _ => destruct c
      end
  end.

(** * Further vocabulary *)

(** ** The text listing *)

(** The two sections of the listing that the parser reads. *)
Definition inDeviceSection (section : string) : bool :=
  String.eqb section "== Devices ==" || String.eqb section "== Simulators ==".

(** The current section after the lines [lines], from the section
    [section]. *)
Definition sectionAfter (section : string) (lines : list string) : string :=
  fold_left (fun section line => if HasPrefix line "== " then line else section)
            lines section.

(** A line of a device section, no header, whose last opening parenthesis
    is its first byte. *)
Definition opensWithLastParen (section line : string) : bool :=
  inDeviceSection section && negb (HasPrefix line "== ")
  && (LastIndex line "(" =? 0)%Z.

(** A line that a turn of the loop passes over: outside the two device
    sections, empty, or without an opening parenthesis. *)
Definition passedOver (section line : string) : bool :=
  negb (inDeviceSection section) || String.eqb line EmptyString
  || (LastIndex line "(" =? -1)%Z.

(** The state after storing an entry. *)
Definition stored (st : Part000.devicesLoop) (deviceName udid : string)
  : Part000.devicesLoop :=
  {| Part000.currentSection := Part000.currentSection st;
     Part000.devices := <[deviceName := udid]> (Part000.devices st) |}.

(** ** The project locator *)

(** The entries that the loop of the locator looks at. *)
Definition isDescriptor (file : DirEntry) : bool := isWorkspace file || isProject file.

(** ** The JSON listing *)

(** A record of the listing. *)
Definition listed (deviceList : DeviceList) (d : Device) : Prop :=
  exists group records, Devices deviceList !! group = Some records /\ d ∈ records.

(** Available records of one name carry one identifier. *)
Definition consistentNames (deviceList : DeviceList) : Prop :=
  forall d1 d2,
    listed deviceList d1 -> listed deviceList d2 ->
    Avail d1 = true -> Avail d2 = true ->
    Name d1 = Name d2 -> UDID d1 = UDID d2.

Definition noSimulators : string := "no available simulators found".

Definition twoRuntimes : list (string * list Device) :=
  [ ("com.apple.CoreSimulator.SimRuntime.iOS-16-4",
     [ {| Name := "iPhone 14"; UDID := "AAAA-0001"; Avail := true |} ]);
    ("com.apple.CoreSimulator.SimRuntime.iOS-17-0",
     [ {| Name := "iPhone 15"; UDID := "BBBB-0002"; Avail := true |};
       {| Name := "iPhone 14"; UDID := "CCCC-0003"; Avail := false |} ]) ].

(** ** The scheme listing *)

Definition listArgs : list string := ["-list"].

(** The turn of the scheme loop on a line that is trimmed already. *)
Definition schemesBodyTrimmed (st : schemesLoop) (line : string) : schemesLoop :=
  {| schemes := if inSchemes st && negb (String.eqb line EmptyString)
                then schemes st ++ [line] else schemes st;
     inSchemes := if Contains line "Schemes:" then true else inSchemes st |}.

(** ** The runs of the orchestrator *)

(** The lines that report progress, as opposed to an end of the run. *)
Definition isProgress (e : event) : bool :=
  match e with
  | Println Banner | Println (DetectedProject _) | Println (Building _ _ _) => true
  | _ => false
  end.

(** The lines that report a failed stage before the build. *)
Definition isStageFailure (n : notice) : bool :=
  match n with
  | ErrorDetecting _ | ErrorFetchingSchemes _ | ErrorSelectingScheme _
  | ErrorFetchingDevices _ | ErrorSelectingDevice _ | NoUDIDForDevice
  | ErrorGettingBuildSettings _ | NoAppPathOrBundleIdentifier => true
  | _ => false
  end.

(** The three ways in which a run of [main] of [part_000] ends when it
    does not panic. *)
Inductive ending (w : world) (trace : list event) : Prop :=
  | stoppedEarly (pre : list event) (n : notice) :
      trace = pre ++ [Println n] ->
      forallb isProgress pre = true ->
      isStageFailure n = true ->
      ending w trace
  | buildFailed (pre : list event) (selectedScheme deviceUDID : string) :
      trace = pre ++ [Exec "xcodebuild" (Part000.buildArgs selectedScheme deviceUDID);
                      Println BuildFailed] ->
      forallb isProgress pre = true ->
      exitError (run w "xcodebuild" (Part000.buildArgs selectedScheme deviceUDID))
      <> None ->
      ending w trace
  | deployed (pre : list event)
      (selectedScheme deviceUDID appPath bundleIdentifier : string) :
      trace = pre ++ [Exec "xcodebuild" (Part000.buildArgs selectedScheme deviceUDID)]
                  ++ (if Contains appPath "simulator"
                      then simulatorSteps deviceUDID appPath bundleIdentifier
                      else physicalSteps deviceUDID appPath bundleIdentifier)
                  ++ [Println Done] ->
      forallb isProgress pre = true ->
      GetBuildSettings w selectedScheme deviceUDID = Ok (appPath, bundleIdentifier) ->
      bundleIdentifier <> EmptyString ->
      exitError (run w "xcodebuild" (Part000.buildArgs selectedScheme deviceUDID))
      = None ->
      ending w trace.

(** The operator picks one of the items shown. *)
Definition picksAnItem (w : world) : Prop :=
  forall label items choice, prompt w label items = inr choice -> choice ∈ items.

(** The runtime ranges over keys of the map. *)
Definition rangesOverKeys (w : world) : Prop :=
  forall (m : gmap string string) name, name ∈ rangeNames w m -> is_Some (m !! name).

(** The commands of the deployment: the three of [simctl] for a simulator,
    those of [devicectl] and, in [xcode-runner.go], [ios-deploy]. *)
Definition isDeployCommand (command : string) (args : list string) : bool :=
  String.eqb command "xcrun"
  && match args with
     | tool :: rest =>
         String.eqb tool "devicectl"
         || String.eqb tool "simctl"
            && match rest with
               | subcommand :: _ =>
                   String.eqb subcommand "bootstatus"
                   || String.eqb subcommand "install"
                   || String.eqb subcommand "launch"
               | [] => false
               end
     | [] => false
     end
  || String.eqb command "ios-deploy".

(** Two worlds that differ at most in what the commands of the deployment
    do. *)
Definition sameUpToDeployment (w1 w2 : world) : Prop :=
  (forall command args,
     isDeployCommand command args = false -> run w1 command args = run w2 command args)
  /\ (forall path, ReadDir w1 path = ReadDir w2 path)
  /\ (forall data, unmarshalBuildSettings w1 data = unmarshalBuildSettings w2 data)
  /\ (forall data, unmarshalDeviceList w1 data = unmarshalDeviceList w2 data)
  /\ (forall groups, rangeGroups w1 groups = rangeGroups w2 groups)
  /\ (forall names, rangeNames w1 names = rangeNames w2 names)
  /\ (forall label items, prompt w1 label items = prompt w2 label items).

(** The same world, in which the commands of the deployment fail. *)
Definition failingDeployment (w : world) : world :=
  {| run := fun command args =>
              if isDeployCommand command args
              then {| exitError := Some "exit status 1"; captured := EmptyString |}
              else run w command args;
     ReadDir := ReadDir w;
     unmarshalBuildSettings := unmarshalBuildSettings w;
     unmarshalDeviceList := unmarshalDeviceList w;
     rangeGroups := rangeGroups w;
     rangeNames := rangeNames w;
     prompt := prompt w |}.

(** The same world, with an operator who picks [choice] when it is shown
    and leaves otherwise. *)
Definition carefulOperator (choice : string) (w : world) : world :=
  {| run := run w;
     ReadDir := ReadDir w;
     unmarshalBuildSettings := unmarshalBuildSettings w;
     unmarshalDeviceList := unmarshalDeviceList w;
     rangeGroups := rangeGroups w;
     rangeNames := rangeNames w;
     prompt := fun _ items =>
                 if bool_decide (choice ∈ items) then inr choice else inl "^C" |}.

(** A session in which the settings lack the bundle identifier. *)
Definition faultySession : world :=
  sampleWorld [dir "App.xcodeproj"]
    (fun command args =>
       if String.eqb command "xcrun" then prints devicesText
       else if bool_decide (args = ["-list"]) then prints schemesText
       else silent)
    (inr settingsWithoutBundleIdentifier)
    (inr {| Devices := list_to_map oneSimulator |})
    (inr "iPhone 15").

(** * Properties *)

(** ** Outcomes *)

Lemma bind_Ok {A B : Type} (c : result A) (k : A -> result B) (b : B) :
  bind c k = Ok b -> exists a, c = Ok a /\ k a = Ok b.
Proof. destruct c as [a|e|msg]; simpl; intros H; [eauto | discriminate..]. Qed.

Lemma foldM_app {A S : Type} (body : S -> A -> result S) (l1 l2 : list A) (st : S) :
  foldM body (l1 ++ l2) st = (st' <- foldM body l1 st ;; foldM body l2 st').
Proof.
  revert st. induction l1 as [|x l1 IH]; intros st; simpl; [reflexivity|].
  destruct (body st x) as [st1|e|msg]; simpl; [apply IH | reflexivity..].
Qed.

(** ** Byte strings *)

Lemma string_app_cons (c : ascii) (s t : string) : String c s +:+ t = String c (s +:+ t).
Proof. reflexivity. Qed.

Lemma string_app_nil_l (t : string) : EmptyString +:+ t = t.
Proof. reflexivity. Qed.

Lemma string_app_nil_r (s : string) : s +:+ EmptyString = s.
Proof. induction s as [|c s IH]; [reflexivity|]. rewrite string_app_cons, IH. reflexivity. Qed.

Lemma string_app_assoc (s t u : string) : (s +:+ t) +:+ u = s +:+ (t +:+ u).
Proof.
  induction s as [|c s IH]; [reflexivity|]. rewrite !string_app_cons, IH. reflexivity.
Qed.

Lemma string_rev_app_spec (s t : string) : String.rev_app s t = String.rev s +:+ t.
Proof.
  unfold String.rev. revert t. induction s as [|c s IH]; intros t; simpl; [reflexivity|].
  rewrite (IH (String c t)), (IH (String c EmptyString)), string_app_assoc. reflexivity.
Qed.

Lemma string_rev_cons (c : ascii) (s : string) :
  String.rev (String c s) = String.rev s +:+ String c EmptyString.
Proof. unfold String.rev at 1. simpl. apply string_rev_app_spec. Qed.

Lemma string_rev_app_distr (s t : string) : String.rev (s +:+ t) = String.rev t +:+ String.rev s.
Proof.
  induction s as [|c s IH].
  - rewrite string_app_nil_l. change (String.rev EmptyString) with EmptyString.
    rewrite string_app_nil_r. reflexivity.
  - rewrite string_app_cons, !string_rev_cons, IH, string_app_assoc. reflexivity.
Qed.

Lemma string_rev_involutive (s : string) : String.rev (String.rev s) = s.
Proof.
  induction s as [|c s IH]; [reflexivity|].
  rewrite string_rev_cons, string_rev_app_distr, IH. reflexivity.
Qed.

Lemma allBytes_app (P : ascii -> bool) (s t : string) :
  allBytes P (s +:+ t) = allBytes P s && allBytes P t.
Proof.
  induction s as [|c s IH]; [reflexivity|].
  rewrite string_app_cons. simpl. rewrite IH, andb_assoc. reflexivity.
Qed.

Lemma allBytes_rev (P : ascii -> bool) (s : string) :
  allBytes P (String.rev s) = allBytes P s.
Proof.
  induction s as [|c s IH]; [reflexivity|].
  rewrite string_rev_cons, allBytes_app, IH. simpl. rewrite andb_true_r. apply andb_comm.
Qed.

Lemma allBytes_weaken (P Q : ascii -> bool) (s : string) :
  (forall c, P c = true -> Q c = true) -> allBytes P s = true -> allBytes Q s = true.
Proof.
  intros HPQ. induction s as [|c s IH]; [reflexivity|]. cbn [allBytes].
  intros H. apply andb_true_iff in H as [Hc Hs]. rewrite (HPQ c Hc), (IH Hs). reflexivity.
Qed.

Lemma iter_succ {A : Type} (n : nat) (f : A -> A) (x : A) :
  Nat.iter (S n) f x = f (Nat.iter n f x).
Proof. reflexivity. Qed.

Lemma allBytes_doubled (P : ascii -> bool) (n : nat) (s : string) :
  allBytes P (Nat.iter n (fun s => s +:+ s) s) = allBytes P s.
Proof.
  induction n as [|n IH]; [reflexivity|].
  rewrite iter_succ, allBytes_app, IH. apply andb_diag.
Qed.

Lemma prefix_cons (a b : ascii) (s t : string) :
  String.prefix (String a s) (String b t) = Ascii.eqb a b && String.prefix s t.
Proof.
  simpl. destruct (ascii_dec a b) as [->|Hne].
  - rewrite Ascii.eqb_refl. reflexivity.
  - apply Ascii.eqb_neq in Hne. rewrite Hne. reflexivity.
Qed.

Lemma prefix_nil (s : string) : String.prefix EmptyString s = true.
Proof. destruct s; reflexivity. Qed.



Lemma len_app (s t : string) : (len (s +:+ t) = len s + len t)%Z.
Proof.
  induction s as [|c s IH]; [reflexivity|].
  rewrite string_app_cons. cbn [len]. rewrite IH. lia.
Qed.

Lemma len_length (s : string) : len s = Z.of_nat (String.length s).
Proof. induction s as [|c s IH]; [reflexivity|]. cbn [len String.length]. lia. Qed.

Lemma len_nonneg (s : string) : (0 <= len s)%Z.
Proof. rewrite len_length. lia. Qed.

Lemma len_doubled (n : nat) (s : string) :
  (len (Nat.iter n (fun s => s +:+ s) s) = 2 ^ Z.of_nat n * len s)%Z.
Proof.
  induction n as [|n IH]; [simpl; lia|].
  rewrite iter_succ, len_app, IH, Nat2Z.inj_succ, Z.pow_succ_r by lia. lia.
Qed.

Lemma substring_0_length (s : string) : String.substring 0 (String.length s) s = s.
Proof. induction s as [|c s IH]; [reflexivity|]. simpl. rewrite IH. reflexivity. Qed.

Lemma substring_0_app (s t : string) :
  String.substring 0 (String.length s) (s +:+ t) = s.
Proof.
  induction s as [|c s IH]; [destruct t; reflexivity|].
  rewrite string_app_cons. simpl. rewrite IH. reflexivity.
Qed.

Lemma substring_skip_app (s t : string) (m : nat) :
  String.substring (String.length s) m (s +:+ t) = String.substring 0 m t.
Proof.
  induction s as [|c s IH]; [reflexivity|].
  rewrite string_app_cons. simpl. exact IH.
Qed.

(** ** Slice expressions and [strings.TrimSuffix] *)

Lemma sliceFrom_app (s t : string) : sliceFrom (s +:+ t) (len s) = Ok t.
Proof.
  unfold sliceFrom, slice. rewrite len_app.
  pose proof (len_nonneg s). pose proof (len_nonneg t).
  replace ((0 <=? len s)%Z) with true by (symmetry; apply Z.leb_le; lia).
  replace ((len s <=? len s + len t)%Z) with true by (symmetry; apply Z.leb_le; lia).
  rewrite Z.leb_refl. cbn [andb].
  replace (len s + len t - len s)%Z with (len t) by lia.
  rewrite !len_length, !Nat2Z.id, substring_skip_app, substring_0_length.
  reflexivity.
Qed.

Lemma TrimSuffix_app (s suffix : string) : TrimSuffix (s +:+ suffix) suffix = s.
Proof.
  unfold TrimSuffix, HasSuffix. rewrite len_app.
  pose proof (len_nonneg s).
  replace ((len suffix <=? len s + len suffix)%Z) with true
    by (symmetry; apply Z.leb_le; lia).
  replace (len s + len suffix - len suffix)%Z with (len s) by lia.
  rewrite !len_length, !Nat2Z.id, substring_skip_app, substring_0_length.
  rewrite String.eqb_refl. cbn [andb]. apply substring_0_app.
Qed.

(** ** [strings.Contains] *)

Lemma indexFrom_sign (s substr : string) (i j : Z) :
  (0 <= i)%Z -> (0 <= j)%Z ->
  (0 <=? indexFrom i s substr)%Z = (0 <=? indexFrom j s substr)%Z.
Proof.
  revert i j. induction s as [|c s IH]; intros i j Hi Hj; cbn [indexFrom].
  - destruct (String.prefix substr EmptyString); [|reflexivity].
    transitivity true; [|symmetry]; apply Z.leb_le; assumption.
  - destruct (String.prefix substr (String c s)).
    + transitivity true; [|symmetry]; apply Z.leb_le; assumption.
    + apply IH; lia.
Qed.

Lemma Contains_cons (c : ascii) (s substr : string) :
  Contains (String c s) substr
  = String.prefix substr (String c s) || Contains s substr.
Proof.
  unfold Contains, Index. cbn [indexFrom].
  destruct (String.prefix substr (String c s)); [reflexivity|].
  simpl orb. apply indexFrom_sign; lia.
Qed.

Lemma Contains_nil (substr : string) :
  Contains EmptyString substr = String.prefix substr EmptyString.
Proof.
  unfold Contains, Index. cbn [indexFrom].
  destruct (String.prefix substr EmptyString); reflexivity.
Qed.

Lemma Contains_prefix (s substr : string) :
  String.prefix substr s = true -> Contains s substr = true.
Proof.
  intros H. destruct s as [|c s].
  - rewrite Contains_nil. exact H.
  - rewrite Contains_cons, H. reflexivity.
Qed.

Lemma Contains_app_intro (u t substr : string) :
  Contains t substr = true -> Contains (u +:+ t) substr = true.
Proof.
  intros H. induction u as [|c u IH]; [exact H|].
  rewrite string_app_cons, Contains_cons, IH. apply orb_true_r.
Qed.

Lemma Contains_nonempty (s : string) : Contains s "-" = true -> (0 <? len s)%Z = true.
Proof.
  destruct s as [|c s]; [discriminate|]. intros _. cbn [len].
  pose proof (len_nonneg s). apply Z.ltb_lt. lia.
Qed.

Lemma prefix_last_byte (P : ascii -> bool) (z : ascii) (m v : string) :
  endsWith z m = true -> String.prefix m v = true -> allBytes P v = true -> P z = true.
Proof.
  revert v. induction m as [|c m IH]; intros v Hz Hpre Hv; [discriminate|].
  destruct v as [|d v]; [discriminate|].
  rewrite prefix_cons in Hpre. apply andb_true_iff in Hpre as [Hc Hpre].
  simpl in Hv. apply andb_true_iff in Hv as [Hd Hv].
  destruct m as [|c' m].
  - simpl in Hz. apply Ascii.eqb_eq in Hz as <-. apply Ascii.eqb_eq in Hc as ->. exact Hd.
  - apply (IH v); assumption.
Qed.

Lemma prefix_strip_right (P : ascii -> bool) (z : ascii) (m t v : string) :
  endsWith z m = true -> P z = false -> allBytes P v = true ->
  String.prefix m (t +:+ v) = String.prefix m t.
Proof.
  intros Hz HPz Hv. revert m Hz. induction t as [|c t IH]; intros m Hz.
  - rewrite string_app_nil_l. destruct m as [|m0 m]; [discriminate|].
    destruct (String.prefix (String m0 m) v) eqn:Hpre.
    + rewrite (prefix_last_byte P z _ v Hz Hpre Hv) in HPz. discriminate.
    + reflexivity.
  - destruct m as [|m0 m]; [discriminate|].
    rewrite string_app_cons, !prefix_cons. destruct m as [|m1 m].
    + rewrite !prefix_nil. reflexivity.
    + rewrite (IH (String m1 m)); [reflexivity | exact Hz].
Qed.

(** ** [strings.LastIndex] *)

Lemma prefix_paren (c : ascii) (s : string) :
  String.prefix "(" (String c s) = Ascii.eqb "(" c.
Proof. rewrite prefix_cons, prefix_nil. apply andb_true_r. Qed.

Lemma lastIndexFrom_noParen (s : string) (i found : Z) :
  noParen s = true -> lastIndexFrom i s "(" found = found.
Proof.
  revert i found. induction s as [|c s IH]; intros i found Hs; [reflexivity|].
  unfold noParen in Hs. cbn [allBytes] in Hs. apply andb_true_iff in Hs as [Hc Hs].
  cbn [lastIndexFrom]. rewrite prefix_paren.
  apply negb_true_iff in Hc. rewrite Ascii.eqb_sym, Hc. apply IH, Hs.
Qed.

(** The last parenthesis of a string is where [LastIndex] says. *)
Lemma lastIndexFrom_last_paren (s t : string) (i found : Z) :
  noParen t = true ->
  lastIndexFrom i (s +:+ String "(" t) "(" found = (i + len s)%Z.
Proof.
  intros Ht. revert i found. induction s as [|c s IH]; intros i found.
  - rewrite string_app_nil_l. cbn [lastIndexFrom]. rewrite prefix_paren, Ascii.eqb_refl.
    rewrite (lastIndexFrom_noParen t _ _ Ht). cbn [len]. lia.
  - rewrite string_app_cons. cbn [lastIndexFrom len]. rewrite IH. lia.
Qed.

Lemma lastIndexFrom_bounds (s substr : string) (i found : Z) :
  lastIndexFrom i s substr found = found
  \/ (i <= lastIndexFrom i s substr found <= i + len s)%Z.
Proof.
  revert i found. induction s as [|c s IH]; intros i found; cbn [lastIndexFrom len].
  - destruct (String.prefix substr EmptyString); [right; lia | left; reflexivity].
  - pose proof (len_nonneg s).
    destruct (String.prefix substr (String c s)).
    + destruct (IH (i + 1)%Z i) as [-> | Hb]; right; lia.
    + destruct (IH (i + 1)%Z found) as [-> | Hb]; [left; reflexivity | right; lia].
Qed.

Lemma LastIndex_bounds (s substr : string) :
  LastIndex s substr = (-1)%Z \/ (0 <= LastIndex s substr <= len s)%Z.
Proof. unfold LastIndex. destruct (lastIndexFrom_bounds s substr 0 (-1)); [left | right]; lia. Qed.

(** ** [strings.TrimSpace] *)

Lemma runeWidth_S (runes : list string) (s : string) (k : nat) :
  runeWidth runes s = S k ->
  exists r, In r runes /\ String.substring 0 (S k) s = r.
Proof.
  unfold runeWidth.
  destruct (List.find (fun r => String.prefix r s) runes) as [r|] eqn:Hfind; [|discriminate].
  intros Hlen. apply List.find_some in Hfind as [Hin Hpre].
  exists r. split; [assumption|]. rewrite <- Hlen. apply String.prefix_correct, Hpre.
Qed.

(** What the loop passes over is made of bytes of the runes it looks for. *)
Lemma trimLeftFrom_decomp (P : ascii -> bool) (runes : list string) :
  (forall r, In r runes -> allBytes P r = true) ->
  forall (s : string) (k : nat),
    allBytes P (String.substring 0 k s) = true ->
    exists u, s = u +:+ trimLeftFrom runes k s /\ allBytes P u = true.
Proof.
  intros Hrunes s. induction s as [|c s IH]; intros k Hk.
  - exists EmptyString. split; reflexivity.
  - cbn [trimLeftFrom]. destruct k as [|k].
    + destruct (runeWidth runes (String c s)) as [|k] eqn:Hw.
      * exists EmptyString. split; reflexivity.
      * apply runeWidth_S in Hw as (r & Hin & Hr).
        pose proof (Hrunes r Hin) as HP. rewrite <- Hr in HP.
        cbn [String.substring allBytes] in HP. apply andb_true_iff in HP as [Hc Hs].
        destruct (IH k Hs) as (u & Hu & HPu).
        exists (String c u). split.
        -- rewrite string_app_cons, <- Hu. reflexivity.
        -- simpl. rewrite Hc, HPu. reflexivity.
    + cbn [String.substring allBytes] in Hk. apply andb_true_iff in Hk as [Hc Hs].
      destruct (IH k Hs) as (u & Hu & HPu).
      exists (String c u). split.
      * rewrite string_app_cons, <- Hu. reflexivity.
      * simpl. rewrite Hc, HPu. reflexivity.
Qed.

Lemma trimLeft_decomp (P : ascii -> bool) (runes : list string) (s : string) :
  (forall r, In r runes -> allBytes P r = true) ->
  exists u, s = u +:+ trimLeftFrom runes 0 s /\ allBytes P u = true.
Proof.
  intros Hrunes. apply (trimLeftFrom_decomp P runes Hrunes s 0).
  destruct s; reflexivity.
Qed.

Lemma whiteSpaceRunes_bytes (P : ascii -> bool) :
  forallb (allBytes P) whiteSpaceRunes = true ->
  (forall r, In r whiteSpaceRunes -> allBytes P r = true)
  /\ (forall r, In r (map String.rev whiteSpaceRunes) -> allBytes P r = true).
Proof.
  intros H. rewrite forallb_forall in H. split; [exact H|].
  intros r Hin. apply in_map_iff in Hin as (r0 & <- & Hin).
  rewrite allBytes_rev. apply H, Hin.
Qed.

(** [TrimSpace] returns the string without a prefix and a suffix made of
    bytes of white space runes. *)
Lemma TrimSpace_decomp (P : ascii -> bool) (s : string) :
  forallb (allBytes P) whiteSpaceRunes = true ->
  exists u v, s = u +:+ (TrimSpace s +:+ v)
              /\ allBytes P u = true /\ allBytes P v = true.
Proof.
  intros H. apply whiteSpaceRunes_bytes in H as [Hl Hr].
  destruct (trimLeft_decomp P whiteSpaceRunes s Hl) as (u & Hu & HPu).
  fold (TrimLeftSpace s) in Hu.
  destruct (trimLeft_decomp P (map String.rev whiteSpaceRunes)
              (String.rev (TrimLeftSpace s)) Hr) as (v & Hv & HPv).
  exists u, (String.rev v). split; [|split].
  - rewrite Hu at 1. f_equal. unfold TrimSpace, TrimRightSpace.
    rewrite <- string_rev_app_distr, <- Hv, string_rev_involutive. reflexivity.
  - exact HPu.
  - rewrite allBytes_rev. exact HPv.
Qed.

(** The marker [String m0 m] of a section, whose first byte [m0] and last
    byte [z] are outside a set [P] of bytes: bytes of [P] at either end of
    a string neither hide nor create the marker. *)
Section Marker.
Variables (P : ascii -> bool) (m0 z : ascii) (m : string).
Hypothesis first_outside : P m0 = false.
Hypothesis last_outside : P z = false.
Hypothesis marker_end : endsWith z (String m0 m) = true.

Lemma Contains_strip_left (u t : string) :
  allBytes P u = true ->
  Contains (u +:+ t) (String m0 m) = Contains t (String m0 m).
Proof.
  induction u as [|c u IH]; intros Hu; [reflexivity|].
  simpl in Hu. apply andb_true_iff in Hu as [Hc Hu].
  rewrite string_app_cons, Contains_cons, prefix_cons.
  destruct (Ascii.eqb m0 c) eqn:Heq.
  - apply Ascii.eqb_eq in Heq as ->. congruence.
  - simpl. apply IH, Hu.
Qed.

Lemma Contains_strip_right (t v : string) :
  allBytes P v = true ->
  Contains (t +:+ v) (String m0 m) = Contains t (String m0 m).
Proof.
  intros Hv. induction t as [|c t IH].
  - rewrite string_app_nil_l, Contains_nil. change (String.prefix (String m0 m) EmptyString) with false.
    induction v as [|d v IHv]; [reflexivity|].
    rewrite Contains_cons.
    destruct (String.prefix (String m0 m) (String d v)) eqn:Hpre.
    + rewrite (prefix_last_byte P z _ _ marker_end Hpre Hv) in last_outside.
      discriminate.
    + simpl in Hv. apply andb_true_iff in Hv as [_ Hv]. apply IHv, Hv.
  - rewrite string_app_cons, !Contains_cons, IH, <- string_app_cons.
    rewrite (prefix_strip_right P z (String m0 m) (String c t) v
               marker_end last_outside Hv).
    reflexivity.
Qed.

Hypothesis spaces_inside : forallb (allBytes P) whiteSpaceRunes = true.

Lemma Contains_TrimSpace (s : string) :
  Contains (TrimSpace s) (String m0 m) = Contains s (String m0 m).
Proof.
  destruct (TrimSpace_decomp P s spaces_inside) as (u & v & Hs & HPu & HPv).
  rewrite Hs at 2.
  rewrite (Contains_strip_left u _ HPu), (Contains_strip_right _ v HPv).
  reflexivity.
Qed.

End Marker.

(** Trimming a line neither hides nor creates the marker of the scheme
    section. *)
Lemma Contains_TrimSpace_Schemes (line : string) :
  Contains (TrimSpace line) "Schemes:" = Contains line "Schemes:".
Proof.
  apply (Contains_TrimSpace
           (fun c => negb (Ascii.eqb c "S") && negb (Ascii.eqb c ":")) "S" ":");
    reflexivity.
Qed.

(** ** The scanner *)

Lemma scanTokens_fits (raw : list string) :
  Forall (fun l => (len l < MaxScanTokenSize)%Z) raw ->
  scanTokens raw = map dropCR raw.
Proof.
  induction 1 as [|l raw Hl _ IH]; simpl; [reflexivity|].
  destruct (MaxScanTokenSize <=? len l)%Z eqn:Hcmp.
  - apply Z.leb_le in Hcmp. lia.
  - rewrite IH. reflexivity.
Qed.

Lemma ScanLines_fits (text : string) :
  fitsScanner text -> ScanLines text = textLines text.
Proof. apply scanTokens_fits. Qed.

Lemma fitsScanner_check (text : string) :
  forallb (fun l => (len l <? MaxScanTokenSize)%Z) (splitLines text) = true ->
  fitsScanner text.
Proof.
  intros H. rewrite forallb_forall in H. apply List.Forall_forall.
  intros l Hl. apply Z.ltb_lt, H, Hl.
Qed.

(** A run of bytes without a line feed, then a line feed: one line. *)
Lemma splitLines_line (line rest : string) :
  allBytes (fun c => negb (Ascii.eqb c "010")) line = true ->
  splitLines (line +:+ LF +:+ rest) = line :: splitLines rest.
Proof.
  induction line as [|c line IH]; intros Hline; [reflexivity|].
  simpl in Hline. apply andb_true_iff in Hline as [Hc Hline].
  rewrite string_app_cons. cbn [splitLines].
  apply negb_true_iff in Hc. rewrite Hc, (IH Hline). reflexivity.
Qed.

(** ** The pattern of the device lines *)

(** A run of a class is a prefix made of bytes of the class. *)
Lemma repeatClass_split (class : ascii -> bool) (n : nat) (s rest : string) :
  repeatClass class n s = Some rest ->
  exists p, s = p +:+ rest /\ allBytes class p = true.
Proof.
  revert s. induction n as [|n IH]; intros s; cbn [repeatClass].
  - intros [= <-]. exists EmptyString. split; reflexivity.
  - destruct s as [|c s]; [discriminate|].
    destruct (class c) eqn:Hc; [|discriminate].
    intros H. destruct (IH s H) as (p & -> & Hp).
    exists (String c p). split; [reflexivity|]. cbn [allBytes]. rewrite Hc, Hp. reflexivity.
Qed.

(** Two runs or more: a prefix of class bytes and hyphens, with a hyphen. *)
Lemma hyphenated_split (class : ascii -> bool) (sizes : list nat) (n : nat)
  (s rest : string) :
  hyphenated class (n :: sizes) s = Some rest ->
  exists p, s = p +:+ rest
            /\ allBytes (classOrHyphen class) p = true
            /\ (sizes <> [] -> Contains p "-" = true).
Proof.
  revert n s. induction sizes as [|n2 sizes IH]; intros n s H.
  - cbn [hyphenated] in H. apply repeatClass_split in H as (p & -> & Hp).
    exists p. split; [reflexivity|]. split; [|congruence].
    apply (allBytes_weaken class); [|exact Hp].
    intros c Hc. unfold classOrHyphen. rewrite Hc. reflexivity.
  - change (hyphenated class (n :: n2 :: sizes) s)
      with (match repeatClass class n s with
            | Some (String "-" rest) => hyphenated class (n2 :: sizes) rest
            | _ => None
            end) in H.
    destruct (repeatClass class n s) as [r|] eqn:Hrun; [|discriminate].
    destruct r as [|c r]; [discriminate|].
    destruct (Ascii.eqb c "-") eqn:Hc.
    + apply Ascii.eqb_eq in Hc as ->.
      apply repeatClass_split in Hrun as (p1 & -> & Hp1).
      destruct (IH n2 r H) as (p2 & -> & Hp2 & _).
      exists (p1 +:+ String "-" p2). split; [|split].
      * rewrite string_app_assoc, string_app_cons. reflexivity.
      * assert (Hp1' : allBytes (classOrHyphen class) p1 = true).
        { apply (allBytes_weaken class); [|exact Hp1].
          intros c Hc. unfold classOrHyphen. rewrite Hc. reflexivity. }
        rewrite allBytes_app. cbn [allBytes]. rewrite Hp1', Hp2.
        unfold classOrHyphen. rewrite Ascii.eqb_refl, orb_true_r. reflexivity.
      * intros _. apply Contains_app_intro, Contains_prefix.
        rewrite prefix_cons, Ascii.eqb_refl. apply prefix_nil.
    + exfalso.
      destruct c as [[] [] [] [] [] [] [] []];
        first [discriminate H | discriminate Hc].
Qed.

Lemma classOrHyphen_noParen (class : ascii -> bool) (p : string) :
  class "("%char = false ->
  allBytes (classOrHyphen class) p = true -> noParen p = true.
Proof.
  intros Hclass. apply allBytes_weaken. intros c Hc.
  destruct (Ascii.eqb c "(") eqn:Heq; [|reflexivity].
  apply Ascii.eqb_eq in Heq as ->. unfold classOrHyphen in Hc.
  rewrite Hclass in Hc. discriminate.
Qed.

Lemma closes_Some (o : option string) : closes o = true -> o = Some ")".
Proof.
  unfold closes. destruct o as [[|c [|c2 r]]|]; try discriminate;
    destruct c as [[] [] [] [] [] [] [] []]; try discriminate; reflexivity.
Qed.

Lemma identifierTail_unfold (rest : string) :
  identifierTail (String " " (String "(" rest))
  = closes (hyphenated upperHex [8; 4; 4; 4; 12]%nat rest)
    || closes (hyphenated digit [8; 16]%nat rest).
Proof.
  unfold identifierTail, closes.
  destruct (hyphenated upperHex [8; 4; 4; 4; 12]%nat rest) as [[|c [|c2 r]]|];
    try reflexivity;
    destruct c as [[] [] [] [] [] [] [] []]; reflexivity.
Qed.

(** The tail of the pattern: a space, and between parentheses an
    identifier without parenthesis and with a hyphen. *)
Lemma identifierTail_split (tail : string) :
  identifierTail tail = true ->
  exists id, tail = " (" +:+ id +:+ ")"
             /\ noParen id = true /\ Contains id "-" = true.
Proof.
  destruct tail as [|c0 tail]; [discriminate|].
  destruct (Ascii.eqb c0 " ") eqn:H0;
    [apply Ascii.eqb_eq in H0 as -> |
     unfold identifierTail;
     destruct c0 as [[] [] [] [] [] [] [] []]; first [discriminate H0 | discriminate]].
  destruct tail as [|c1 rest]; [discriminate|].
  destruct (Ascii.eqb c1 "(") eqn:H1;
    [apply Ascii.eqb_eq in H1 as -> |
     unfold identifierTail;
     destruct c1 as [[] [] [] [] [] [] [] []]; first [discriminate H1 | discriminate]].
  assert (Hclose : forall class,
             class "("%char = false ->
             (exists r, hyphenated class (8 :: r)%nat rest = Some ")" /\ r <> []) ->
             exists id, " (" +:+ rest = " (" +:+ id +:+ ")"
                        /\ noParen id = true /\ Contains id "-" = true).
  { intros class Hclass (r & Hr & Hne).
    apply hyphenated_split in Hr as (p & -> & Hbytes & Hp).
    exists p. split; [reflexivity|]. split; [|apply Hp, Hne].
    apply (classOrHyphen_noParen class); assumption. }
  rewrite identifierTail_unfold. intros H. apply orb_true_iff in H as [H|H];
    apply closes_Some in H.
  - apply (Hclose upperHex eq_refl). eexists. split; [exact H | discriminate].
  - apply (Hclose digit eq_refl). eexists. split; [exact H | discriminate].
Qed.

Lemma matchFrom_split (s : string) (seen : bool) :
  matchFrom seen s = true ->
  exists name tail, s = name +:+ tail /\ identifierTail tail = true.
Proof.
  revert seen. induction s as [|c s IH]; intros seen H; cbn [matchFrom] in H.
  - apply orb_true_iff in H as [H|H]; [|discriminate].
    apply andb_true_iff in H as [_ H]. discriminate.
  - apply orb_true_iff in H as [H|H].
    + apply andb_true_iff in H as [_ H]. exists EmptyString, (String c s).
      split; [reflexivity | exact H].
    + destruct (Ascii.eqb c "010"); [discriminate|].
      destruct (IH true H) as (name & tail & -> & Htail).
      exists (String c name), tail. split; [reflexivity | exact Htail].
Qed.

(** ** The scheme parser *)

(** Before the header the loop changes nothing. *)
Lemma schemes_before_header (pre : list string) (st : schemesLoop) :
  inSchemes st = false ->
  Forall (fun l => hasMarker l = false) pre ->
  fold_left schemesBody pre st = st.
Proof.
  intros Hin Hpre. revert st Hin.
  induction Hpre as [|l pre Hl _ IH]; intros st Hin; simpl; [reflexivity|].
  assert (Hstep : schemesBody st l = st).
  { unfold schemesBody. rewrite Contains_TrimSpace_Schemes.
    unfold hasMarker in Hl. rewrite Hl, Hin. destruct st; simpl in *; congruence. }
  rewrite Hstep. apply IH, Hin.
Qed.

(** The header line switches the collecting on and is not collected. *)
Lemma schemes_at_header (header : string) (acc : list string) :
  hasMarker header = true ->
  schemesBody {| schemes := acc; inSchemes := false |} header
  = {| schemes := acc; inSchemes := true |}.
Proof.
  intros Hh. unfold schemesBody. rewrite Contains_TrimSpace_Schemes.
  unfold hasMarker in Hh. rewrite Hh. reflexivity.
Qed.

(** After the header every non-blank line is appended, trimmed. *)
Lemma schemes_after_header (post acc : list string) :
  fold_left schemesBody post {| schemes := acc; inSchemes := true |}
  = {| schemes := acc ++ map TrimSpace (List.filter nonBlank post);
       inSchemes := true |}.
Proof.
  revert acc. induction post as [|l post IH]; intros acc; simpl.
  - rewrite app_nil_r. reflexivity.
  - unfold schemesBody at 2. cbn [inSchemes schemes andb].
    fold (nonBlank l).
    assert (Hin : (if Contains (TrimSpace l) "Schemes:" then true else true) = true)
      by (destruct (Contains (TrimSpace l) "Schemes:"); reflexivity).
    rewrite Hin. destruct (nonBlank l); rewrite IH.
    + simpl. rewrite <- app_assoc. reflexivity.
    + reflexivity.
Qed.

Lemma GetSchemes_onlyOutput (out : string) :
  GetSchemes (onlyOutput out)
  = match schemes (fold_left schemesBody (ScanLines out)
                             {| schemes := []; inSchemes := false |}) with
    | [] => Err noSchemes
    | found => Ok found
    end.
Proof.
  unfold GetSchemes, RunShellCommand, onlyOutput, sampleWorld, prints.
  cbn [run exitError captured bind].
  destruct (schemes (fold_left schemesBody (ScanLines out)
                               {| schemes := []; inSchemes := false |}));
    reflexivity.
Qed.

Lemma oversizedLine_one_line :
  allBytes (fun c => negb (Ascii.eqb c "010")) oversizedLine = true.
Proof. unfold oversizedLine. rewrite allBytes_doubled. reflexivity. Qed.

Lemma len_oversizedLine : len oversizedLine = 131072%Z.
Proof. unfold oversizedLine. rewrite len_doubled. reflexivity. Qed.

(** C1, as stated, fails: the text below has a header line followed by the
    line [Debug], and the parser answers that no scheme was found, because
    the line before the header is too long for the scanner, which gives up
    there. *)
Lemma GetSchemes_gives_up_at_oversized_line :
  splitLines oversizedText = [oversizedLine; "Schemes:"; "Debug"]
  /\ hasMarker "Schemes:" = true
  /\ map TrimSpace (List.filter nonBlank ["Debug"]) = ["Debug"]
  /\ GetSchemes (onlyOutput oversizedText) = Err noSchemes.
Proof.
  assert (Hsplit : splitLines oversizedText = [oversizedLine; "Schemes:"; "Debug"]).
  { unfold oversizedText. rewrite (splitLines_line _ _ oversizedLine_one_line).
    f_equal. }
  split; [exact Hsplit|]. split; [reflexivity|]. split; [reflexivity|].
  rewrite GetSchemes_onlyOutput. unfold ScanLines. rewrite Hsplit.
  cbn [scanTokens]. rewrite len_oversizedLine. reflexivity.
Qed.

(** C1, amended.  For a text whose lines all fit the scanner (fewer than
    65536 bytes each): if a line contains the marker, the parser returns
    the non-blank lines after the first such line, each trimmed, in their
    order, and the error when there is none; if no line contains the
    marker, it returns the error. *)
Theorem GetSchemes_lines_after_header (w : world) (text : string) :
  exitError (run w "xcodebuild" ["-list"]) = None ->
  captured (run w "xcodebuild" ["-list"]) = text ->
  fitsScanner text ->
  (forall pre header post,
     textLines text = pre ++ header :: post ->
     Forall (fun l => hasMarker l = false) pre ->
     hasMarker header = true ->
     GetSchemes w
     = match map TrimSpace (List.filter nonBlank post) with
       | [] => Err noSchemes
       | found => Ok found
       end)
  /\ (Forall (fun l => hasMarker l = false) (textLines text) ->
      GetSchemes w = Err noSchemes).
Proof.
  intros Hrun Hout Hfits.
  unfold GetSchemes, RunShellCommand. rewrite Hrun, Hout. cbn [bind].
  rewrite (ScanLines_fits text Hfits). split.
  - intros pre header post Hlines Hpre Hheader. rewrite Hlines.
    rewrite fold_left_app. cbn [fold_left].
    rewrite (schemes_before_header pre {| schemes := []; inSchemes := false |}
               eq_refl Hpre).
    rewrite (schemes_at_header header [] Hheader), schemes_after_header.
    cbn [schemes app].
    destruct (map TrimSpace (List.filter nonBlank post)); reflexivity.
  - intros Hnone.
    rewrite (schemes_before_header (textLines text)
               {| schemes := []; inSchemes := false |} eq_refl Hnone).
    reflexivity.
Qed.

Lemma GetSchemes_lines_after_header_witness :
  GetSchemes (onlyOutput twoSchemes) = Ok ["Debug"; "Release"].
Proof.
  destruct (GetSchemes_lines_after_header (onlyOutput twoSchemes) twoSchemes
              eq_refl eq_refl) as [Hheader _].
  - apply fitsScanner_check. vm_compute. reflexivity.
  - apply (Hheader [] "Schemes:" ["  Debug"; "  Release"]).
    + vm_compute. reflexivity.
    + constructor.
    + vm_compute. reflexivity.
Defined.

(** ** The project locator *)

Lemma Ext_of_entry_nonempty (name ext : string) :
  Ext name = ext -> ext <> EmptyString -> name <> EmptyString.
Proof. intros <- Hne ->. apply Hne. reflexivity. Qed.


Lemma detectBody_workspace (st : detectLoop) (file : DirEntry) :
  workspace (detectBody st file)
  = if isWorkspace file then entryName file else workspace st.
Proof.
  unfold detectBody, isWorkspace. destruct (IsDir file); simpl; [|reflexivity].
  destruct (String.eqb (Ext (entryName file)) ".xcworkspace"); simpl; [reflexivity|].
  destruct (String.eqb (Ext (entryName file)) ".xcodeproj"); reflexivity.
Qed.

Lemma detectBody_project (st : detectLoop) (file : DirEntry) :
  project (detectBody st file)
  = if isProject file then entryName file else project st.
Proof.
  unfold detectBody, isProject. destruct (IsDir file); simpl; [|reflexivity].
  destruct (String.eqb (Ext (entryName file)) ".xcworkspace") eqn:Hw; simpl.
  - apply String.eqb_eq in Hw. rewrite Hw. reflexivity.
  - destruct (String.eqb (Ext (entryName file)) ".xcodeproj"); reflexivity.
Qed.

(** The loop keeps in each variable the name of an entry of its kind, or
    leaves the variable alone when the listing has no such entry. *)
Lemma detect_loop (kind : DirEntry -> bool) (var : detectLoop -> string) :
  (forall st file, var (detectBody st file)
                   = if kind file then entryName file else var st) ->
  forall files st,
    (var (fold_left detectBody files st) = var st
     /\ forall f, f ∈ files -> kind f = false)
    \/ (exists f, f ∈ files /\ kind f = true
                  /\ var (fold_left detectBody files st) = entryName f).
Proof.
  intros Hbody files. induction files as [|x files IH]; intros st; simpl.
  - left. split; [reflexivity|]. intros f Hf. inversion Hf.
  - destruct (IH (detectBody st x)) as [[Heq Hnone]|(f & Hin & Hk & Heq)].
    + rewrite Hbody in Heq. destruct (kind x) eqn:Hx.
      * right. exists x. split; [left|]. split; assumption.
      * left. split; [assumption|]. intros f Hf.
        apply elem_of_cons in Hf as [->|Hf]; [assumption | apply Hnone, Hf].
    + right. exists f. split; [right; assumption|]. split; assumption.
Qed.

Lemma isWorkspace_named (f : DirEntry) :
  isWorkspace f = true -> String.eqb (entryName f) EmptyString = false.
Proof.
  unfold isWorkspace. intros H. apply andb_true_iff in H as [_ H].
  apply String.eqb_eq in H. apply String.eqb_neq.
  eapply Ext_of_entry_nonempty; [exact H | discriminate].
Qed.

Lemma isProject_named (f : DirEntry) :
  isProject f = true -> String.eqb (entryName f) EmptyString = false.
Proof.
  unfold isProject. intros H. apply andb_true_iff in H as [_ H].
  apply String.eqb_eq in H. apply String.eqb_neq.
  eapply Ext_of_entry_nonempty; [exact H | discriminate].
Qed.

(** C2.  The locator returns a workspace sub-directory whenever the listing
    has one, also next to a project; a project sub-directory when the
    listing has projects only; the not-found error when it has neither.
    A listing with [App.xcodeproj] alone gives that name, and one with
    [App.xcodeproj] and [App.xcworkspace], in either order, gives the
    workspace. *)
Theorem detectXcodeProject_workspace_first (w : world) (files : list DirEntry) :
  ReadDir w "." = inr files ->
  ((exists f, f ∈ files /\ isWorkspace f = true) ->
   exists f, f ∈ files /\ isWorkspace f = true
             /\ detectXcodeProject w = Ok (entryName f))
  /\ ((forall f, f ∈ files -> isWorkspace f = false) ->
      (exists f, f ∈ files /\ isProject f = true) ->
      exists f, f ∈ files /\ isProject f = true
                /\ detectXcodeProject w = Ok (entryName f))
  /\ ((forall f, f ∈ files -> isWorkspace f = false) ->
      (forall f, f ∈ files -> isProject f = false) ->
      detectXcodeProject w = Err notFound)
  /\ (files = [dir "App.xcodeproj"] ->
      detectXcodeProject w = Ok "App.xcodeproj")
  /\ (files ≡ₚ [dir "App.xcodeproj"; dir "App.xcworkspace"] ->
      detectXcodeProject w = Ok "App.xcworkspace").
Proof.
  intros Hread.
  pose proof (detect_loop isWorkspace workspace detectBody_workspace files
                {| project := EmptyString; workspace := EmptyString |}) as Hw.
  pose proof (detect_loop isProject project detectBody_project files
                {| project := EmptyString; workspace := EmptyString |}) as Hp.
  unfold detectXcodeProject. rewrite Hread. simpl.
  repeat split.
  - intros (f0 & Hin0 & Hk0).
    destruct Hw as [[_ Hnone]|(f & Hin & Hk & Heq)].
    + rewrite (Hnone f0 Hin0) in Hk0. discriminate.
    + exists f. split; [assumption|]. split; [assumption|].
      rewrite Heq, (isWorkspace_named f Hk). reflexivity.
  - intros Hnows (f0 & Hin0 & Hk0).
    destruct Hw as [[Hweq _]|(f & Hin & Hk & _)];
      [|rewrite (Hnows f Hin) in Hk; discriminate].
    destruct Hp as [[_ Hnone]|(f & Hin & Hk & Heq)].
    + rewrite (Hnone f0 Hin0) in Hk0. discriminate.
    + exists f. split; [assumption|]. split; [assumption|].
      rewrite Hweq, Heq, (isProject_named f Hk). reflexivity.
  - intros Hnows Hnoproj.
    destruct Hw as [[Hweq _]|(f & Hin & Hk & _)];
      [|rewrite (Hnows f Hin) in Hk; discriminate].
    destruct Hp as [[Hpeq _]|(f & Hin & Hk & _)];
      [|rewrite (Hnoproj f Hin) in Hk; discriminate].
    rewrite Hweq, Hpeq. reflexivity.
  - intros ->. reflexivity.
  - intros Hperm. symmetry in Hperm.
    apply Permutation_length_2_inv in Hperm as [-> | ->]; reflexivity.
Qed.

Lemma detectXcodeProject_workspace_first_witness :
  detectXcodeProject (onlyFiles [dir "App.xcworkspace"; dir "App.xcodeproj"])
  = Ok "App.xcworkspace".
Proof.
  destruct (detectXcodeProject_workspace_first
              (onlyFiles [dir "App.xcworkspace"; dir "App.xcodeproj"])
              [dir "App.xcworkspace"; dir "App.xcodeproj"] eq_refl)
    as (_ & _ & _ & _ & Hboth).
  apply Hboth. apply perm_swap.
Defined.

(** ** The build settings *)

Lemma assertString_notAString (settings : gmap string any) (key : string) :
  notAString settings key -> exists msg, assertString (index settings key) = Panic msg.
Proof.
  unfold notAString, index. intros Hnot.
  destruct (settings !! key) as [v|] eqn:Hv; simpl; [|eauto].
  destruct v; simpl; eauto. exfalso. eapply Hnot. reflexivity.
Qed.

(** A run of [xcodebuild -showBuildSettings -json] that exits normally. *)
Section Extraction.
Variables (w : world) (selectedScheme deviceID : string).
Hypothesis ran :
  exitError (run w "xcodebuild" (showBuildSettingsArgs selectedScheme deviceID)) = None.

(** An empty sequence of records is reported as an error. *)
Lemma GetBuildSettings_empty_sequence :
  unmarshalBuildSettings w
    (captured (run w "xcodebuild" (showBuildSettingsArgs selectedScheme deviceID)))
  = inr [] ->
  GetBuildSettings w selectedScheme deviceID
  = Err "Unable to find the required build settings".
Proof.
  intros Hjson. unfold GetBuildSettings. rewrite ran, Hjson. reflexivity.
Qed.

Variables (first : gmap string any) (others : list (gmap string any)).
Hypothesis decoded :
  unmarshalBuildSettings w
    (captured (run w "xcodebuild" (showBuildSettingsArgs selectedScheme deviceID)))
  = inr (first :: others).

(** C4.  When the first record of the decoded payload binds, under
    [buildSettings], the three required keys to strings, the extraction
    returns the output directory, a slash and the contents folder path as
    the path of the application, and the bundle identifier as it is bound;
    the scheme and the device identifier are arbitrary. *)
Theorem GetBuildSettings_minimal_record
  (settings : gmap string any) (outputDir contentsFolderPath bundle : string) :
  first !! "buildSettings" = Some (anyMap settings) ->
  settings !! "BUILT_PRODUCTS_DIR" = Some (anyString outputDir) ->
  settings !! "CONTENTS_FOLDER_PATH" = Some (anyString contentsFolderPath) ->
  settings !! "PRODUCT_BUNDLE_IDENTIFIER" = Some (anyString bundle) ->
  GetBuildSettings w selectedScheme deviceID
  = Ok (outputDir +:+ "/" +:+ contentsFolderPath, bundle).
Proof.
  intros Hfirst Hdir Hcontents Hbundle.
  unfold GetBuildSettings. rewrite ran, decoded. simpl.
  unfold index. rewrite Hfirst. simpl.
  rewrite Hdir, Hcontents, Hbundle. reflexivity.
Qed.

(** A required key that is absent or bound to something else than a
    string is not reported: the type assertion panics. *)
Lemma GetBuildSettings_absent_field_panics (settings : gmap string any) (key : string) :
  first !! "buildSettings" = Some (anyMap settings) ->
  key ∈ requiredKeys ->
  notAString settings key ->
  exists msg, GetBuildSettings w selectedScheme deviceID = Panic msg.
Proof.
  intros Hfirst Hkey Hnot.
  unfold GetBuildSettings. rewrite ran, decoded. simpl.
  unfold index at 1. rewrite Hfirst. simpl.
  destruct (assertString (index settings "BUILT_PRODUCTS_DIR")) as [d|e|msg] eqn:Hd;
    simpl; [|destruct (index settings "BUILT_PRODUCTS_DIR"); discriminate | eauto].
  destruct (assertString (index settings "CONTENTS_FOLDER_PATH")) as [c|e|msg] eqn:Hc;
    simpl; [|destruct (index settings "CONTENTS_FOLDER_PATH"); discriminate | eauto].
  destruct (assertString (index settings "PRODUCT_BUNDLE_IDENTIFIER")) as [b|e|msg] eqn:Hb;
    simpl; [|destruct (index settings "PRODUCT_BUNDLE_IDENTIFIER"); discriminate | eauto].
  exfalso. unfold requiredKeys in Hkey.
  destruct (assertString_notAString settings key Hnot) as [msg Hmsg].
  repeat (apply elem_of_cons in Hkey as [->|Hkey]; [congruence|]).
  inversion Hkey.
Qed.

(** A first record without the [buildSettings] mapping panics as well. *)
Lemma GetBuildSettings_absent_mapping_panics :
  first !! "buildSettings" = None ->
  exists msg, GetBuildSettings w selectedScheme deviceID = Panic msg.
Proof.
  intros Hfirst. unfold GetBuildSettings. rewrite ran, decoded. simpl.
  unfold index at 1. rewrite Hfirst. simpl. eauto.
Qed.

End Extraction.

Lemma GetBuildSettings_minimal_record_witness :
  GetBuildSettings (onlySettings minimalSettings) "App" "ABCD-1234"
  = Ok ("/tmp/Build/Debug-iphonesimulator/App.app", "com.example.App").
Proof.
  apply (GetBuildSettings_minimal_record (onlySettings minimalSettings)
           "App" "ABCD-1234" eq_refl (settingsRecord minimalFields) [] eq_refl
           (list_to_map minimalFields)
           "/tmp/Build/Debug-iphonesimulator" "App.app" "com.example.App");
    vm_compute; reflexivity.
Defined.

(** C5, at a failing input.  On a payload whose first record lacks the
    bundle identifier the extraction returns no error result: the type
    assertion on the absent field ends the call in a run-time panic. *)
Theorem GetBuildSettings_missing_bundle_identifier :
  notAString
    (list_to_map
       [ ("BUILT_PRODUCTS_DIR", anyString "/tmp/Build/Debug-iphonesimulator");
         ("CONTENTS_FOLDER_PATH", anyString "App.app") ])
    "PRODUCT_BUNDLE_IDENTIFIER"
  /\ GetBuildSettings (onlySettings settingsWithoutBundleIdentifier) "App" "ABCD-1234"
     = Panic "interface conversion: interface {} is not string"
  /\ returned (GetBuildSettings (onlySettings settingsWithoutBundleIdentifier)
                 "App" "ABCD-1234") = false.
Proof.
  split; [|split]; [|vm_compute; reflexivity..].
  intros s. vm_compute. discriminate.
Qed.

(** ** The registry of the JSON listing *)

Lemma collect_flat (visited : list (string * list Device)) (m : gmap string string) :
  fold_left (fun devices group => XcodeRunner.collectGroup devices (snd group)) visited m
  = fold_left storeDevice (visitedRecords visited) m.
Proof.
  unfold visitedRecords. revert m.
  induction visited as [|g visited IH]; intros m; simpl; [reflexivity|].
  rewrite fold_left_app. apply IH.
Qed.

Lemma lastSeen_snoc (name : string) (records : list Device) (d : Device) :
  lastSeen name (records ++ [d])
  = if decide (Avail d = true /\ Name d = name) then Some (UDID d)
    else lastSeen name records.
Proof.
  unfold lastSeen. rewrite filter_app, filter_cons, filter_nil.
  destruct (decide (Avail d = true /\ Name d = name)).
  - rewrite last_snoc. reflexivity.
  - rewrite app_nil_r. reflexivity.
Qed.

Lemma storeDevice_fold (records : list Device) (m : gmap string string) (name : string) :
  fold_left storeDevice records m !! name
  = match lastSeen name records with
    | Some udid => Some udid
    | None => m !! name
    end.
Proof.
  induction records as [|d records IH] using rev_ind; [reflexivity|].
  rewrite fold_left_app, lastSeen_snoc. simpl. unfold storeDevice at 1.
  destruct (decide (Avail d = true /\ Name d = name)) as [[Ha Hn]|Hno].
  - rewrite Ha, Hn. apply lookup_insert_eq.
  - destruct (Avail d) eqn:Ha; [|exact IH].
    rewrite lookup_insert_ne; [exact IH|]. intros Hn. apply Hno. split; [reflexivity|assumption].
Qed.

Lemma collect_lookup (visited : list (string * list Device)) (name : string) :
  XcodeRunner.collect visited !! name = lastSeen name (visitedRecords visited).
Proof.
  unfold XcodeRunner.collect. rewrite collect_flat, storeDevice_fold.
  rewrite lookup_empty. destruct (lastSeen name (visitedRecords visited)); reflexivity.
Qed.

Lemma lastSeen_Some (name udid : string) (records : list Device) :
  lastSeen name records = Some udid ->
  exists d, d ∈ records /\ Avail d = true /\ Name d = name /\ UDID d = udid.
Proof.
  unfold lastSeen. intros H.
  destruct (last (filter (fun d => Avail d = true /\ Name d = name) records))
    as [d|] eqn:Hlast; [|discriminate].
  simpl in H. injection H as Hudid.
  apply last_Some_elem_of, list_elem_of_filter in Hlast as [[Ha Hn] Hin].
  exists d. repeat split; assumption.
Qed.

Lemma visitedRecords_elem (visited : list (string * list Device)) (d : Device) :
  d ∈ visitedRecords visited ->
  exists group records, (group, records) ∈ visited /\ d ∈ records.
Proof.
  unfold visitedRecords. induction visited as [|[group records] visited IH]; simpl.
  - intros H. inversion H.
  - intros H. apply elem_of_app in H as [H|H].
    + exists group, records. split; [left | assumption].
    + destruct (IH H) as (group' & records' & Hin & Hd).
      exists group', records'. split; [right|]; assumption.
Qed.

Lemma GetDevices_Ok (w : world) (registry : gmap string string) :
  XcodeRunner.GetDevices w = Ok registry ->
  exists deviceList,
    unmarshalDeviceList w (captured (run w "xcrun" simctlArgs)) = inr deviceList
    /\ registry = XcodeRunner.collect (rangeGroups w (Devices deviceList)).
Proof.
  unfold XcodeRunner.GetDevices. fold simctlArgs.
  destruct (exitError (run w "xcrun" simctlArgs)); [discriminate|].
  destruct (unmarshalDeviceList w (captured (run w "xcrun" simctlArgs)))
    as [e|deviceList]; simpl; [discriminate|].
  case_bool_decide; [discriminate|]. intros Heq. injection Heq as <-.
  exists deviceList. split; reflexivity.
Qed.

(** C6.  Every entry of the registry is the name and the identifier of a
    record of the listing whose availability flag is true; so a record
    whose flag is false contributes nothing, and a name that only such
    records carry is no key of the registry. *)
Theorem GetDevices_only_available (w : world) (registry : gmap string string) :
  visitsEachGroupOnce w ->
  XcodeRunner.GetDevices w = Ok registry ->
  exists deviceList,
    unmarshalDeviceList w (captured (run w "xcrun" simctlArgs)) = inr deviceList
    /\ (forall name udid,
          registry !! name = Some udid ->
          exists group records d,
            Devices deviceList !! group = Some records /\ d ∈ records
            /\ Avail d = true /\ Name d = name /\ UDID d = udid)
    /\ (forall name,
          (forall group records d,
             Devices deviceList !! group = Some records -> d ∈ records ->
             Name d = name -> Avail d = false) ->
          registry !! name = None).
Proof.
  intros Hvisit Hget.
  destruct (GetDevices_Ok w registry Hget) as (deviceList & Hjson & ->).
  exists deviceList. split; [assumption|].
  assert (Hentry : forall name udid,
             XcodeRunner.collect (rangeGroups w (Devices deviceList)) !! name = Some udid ->
             exists group records d,
               Devices deviceList !! group = Some records /\ d ∈ records
               /\ Avail d = true /\ Name d = name /\ UDID d = udid).
  { intros name udid Hlook. rewrite collect_lookup in Hlook.
    apply lastSeen_Some in Hlook as (d & Hin & Ha & Hn & Hu).
    apply visitedRecords_elem in Hin as (group & records & Hg & Hd).
    rewrite (Hvisit (Devices deviceList)) in Hg.
    apply elem_of_map_to_list in Hg.
    exists group, records, d. repeat split; assumption. }
  split; [exact Hentry|].
  intros name Hall.
  destruct (XcodeRunner.collect (rangeGroups w (Devices deviceList)) !! name)
    as [udid|] eqn:Hlook; [|reflexivity].
  destruct (Hentry name udid Hlook) as (group & records & d & Hg & Hd & Ha & Hn & _).
  rewrite (Hall group records d Hg Hd Hn) in Ha. discriminate.
Qed.

Lemma sampleWorld_visits files runs settings listing choice :
  visitsEachGroupOnce (sampleWorld files runs settings listing choice).
Proof. intros groups. reflexivity. Qed.

Lemma GetDevices_only_available_witness :
  exists deviceList,
    unmarshalDeviceList (onlyListing oneSimulator)
      (captured (run (onlyListing oneSimulator) "xcrun" simctlArgs)) = inr deviceList
    /\ (forall name udid,
          ({[ "iPhone 15" := "ABCD-1234" ]} : gmap string string) !! name = Some udid ->
          exists group records d,
            Devices deviceList !! group = Some records /\ d ∈ records
            /\ Avail d = true /\ Name d = name /\ UDID d = udid)
    /\ (forall name,
          (forall group records d,
             Devices deviceList !! group = Some records -> d ∈ records ->
             Name d = name -> Avail d = false) ->
          ({[ "iPhone 15" := "ABCD-1234" ]} : gmap string string) !! name = None).
Proof.
  apply (GetDevices_only_available (onlyListing oneSimulator)
           {[ "iPhone 15" := "ABCD-1234" ]}).
  - intros groups. reflexivity.
  - vm_compute. reflexivity.
Defined.

Lemma backwards_visits (w : world) :
  visitsEachGroupOnce w -> visitsEachGroupOnce (backwards w).
Proof.
  intros Hvisit groups. simpl. rewrite reverse_Permutation. apply Hvisit.
Qed.

(** C9, as stated, fails: two runs on one listing, whose runtimes visit the
    two groups in opposite orders, keep different identifiers for the name
    that both groups carry. *)
Lemma GetDevices_depends_on_visiting_order :
  ~ (forall w1 w2 : world,
       visitsEachGroupOnce w1 -> visitsEachGroupOnce w2 ->
       run w1 = run w2 ->
       unmarshalDeviceList w1 = unmarshalDeviceList w2 ->
       XcodeRunner.GetDevices w1 = XcodeRunner.GetDevices w2).
Proof.
  intros Hsame.
  specialize (Hsame (onlyListing sameNameTwice) (backwards (onlyListing sameNameTwice))
                (sampleWorld_visits _ _ _ _ _)
                (backwards_visits _ (sampleWorld_visits _ _ _ _ _))
                eq_refl eq_refl).
  assert (Hlook : forall r1 r2 : result (gmap string string),
             r1 = r2 ->
             match r1, r2 with
             | Ok m1, Ok m2 => m1 !! "iPhone 15" = m2 !! "iPhone 15"
             | _, _ => True
             end).
  { intros r1 r2 ->. destruct r2; reflexivity. }
  apply Hlook in Hsame. vm_compute in Hsame. discriminate.
Qed.

(** C9, amended.  The registry maps every name to the identifier of the
    last available record of that name in the order in which the run
    visits the groups, and within a group in the order of the listing
    (a later record overwrites an earlier one); it has no entry for a name
    without an available record. *)
Theorem GetDevices_last_seen_in_visiting_order
  (w : world) (registry : gmap string string) :
  XcodeRunner.GetDevices w = Ok registry ->
  exists deviceList,
    unmarshalDeviceList w (captured (run w "xcrun" simctlArgs)) = inr deviceList
    /\ forall name,
         registry !! name
         = lastSeen name (visitedRecords (rangeGroups w (Devices deviceList))).
Proof.
  intros Hget. destruct (GetDevices_Ok w registry Hget) as (deviceList & Hjson & ->).
  exists deviceList. split; [assumption|]. intros name. apply collect_lookup.
Qed.

Lemma GetDevices_last_seen_in_visiting_order_witness :
  exists deviceList,
    unmarshalDeviceList (onlyListing sameNameTwice)
      (captured (run (onlyListing sameNameTwice) "xcrun" simctlArgs)) = inr deviceList
    /\ forall name,
         ({[ "iPhone 15" := "AAAA-0001" ]} : gmap string string) !! name
         = lastSeen name
             (visitedRecords (rangeGroups (onlyListing sameNameTwice) (Devices deviceList))).
Proof.
  apply (GetDevices_last_seen_in_visiting_order (onlyListing sameNameTwice)
           {[ "iPhone 15" := "AAAA-0001" ]}).
  vm_compute. reflexivity.
Defined.

(** ** The registry of the text listing *)

(** Only a header line changes the current section. *)
Lemma devicesBody_section (st st' : Part000.devicesLoop) (line : string) :
  Part000.devicesBody st line = Ok st' ->
  Part000.currentSection st'
  = if HasPrefix line "== " then line else Part000.currentSection st.
Proof.
  unfold Part000.devicesBody.
  destruct (HasPrefix line "== "); [intros [= <-]; reflexivity|].
  repeat body_case; intros [= <-]; reflexivity.
Qed.

Lemma foldM_devicesBody_section (lines : list string) (st st' : Part000.devicesLoop) :
  foldM Part000.devicesBody lines st = Ok st' ->
  Part000.currentSection st'
  = fold_left (fun section line => if HasPrefix line "== " then line else section)
              lines (Part000.currentSection st).
Proof.
  revert st. induction lines as [|l lines IH]; intros st; simpl.
  - intros [= <-]. reflexivity.
  - intros H. apply bind_Ok in H as (st1 & Hbody & Hrest).
    rewrite (IH st1 Hrest), (devicesBody_section st st1 l Hbody). reflexivity.
Qed.

(** A line that is no header, under a header that names [Offline], leaves
    the state of the loop as it is. *)
Lemma devicesBody_offline (st : Part000.devicesLoop) (line : string) :
  Contains (Part000.currentSection st) "Offline" = true ->
  HasPrefix line "== " = false ->
  Part000.devicesBody st line = Ok st.
Proof.
  intros Hoff Hline. unfold Part000.devicesBody. rewrite Hline.
  destruct (String.eqb line EmptyString
            || String.eqb (Part000.currentSection st) "== Devices Offline ==");
    [reflexivity|].
  destruct (String.eqb (Part000.currentSection st) "== Devices ==") eqn:Hd.
  { apply String.eqb_eq in Hd. rewrite Hd in Hoff. discriminate. }
  destruct (String.eqb (Part000.currentSection st) "== Simulators ==") eqn:Hs.
  { apply String.eqb_eq in Hs. rewrite Hs in Hoff. discriminate. }
  reflexivity.
Qed.

(** C7.  A line that the scanner delivers under a header naming [Offline]
    (the header [== Devices Offline ==] of the sources among them)
    contributes no entry, whatever it holds: the loop turn on it leaves the
    map as it is, and, when the line is no header itself, the parser
    returns what it returns on the listing without that line. *)
Theorem GetDevices_skips_offline_lines
  (w : world) (pre post : list string) (line : string) :
  exitError (run w "xcrun" xctraceArgs) = None ->
  ScanLines (captured (run w "xcrun" xctraceArgs)) = pre ++ line :: post ->
  Contains (sectionOf pre) "Offline" = true ->
  (forall st,
     foldM Part000.devicesBody pre
       {| Part000.currentSection := EmptyString; Part000.devices := ∅ |} = Ok st ->
     exists st', Part000.devicesBody st line = Ok st'
                 /\ Part000.devices st' = Part000.devices st)
  /\ (HasPrefix line "== " = false ->
      Part000.GetDevices w = Part000.scanDevices (pre ++ post)).
Proof.
  intros Hrun Hlines Hoff.
  assert (Hstep : forall st,
             foldM Part000.devicesBody pre
               {| Part000.currentSection := EmptyString; Part000.devices := ∅ |} = Ok st ->
             Contains (Part000.currentSection st) "Offline" = true).
  { intros st Hpre. apply foldM_devicesBody_section in Hpre.
    cbn [Part000.currentSection] in Hpre. fold (sectionOf pre) in Hpre.
    rewrite Hpre. exact Hoff. }
  split.
  - intros st Hpre. destruct (HasPrefix line "== ") eqn:Hline.
    + eexists. unfold Part000.devicesBody. rewrite Hline. split; reflexivity.
    + exists st. split; [|reflexivity].
      apply devicesBody_offline; [apply Hstep, Hpre | exact Hline].
  - intros Hline.
    unfold Part000.GetDevices. fold xctraceArgs. rewrite Hrun, Hlines.
    unfold Part000.scanDevices. rewrite !foldM_app.
    destruct (foldM Part000.devicesBody pre
                {| Part000.currentSection := EmptyString; Part000.devices := ∅ |})
      as [st|e|msg] eqn:Hpre; [|reflexivity..].
    cbn [bind foldM].
    rewrite devicesBody_offline; [reflexivity | apply Hstep; reflexivity | exact Hline].
Qed.

Lemma GetDevices_skips_offline_lines_witness :
  Part000.GetDevices (onlyOutput offlineText)
  = Part000.scanDevices
      ( ["== Devices Offline =="]
        ++ ["== Simulators ==";
            "iPhone 15 (17.0) (12345678-1234-1234-1234-123456789ABC)"] ).
Proof.
  apply (GetDevices_skips_offline_lines (onlyOutput offlineText)
           ["== Devices Offline =="]
           ["== Simulators ==";
            "iPhone 15 (17.0) (12345678-1234-1234-1234-123456789ABC)"]
           "Old iPhone (16.2) (00008030-001C195E0E87802E)");
    vm_compute; reflexivity.
Defined.

Lemma fallbackForm_hyphen (udid : string) :
  Contains udid "-" = true -> fallbackForm udid = true.
Proof.
  intros H. unfold fallbackForm. rewrite (Contains_nonempty udid H), H. reflexivity.
Qed.

(** An identifier of the form of the pattern passes the permissive test
    as well: it is not empty and has a hyphen. *)
Lemma identifierForm_fallbackForm (udid : string) :
  identifierForm udid = true -> fallbackForm udid = true.
Proof.
  unfold identifierForm. intros H. apply fallbackForm_hyphen.
  destruct (hyphenated upperHex [8; 4; 4; 4; 12]%nat udid) as [[|c r]|] eqn:Hhex.
  - apply hyphenated_split in Hhex as (p & -> & _ & Hp).
    rewrite string_app_nil_r. apply Hp. discriminate.
  - destruct (hyphenated digit [8; 16]%nat udid) as [[|c' r']|] eqn:Hdig;
      [|discriminate..].
    apply hyphenated_split in Hdig as (p & -> & _ & Hp).
    rewrite string_app_nil_r. apply Hp. discriminate.
  - destruct (hyphenated digit [8; 16]%nat udid) as [[|c' r']|] eqn:Hdig;
      [|discriminate..].
    apply hyphenated_split in Hdig as (p & -> & _ & Hp).
    rewrite string_app_nil_r. apply Hp. discriminate.
Qed.

Lemma acceptable_fallbackForm (udid : string) : acceptable udid = fallbackForm udid.
Proof.
  unfold acceptable. destruct (identifierForm udid) eqn:Hid; [|reflexivity].
  rewrite (identifierForm_fallbackForm udid Hid). reflexivity.
Qed.

(** A line that the pattern matches carries, after its last parenthesis,
    an identifier with a hyphen. *)
Lemma MatchString_extracted (line : string) :
  MatchString line = true ->
  exists id, extractedIdentifier line = Some id /\ Contains id "-" = true.
Proof.
  intros H. apply matchFrom_split in H as (name & tail & -> & Htail).
  apply identifierTail_split in Htail as (id & -> & Hparen & Hhyphen).
  exists id. split; [|exact Hhyphen].
  assert (Hclosed : noParen (id +:+ ")") = true).
  { unfold noParen in *. rewrite allBytes_app, Hparen. reflexivity. }
  assert (Hline : name +:+ " (" +:+ id +:+ ")"
                  = (name +:+ " ") +:+ String "(" (id +:+ ")")).
  { rewrite string_app_assoc. reflexivity. }
  unfold extractedIdentifier, LastIndex. rewrite Hline.
  rewrite (lastIndexFrom_last_paren _ _ 0 (-1) Hclosed), Z.add_0_l.
  pose proof (len_nonneg (name +:+ " ")) as Hlen.
  replace ((len (name +:+ " ") =? -1)%Z) with false by (symmetry; apply Z.eqb_neq; lia).
  assert (Hcut : (name +:+ " ") +:+ String "(" (id +:+ ")")
                 = ((name +:+ " ") +:+ "(") +:+ (id +:+ ")")).
  { rewrite (string_app_assoc (name +:+ " ") "(" (id +:+ ")")). reflexivity. }
  rewrite Hcut.
  replace (len (name +:+ " ") + 1)%Z with (len ((name +:+ " ") +:+ "("))
    by (rewrite (len_app (name +:+ " ") "("); reflexivity).
  rewrite sliceFrom_app, TrimSuffix_app. reflexivity.
Qed.

(** The test of the loop and the test on the identifier alone agree. *)
Lemma accept_test (line udid : string) :
  extractedIdentifier line = Some udid ->
  MatchString line || fallbackForm udid = acceptable udid.
Proof.
  intros Hudid. rewrite acceptable_fallbackForm.
  destruct (MatchString line) eqn:Hmatch; [|reflexivity].
  apply MatchString_extracted in Hmatch as (id & Hid & Hhyphen).
  rewrite Hudid in Hid. injection Hid as <-.
  rewrite (fallbackForm_hyphen udid Hhyphen). reflexivity.
Qed.

(** In the Devices and the Simulators sections, a line whose last opening
    parenthesis is not its first character is stored exactly when its
    identifier has the form of the pattern, or is not empty and has a
    hyphen or a character of [0123456789ABCDEF]. *)
Lemma devicesBody_accepts (st : Part000.devicesLoop) (line udid : string) :
  Part000.currentSection st = "== Devices =="
  \/ Part000.currentSection st = "== Simulators ==" ->
  HasPrefix line "== " = false ->
  line <> EmptyString ->
  (0 < LastIndex line "(")%Z ->
  extractedIdentifier line = Some udid ->
  exists deviceName,
    Part000.devicesBody st line
    = Ok (if acceptable udid
          then {| Part000.currentSection := Part000.currentSection st;
                  Part000.devices := <[deviceName := udid]> (Part000.devices st) |}
          else st).
Proof.
  intros Hsection Hheader Hline Hparen Hudid.
  pose proof (accept_test line udid Hudid) as Htest.
  unfold Part000.devicesBody. cbv zeta. rewrite Hheader.
  apply String.eqb_neq in Hline. rewrite Hline.
  assert (Hin : String.eqb (Part000.currentSection st) "== Devices Offline ==" = false
                /\ String.eqb (Part000.currentSection st) "== Devices =="
                   || String.eqb (Part000.currentSection st) "== Simulators ==" = true).
  { destruct Hsection as [-> | ->]; split; reflexivity. }
  destruct Hin as [-> ->]. cbn [orb].
  unfold extractedIdentifier in Hudid.
  replace ((LastIndex line "(" =? -1)%Z) with false in *
    by (symmetry; apply Z.eqb_neq; lia).
  destruct (sliceFrom line (LastIndex line "(" + 1)) as [udidPart|e|msg];
    [|discriminate..].
  injection Hudid as Hudid. cbn [bind]. rewrite Hudid.
  assert (Hname : exists name, sliceTo line (LastIndex line "(" - 1) = Ok name).
  { unfold sliceTo, slice.
    destruct (LastIndex_bounds line "(") as [Hb|Hb]; [lia|].
    replace ((0 <=? LastIndex line "(" - 1)%Z) with true
      by (symmetry; apply Z.leb_le; lia).
    replace ((LastIndex line "(" - 1 <=? len line)%Z) with true
      by (symmetry; apply Z.leb_le; lia).
    eexists. reflexivity. }
  destruct Hname as [name ->]. cbn [bind].
  assert (Hversion : exists deviceName,
             (if negb (LastIndex name "(" =? -1)%Z
              then prefix <- sliceTo name (LastIndex name "(") ;; Ok (TrimSpace prefix)
              else Ok name) = Ok deviceName).
  { destruct (LastIndex name "(" =? -1)%Z eqn:Hv; cbn [negb]; [eexists; reflexivity|].
    apply Z.eqb_neq in Hv. unfold sliceTo, slice.
    destruct (LastIndex_bounds name "(") as [Hb|Hb]; [lia|].
    replace ((0 <=? LastIndex name "(")%Z) with true by (symmetry; apply Z.leb_le; lia).
    replace ((LastIndex name "(" <=? len name)%Z) with true
      by (symmetry; apply Z.leb_le; lia).
    eexists. reflexivity. }
  destruct Hversion as [deviceName ->]. cbn [bind].
  exists deviceName. fold (fallbackForm udid). rewrite Htest.
  destruct (acceptable udid); reflexivity.
Qed.

(** A simulator line of the usual shape is stored under its name without
    the version. *)
Lemma devicesBody_accepts_simulator_line :
  exists deviceName,
    Part000.devicesBody
      {| Part000.currentSection := "== Simulators =="; Part000.devices := ∅ |}
      "iPhone 15 (17.0) (12345678-1234-1234-1234-123456789ABC)"
    = Ok {| Part000.currentSection := "== Simulators ==";
            Part000.devices :=
              {[ deviceName := "12345678-1234-1234-1234-123456789ABC" ]} |}.
Proof.
  destruct (devicesBody_accepts
              {| Part000.currentSection := "== Simulators =="; Part000.devices := ∅ |}
              "iPhone 15 (17.0) (12345678-1234-1234-1234-123456789ABC)"
              "12345678-1234-1234-1234-123456789ABC")
    as [deviceName Hbody];
    [right; reflexivity | reflexivity | discriminate | reflexivity | reflexivity |].
  exists deviceName. exact Hbody.
Qed.

(** C8, at a failing input.  The line below lies in the Simulators section
    and its identifier has the UUID form, yet it produces no entry: its
    last parenthesis is its first character, and the loop panics on the
    slice before it gets to the test of the identifier. *)
Theorem GetDevices_bare_identifier_no_entry :
  extractedIdentifier "(12345678-1234-1234-1234-123456789ABC)"
  = Some "12345678-1234-1234-1234-123456789ABC"
  /\ identifierForm "12345678-1234-1234-1234-123456789ABC" = true
  /\ Part000.devicesBody
       {| Part000.currentSection := "== Simulators =="; Part000.devices := ∅ |}
       "(12345678-1234-1234-1234-123456789ABC)"
     = Panic "slice bounds out of range"
  /\ Part000.GetDevices (onlyOutput bareIdentifierText)
     = Panic "slice bounds out of range".
Proof. repeat split; vm_compute; reflexivity. Qed.

(** C10, at a failing input.  On a listing with a record whose only
    parenthesis is the first character of the line, [LastIndex] is [0] and
    the slice [line[:lastParenIndex-1]] is out of range: the parser ends in
    a run-time panic, with neither a map nor an error. *)
Theorem GetDevices_paren_first_panics :
  LastIndex "(ABC)" "(" = 0%Z
  /\ sliceTo "(ABC)" (0 - 1) = Panic "slice bounds out of range"
  /\ Part000.GetDevices (onlyOutput parenFirstText) = Panic "slice bounds out of range"
  /\ returned (Part000.GetDevices (onlyOutput parenFirstText)) = false.
Proof. repeat split; vm_compute; reflexivity. Qed.

(** ** The orchestrator *)

Lemma eqb_nonempty (s : string) : s <> EmptyString -> String.eqb s EmptyString = false.
Proof. intros H. apply String.eqb_neq. exact H. Qed.

(** C3.  A run of [main] of [part_000] that gets as far as the deployment
    installs and launches on a simulator exactly when the path of the
    built application contains [simulator], and on a physical device
    otherwise, whatever the device identifier looks like. *)
Theorem main_classifies_by_artifact_path
  (w : world) (projectPath selectedScheme : string) (otherSchemes : list string)
  (devices : gmap string string)
  (selectedDevice deviceUDID appPath bundleIdentifier : string) :
  detectXcodeProject w = Ok projectPath ->
  GetSchemes w = Ok (selectedScheme :: otherSchemes) ->
  Part000.GetDevices w = Ok devices ->
  PromptUser w "Select a Device" (rangeNames w devices) = Ok selectedDevice ->
  devices !! selectedDevice = Some deviceUDID ->
  GetBuildSettings w selectedScheme deviceUDID = Ok (appPath, bundleIdentifier) ->
  appPath <> EmptyString ->
  bundleIdentifier <> EmptyString ->
  exitError (run w "xcodebuild" (Part000.buildArgs selectedScheme deviceUDID)) = None ->
  Part000.main w
  = Ok ([ Println Banner;
          Println (DetectedProject projectPath);
          Println (Building selectedScheme selectedDevice deviceUDID);
          Exec "xcodebuild" (Part000.buildArgs selectedScheme deviceUDID) ]
        ++ (if Contains appPath "simulator"
            then simulatorSteps deviceUDID appPath bundleIdentifier
            else physicalSteps deviceUDID appPath bundleIdentifier)
        ++ [Println Done]).
Proof.
  intros Hdetect Hschemes Hdevices Hprompt Hudid Hsettings Hpath Hbundle Hbuild.
  unfold Part000.main.
  rewrite Hdetect. cbn [orReport]. rewrite Hschemes. cbn [orReport].
  rewrite Hdevices. cbn [orReport]. rewrite Hprompt. cbn [orReport].
  rewrite Hudid, Hsettings. cbn [orReport fst snd].
  rewrite (eqb_nonempty _ Hpath), (eqb_nonempty _ Hbundle), Hbuild. cbn [orb].
  destruct (Contains appPath "simulator"); reflexivity.
Qed.

Lemma main_classifies_by_artifact_path_witness :
  Contains "00008030-001C195E0E87802E" "-" = true
  /\ Part000.main phoneSession
     = Ok [ Println Banner;
            Println (DetectedProject "App.xcodeproj");
            Println (Building "App" "My iPhone" "00008030-001C195E0E87802E");
            Exec "xcodebuild"
                 (Part000.buildArgs "App" "00008030-001C195E0E87802E");
            Println DeployingToPhysicalDevice;
            Exec "xcrun" ["devicectl"; "device"; "install"; "app"; "--device";
                          "00008030-001C195E0E87802E"; "--bundle";
                          "/tmp/Build/Debug-iphoneos/App.app"];
            Exec "xcrun" ["devicectl"; "device"; "process"; "launch"; "--device";
                          "00008030-001C195E0E87802E"; "--start-stopped";
                          "com.example.App"];
            Println Done ].
Proof.
  split; [reflexivity|].
  rewrite (main_classifies_by_artifact_path phoneSession
             "App.xcodeproj" "App" ["AppTests"]
             (<["My iPhone" := "00008030-001C195E0E87802E"]>
                {[ "iPhone 15" := "12345678-1234-1234-1234-123456789ABC" ]})
             "My iPhone" "00008030-001C195E0E87802E"
             "/tmp/Build/Debug-iphoneos/App.app" "com.example.App").
  - reflexivity.
  - vm_compute. reflexivity.
  - vm_compute. reflexivity.
  - vm_compute. reflexivity.
  - vm_compute. reflexivity.
  - vm_compute. reflexivity.
  - vm_compute. reflexivity.
  - discriminate.
  - discriminate.
  - vm_compute. reflexivity.
Defined.

(** In [xcode-runner.go], the older file, the same point of [main] looks at
    the identifier instead: a hyphen in it selects the simulator steps. *)
Lemma legacy_main_classifies_by_identifier
  (w : world) (projectPath selectedScheme : string) (schemes : list string)
  (devices : gmap string string)
  (selectedDevice deviceUDID appPath bundleIdentifier : string) :
  detectXcodeProject w = Ok projectPath ->
  GetSchemes w = Ok schemes ->
  PromptUser w "Select a Scheme" schemes = Ok selectedScheme ->
  XcodeRunner.GetDevices w = Ok devices ->
  PromptUser w "Select a Device" (rangeNames w devices) = Ok selectedDevice ->
  devices !! selectedDevice = Some deviceUDID ->
  GetBuildSettings w selectedScheme deviceUDID = Ok (appPath, bundleIdentifier) ->
  appPath <> EmptyString ->
  bundleIdentifier <> EmptyString ->
  exitError (run w "xcodebuild" (XcodeRunner.buildArgs selectedScheme deviceUDID)) = None ->
  XcodeRunner.main w
  = Ok ([ Println Banner;
          Println (DetectedProject projectPath);
          Println (Building selectedScheme selectedDevice deviceUDID);
          Exec "xcodebuild" (XcodeRunner.buildArgs selectedScheme deviceUDID) ]
        ++ (if Contains deviceUDID "-"
            then simulatorSteps deviceUDID appPath bundleIdentifier
            else legacyPhysicalSteps deviceUDID)
        ++ [Println Done]).
Proof.
  intros Hdetect Hschemes Hscheme Hdevices Hprompt Hudid Hsettings Hpath Hbundle Hbuild.
  unfold XcodeRunner.main.
  rewrite Hdetect. cbn [orReport]. rewrite Hschemes. cbn [orReport].
  rewrite Hscheme. cbn [orReport].
  rewrite Hdevices. cbn [orReport]. rewrite Hprompt. cbn [orReport].
  rewrite Hudid, Hsettings. cbn [orReport fst snd].
  rewrite (eqb_nonempty _ Hpath), (eqb_nonempty _ Hbundle), Hbuild. cbn [orb].
  destruct (Contains deviceUDID "-"); reflexivity.
Qed.

(** C3, as stated, fails for [main] of [xcode-runner.go]: the settings
    resolve to the path of a build for a physical phone, without
    [simulator] in it, the identifier of the selected device has a hyphen,
    and the run installs and launches with the simulator steps. *)
Lemma legacy_main_installs_phone_build_on_simulator :
  GetBuildSettings legacySession "App" "ABCD-1234"
  = Ok ("/tmp/Build/Debug-iphoneos/App.app", "com.example.App")
  /\ Contains "/tmp/Build/Debug-iphoneos/App.app" "simulator" = false
  /\ Contains "ABCD-1234" "-" = true
  /\ XcodeRunner.main legacySession
     = Ok [ Println Banner;
            Println (DetectedProject "App.xcodeproj");
            Println (Building "App" "iPhone 15" "ABCD-1234");
            Exec "xcodebuild" (XcodeRunner.buildArgs "App" "ABCD-1234");
            Println InstallingOnSimulator;
            Exec "xcrun" ["simctl"; "bootstatus"; "ABCD-1234"; "-b"];
            Exec "xcrun" ["simctl"; "install"; "ABCD-1234";
                          "/tmp/Build/Debug-iphoneos/App.app"];
            Exec "xcrun" ["simctl"; "launch"; "ABCD-1234"; "com.example.App"];
            Println Done ].
Proof. repeat split; vm_compute; reflexivity. Qed.

(** * Further properties *)

(** ** The text listing: which lines are read *)

Lemma lastIndexFrom_paren_lt (s : string) (i found : Z) :
  lastIndexFrom i s "(" found = found
  \/ (i <= lastIndexFrom i s "(" found < i + len s)%Z.
Proof.
  revert i found. induction s as [|c s IH]; intros i found; cbn [lastIndexFrom len].
  - left. reflexivity.
  - pose proof (len_nonneg s). rewrite prefix_paren.
    destruct (Ascii.eqb "(" c).
    + destruct (IH (i + 1)%Z i) as [-> | Hb]; right; lia.
    + destruct (IH (i + 1)%Z found) as [-> | Hb]; [left; reflexivity | right; lia].
Qed.

Lemma LastIndex_paren_lt (s : string) :
  LastIndex s "(" = (-1)%Z \/ (0 <= LastIndex s "(" < len s)%Z.
Proof.
  unfold LastIndex. destruct (lastIndexFrom_paren_lt s 0 (-1)); [left | right]; lia.
Qed.

Lemma slice_in_range (s : string) (lo hi : Z) :
  (0 <= lo <= hi)%Z -> (hi <= len s)%Z ->
  slice s lo hi = Ok (String.substring (Z.to_nat lo) (Z.to_nat (hi - lo)) s).
Proof.
  intros [Hlo Hhi] Hlen. unfold slice.
  replace ((0 <=? lo)%Z) with true by (symmetry; apply Z.leb_le; lia).
  replace ((lo <=? hi)%Z) with true by (symmetry; apply Z.leb_le; lia).
  replace ((hi <=? len s)%Z) with true by (symmetry; apply Z.leb_le; lia).
  reflexivity.
Qed.

Lemma inDeviceSection_not_offline (section : string) :
  inDeviceSection section = true ->
  String.eqb section "== Devices Offline ==" = false.
Proof.
  unfold inDeviceSection. intros H. apply orb_true_iff in H as [H|H];
    apply String.eqb_eq in H; rewrite H; reflexivity.
Qed.

(** The one way for a turn of the loop to fail: the slice before a
    parenthesis at index [0]. *)
Lemma devicesBody_panics (st : Part000.devicesLoop) (line : string) :
  opensWithLastParen (Part000.currentSection st) line = true ->
  Part000.devicesBody st line = Panic "slice bounds out of range".
Proof.
  unfold opensWithLastParen. intros H.
  apply andb_true_iff in H as [H Hzero]. apply andb_true_iff in H as [Hsec Hhead].
  apply negb_true_iff in Hhead. apply Z.eqb_eq in Hzero.
  assert (Hline : String.eqb line EmptyString = false).
  { apply String.eqb_neq. intros ->. discriminate Hzero. }
  unfold Part000.devicesBody. cbv zeta.
  rewrite Hhead, Hline, (inDeviceSection_not_offline _ Hsec). cbn [orb].
  fold (inDeviceSection (Part000.currentSection st)). rewrite Hsec, Hzero.
  cbn [Z.eqb Z.add]. unfold sliceFrom.
  destruct (LastIndex_paren_lt line) as [Hb|Hb]; [lia|].
  rewrite slice_in_range by lia. reflexivity.
Qed.

Lemma devicesBody_returns (st : Part000.devicesLoop) (line : string) :
  opensWithLastParen (Part000.currentSection st) line = false ->
  exists st', Part000.devicesBody st line = Ok st'.
Proof.
  unfold opensWithLastParen. intros H.
  unfold Part000.devicesBody. cbv zeta.
  destruct (HasPrefix line "== "); [eexists; reflexivity|].
  destruct (String.eqb line EmptyString
            || String.eqb (Part000.currentSection st) "== Devices Offline ==");
    [eexists; reflexivity|].
  fold (inDeviceSection (Part000.currentSection st)).
  destruct (inDeviceSection (Part000.currentSection st)); [|eexists; reflexivity].
  cbn [andb negb] in H. apply Z.eqb_neq in H.
  destruct (LastIndex line "(" =? -1)%Z eqn:Hnone; [eexists; reflexivity|].
  apply Z.eqb_neq in Hnone.
  destruct (LastIndex_paren_lt line) as [Hb|Hb]; [lia|].
  unfold sliceFrom, sliceTo. rewrite !slice_in_range by lia. cbn [bind].
  set (deviceName := String.substring _ _ line).
  destruct (LastIndex deviceName "(" =? -1)%Z eqn:Hversion; cbn [negb bind].
  - destruct (MatchString line || _); eexists; reflexivity.
  - apply Z.eqb_neq in Hversion.
    destruct (LastIndex_paren_lt deviceName) as [Hv|Hv]; [lia|].
    rewrite slice_in_range by lia. cbn [bind].
    destruct (MatchString line || _); eexists; reflexivity.
Qed.

Lemma sectionAfter_cons (section line : string) (lines : list string) :
  sectionAfter section (line :: lines)
  = sectionAfter (if HasPrefix line "== " then line else section) lines.
Proof. reflexivity. Qed.

Lemma sectionAfter_app (section : string) (pre post : list string) :
  sectionAfter section (pre ++ post) = sectionAfter (sectionAfter section pre) post.
Proof. unfold sectionAfter. apply fold_left_app. Qed.

Lemma foldM_devicesBody_panics (pre post : list string) (line : string)
  (st : Part000.devicesLoop) :
  opensWithLastParen (sectionAfter (Part000.currentSection st) pre) line = true ->
  exists msg, foldM Part000.devicesBody (pre ++ line :: post) st = Panic msg.
Proof.
  revert st. induction pre as [|l pre IH]; intros st Hbad.
  - cbn [app foldM]. rewrite (devicesBody_panics st line Hbad). eexists. reflexivity.
  - cbn [app foldM].
    destruct (opensWithLastParen (Part000.currentSection st) l) eqn:Hl.
    + rewrite (devicesBody_panics st l Hl). eexists. reflexivity.
    + destruct (devicesBody_returns st l Hl) as [st1 Hbody].
      rewrite Hbody. cbn [bind]. apply IH.
      rewrite (devicesBody_section st st1 l Hbody). exact Hbad.
Qed.

Lemma foldM_devicesBody_returns (lines : list string) (st : Part000.devicesLoop) :
  (forall pre line post,
     lines = pre ++ line :: post ->
     opensWithLastParen (sectionAfter (Part000.currentSection st) pre) line = false) ->
  exists st', foldM Part000.devicesBody lines st = Ok st'.
Proof.
  revert st. induction lines as [|l lines IH]; intros st Hgood.
  - eexists. reflexivity.
  - destruct (devicesBody_returns st l (Hgood [] l lines eq_refl)) as [st1 Hbody].
    cbn [foldM]. rewrite Hbody. cbn [bind]. apply IH.
    intros pre line post ->.
    rewrite (devicesBody_section st st1 l Hbody).
    apply (Hgood (l :: pre) line post). reflexivity.
Qed.

Lemma opening_paren_line_dec (lines : list string) (section : string) :
  (exists pre line post,
     lines = pre ++ line :: post
     /\ opensWithLastParen (sectionAfter section pre) line = true)
  \/ (forall pre line post,
        lines = pre ++ line :: post ->
        opensWithLastParen (sectionAfter section pre) line = false).
Proof.
  revert section. induction lines as [|l lines IH]; intros section.
  - right. intros [|p pre] line post H; discriminate H.
  - destruct (opensWithLastParen section l) eqn:Hl.
    + left. exists [], l, lines. split; [reflexivity | exact Hl].
    + destruct (IH (if HasPrefix l "== " then l else section))
        as [(pre & line & post & -> & Hbad)|Hgood].
      * left. exists (l :: pre), line, post. split; [reflexivity | exact Hbad].
      * right. intros [|p pre] line post H.
        -- injection H as <- _. exact Hl.
        -- injection H as <- H. apply (Hgood pre line post H).
Qed.

(** X1.  The parser of the text listing ends in a panic exactly when the
    command exits normally and the scanner delivers, in a Devices or
    Simulators section, a line that is no header and whose last opening
    parenthesis is its first byte; on every other listing it returns a map
    or an error. *)
Theorem GetDevices_panics_exactly (w : world) :
  returned (Part000.GetDevices w) = false
  <-> exitError (run w "xcrun" xctraceArgs) = None
      /\ exists pre line post,
           ScanLines (captured (run w "xcrun" xctraceArgs)) = pre ++ line :: post
           /\ opensWithLastParen (sectionOf pre) line = true.
Proof.
  unfold Part000.GetDevices. fold xctraceArgs.
  destruct (exitError (run w "xcrun" xctraceArgs)) as [err|].
  { split; [discriminate | intros [Hnone _]; discriminate]. }
  unfold Part000.scanDevices. split.
  - intros Hpanic. split; [reflexivity|].
    destruct (opening_paren_line_dec
                (ScanLines (captured (run w "xcrun" xctraceArgs)))
                EmptyString) as [Hbad|Hgood]; [exact Hbad|].
    exfalso.
    destruct (foldM_devicesBody_returns _
                {| Part000.currentSection := EmptyString; Part000.devices := ∅ |}
                Hgood) as [st' Hfold].
    rewrite Hfold in Hpanic. cbn [bind] in Hpanic.
    destruct (bool_decide (size (Part000.devices st') = 0%nat)); discriminate.
  - intros [_ (pre & line & post & Hlines & Hbad)]. rewrite Hlines.
    destruct (foldM_devicesBody_panics pre post line
                {| Part000.currentSection := EmptyString; Part000.devices := ∅ |}
                Hbad) as [msg Hfold].
    rewrite Hfold. reflexivity.
Qed.

Lemma GetDevices_panics_exactly_witness :
  returned (Part000.GetDevices (onlyOutput parenFirstText)) = false.
Proof.
  apply (proj2 (GetDevices_panics_exactly (onlyOutput parenFirstText))).
  split; [reflexivity|].
  exists ["== Devices =="], "(ABC)", []. split; vm_compute; reflexivity.
Defined.

Lemma devicesBody_passes_over (st : Part000.devicesLoop) (line : string) :
  HasPrefix line "== " = false ->
  passedOver (Part000.currentSection st) line = true ->
  Part000.devicesBody st line = Ok st.
Proof.
  intros Hhead Hpass. unfold Part000.devicesBody. cbv zeta. rewrite Hhead.
  destruct (String.eqb line EmptyString
            || String.eqb (Part000.currentSection st) "== Devices Offline ==") eqn:Hskip;
    [reflexivity|].
  apply orb_false_iff in Hskip as [Hline _].
  fold (inDeviceSection (Part000.currentSection st)).
  unfold passedOver in Hpass. rewrite Hline, orb_false_r in Hpass.
  destruct (inDeviceSection (Part000.currentSection st)); [|reflexivity].
  cbn [negb orb] in Hpass. rewrite Hpass. reflexivity.
Qed.

(** X2.  Only the lines of the Devices and the Simulators sections that
    are not empty and have an opening parenthesis are read: a line that the
    scanner delivers outside these sections (before the first header, or
    under any other header), an empty line, or a line without a
    parenthesis can be taken out of the listing without changing what the
    parser returns. *)
Theorem GetDevices_passes_over_line
  (w : world) (pre post : list string) (line : string) :
  exitError (run w "xcrun" xctraceArgs) = None ->
  ScanLines (captured (run w "xcrun" xctraceArgs)) = pre ++ line :: post ->
  HasPrefix line "== " = false ->
  passedOver (sectionOf pre) line = true ->
  Part000.GetDevices w = Part000.scanDevices (pre ++ post).
Proof.
  intros Hrun Hlines Hhead Hpass.
  unfold Part000.GetDevices. fold xctraceArgs. rewrite Hrun, Hlines.
  unfold Part000.scanDevices. rewrite !foldM_app.
  destruct (foldM Part000.devicesBody pre
              {| Part000.currentSection := EmptyString; Part000.devices := ∅ |})
    as [st|e|msg] eqn:Hpre; [|reflexivity..].
  cbn [bind foldM].
  apply foldM_devicesBody_section in Hpre. cbn [Part000.currentSection] in Hpre.
  fold (sectionOf pre) in Hpre.
  rewrite devicesBody_passes_over; [reflexivity | exact Hhead | rewrite Hpre; exact Hpass].
Qed.

Lemma GetDevices_passes_over_line_witness :
  Part000.GetDevices
    (onlyOutput ("Preamble (1-2)" +:+ LF +:+ "== Simulators ==" +:+ LF
                 +:+ "iPhone 15 (17.0) (12345678-1234-1234-1234-123456789ABC)"))
  = Part000.scanDevices
      ([] ++ ["== Simulators ==";
              "iPhone 15 (17.0) (12345678-1234-1234-1234-123456789ABC)"]).
Proof.
  apply (GetDevices_passes_over_line _ []
           ["== Simulators ==";
            "iPhone 15 (17.0) (12345678-1234-1234-1234-123456789ABC)"]
           "Preamble (1-2)");
    vm_compute; reflexivity.
Defined.

(** ** The text listing: what is stored *)

(** A turn of the loop leaves the map alone or stores, under some name,
    the identifier of the line, which then passes the permissive test. *)
Lemma devicesBody_stores (st st' : Part000.devicesLoop) (line : string) :
  Part000.devicesBody st line = Ok st' ->
  Part000.devices st' = Part000.devices st
  \/ exists name udid,
       extractedIdentifier line = Some udid /\ fallbackForm udid = true
       /\ Part000.devices st' = <[name := udid]> (Part000.devices st).
Proof.
  unfold Part000.devicesBody. cbv zeta.
  destruct (HasPrefix line "== "); [intros [= <-]; left; reflexivity|].
  destruct (String.eqb line EmptyString
            || String.eqb (Part000.currentSection st) "== Devices Offline ==");
    [intros [= <-]; left; reflexivity|].
  destruct (String.eqb (Part000.currentSection st) "== Devices =="
            || String.eqb (Part000.currentSection st) "== Simulators ==");
    [|intros [= <-]; left; reflexivity].
  destruct (LastIndex line "(" =? -1)%Z eqn:Hnone; [intros [= <-]; left; reflexivity|].
  destruct (sliceFrom line (LastIndex line "(" + 1)) as [udidPart|e|msg] eqn:Hpart;
    cbn [bind]; [|discriminate..].
  assert (Hudid : extractedIdentifier line = Some (TrimSuffix udidPart ")")).
  { unfold extractedIdentifier. rewrite Hnone, Hpart. reflexivity. }
  destruct (sliceTo line (LastIndex line "(" - 1)) as [deviceName|e|msg];
    cbn [bind]; [|discriminate..].
  destruct (if negb (LastIndex deviceName "(" =? -1)%Z
            then prefix <- sliceTo deviceName (LastIndex deviceName "(") ;;
                 Ok (TrimSpace prefix)
            else Ok deviceName) as [name|e|msg]; cbn [bind]; [|discriminate..].
  fold (fallbackForm (TrimSuffix udidPart ")")).
  rewrite (accept_test line _ Hudid), acceptable_fallbackForm.
  destruct (fallbackForm (TrimSuffix udidPart ")")) eqn:Hform;
    intros [= <-]; [right | left; reflexivity].
  exists name, (TrimSuffix udidPart ")"). repeat split; assumption.
Qed.

Lemma foldM_devicesBody_entries (lines : list string) (st st' : Part000.devicesLoop)
  (name udid : string) :
  foldM Part000.devicesBody lines st = Ok st' ->
  Part000.devices st' !! name = Some udid ->
  Part000.devices st !! name = Some udid
  \/ exists line, line ∈ lines /\ extractedIdentifier line = Some udid
                  /\ fallbackForm udid = true.
Proof.
  revert st. induction lines as [|l lines IH]; intros st Hfold Hlook.
  - injection Hfold as <-. left. exact Hlook.
  - cbn [foldM] in Hfold. apply bind_Ok in Hfold as (st1 & Hbody & Hrest).
    destruct (IH st1 Hrest Hlook) as [Hst1|(line & Hin & Hid & Hform)].
    + apply devicesBody_stores in Hbody as [Heq|(n & u & Hid & Hform & Heq)].
      * left. rewrite <- Heq. exact Hst1.
      * rewrite Heq in Hst1. destruct (decide (n = name)) as [->|Hne].
        -- rewrite lookup_insert_eq in Hst1. injection Hst1 as ->.
           right. exists l. split; [left|]. split; assumption.
        -- rewrite lookup_insert_ne in Hst1 by exact Hne. left. exact Hst1.
    + right. exists line. split; [right; exact Hin|]. split; assumption.
Qed.

(** X3.  A registry returned from the text listing is not empty, and each
    of its identifiers is what follows the last opening parenthesis of a
    line that the scanner delivered, is not empty, and has a hyphen or a
    character of [0123456789ABCDEF]. *)
Theorem GetDevices_entries_come_from_lines
  (w : world) (registry : gmap string string) :
  Part000.GetDevices w = Ok registry ->
  registry <> ∅
  /\ forall name udid,
       registry !! name = Some udid ->
       fallbackForm udid = true
       /\ exists line,
            line ∈ ScanLines (captured (run w "xcrun" xctraceArgs))
            /\ extractedIdentifier line = Some udid.
Proof.
  unfold Part000.GetDevices. fold xctraceArgs.
  destruct (exitError (run w "xcrun" xctraceArgs)); [discriminate|].
  unfold Part000.scanDevices. intros Hscan.
  apply bind_Ok in Hscan as (st & Hfold & Hcheck).
  case_bool_decide; [discriminate|]. injection Hcheck as <-. split.
  - intros Hempty. rewrite Hempty, map_size_empty in *. congruence.
  - intros name udid Hlook.
    destruct (foldM_devicesBody_entries _ _ _ name udid Hfold Hlook)
      as [Hinit|(line & Hin & Hid & Hform)].
    + cbn [Part000.devices] in Hinit. rewrite lookup_empty in Hinit. discriminate.
    + split; [exact Hform|]. exists line. split; assumption.
Qed.

Lemma GetDevices_entries_come_from_lines_witness :
  ({[ "iPhone 15" := "12345678-1234-1234-1234-123456789ABC" ]} : gmap string string)
  <> ∅.
Proof.
  apply (GetDevices_entries_come_from_lines (onlyOutput offlineText)).
  vm_compute. reflexivity.
Defined.

Lemma sliceTo_app (s t : string) : sliceTo (s +:+ t) (len s) = Ok s.
Proof.
  unfold sliceTo. pose proof (len_nonneg s). pose proof (len_nonneg t).
  rewrite slice_in_range by (rewrite ?len_app; lia).
  rewrite Z.sub_0_r, len_length, Nat2Z.id. cbn [Z.to_nat].
  rewrite substring_0_app. reflexivity.
Qed.

Lemma noParen_closed (id : string) : noParen id = true -> noParen (id +:+ ")") = true.
Proof. unfold noParen. intros H. rewrite allBytes_app, H. reflexivity. Qed.

Lemma LastIndex_last_paren (s t : string) :
  noParen t = true -> LastIndex (s +:+ String "(" t) "(" = len s.
Proof.
  intros Ht. unfold LastIndex. rewrite (lastIndexFrom_last_paren s t 0 (-1) Ht). lia.
Qed.

Lemma LastIndex_noParen (s : string) : noParen s = true -> LastIndex s "(" = (-1)%Z.
Proof. intros Hs. apply lastIndexFrom_noParen, Hs. Qed.

(** What follows the last parenthesis, up to a closing one at the end. *)
Lemma extractedIdentifier_last_paren (s id : string) :
  noParen id = true ->
  extractedIdentifier (s +:+ String "(" (id +:+ ")")) = Some id.
Proof.
  intros Hid. unfold extractedIdentifier.
  rewrite (LastIndex_last_paren s _ (noParen_closed id Hid)).
  pose proof (len_nonneg s).
  replace ((len s =? -1)%Z) with false by (symmetry; apply Z.eqb_neq; lia).
  replace (s +:+ String "(" (id +:+ ")")) with ((s +:+ "(") +:+ (id +:+ ")"))
    by (rewrite string_app_assoc; reflexivity).
  replace (len s + 1)%Z with (len (s +:+ "(")) by (rewrite len_app; reflexivity).
  rewrite sliceFrom_app, TrimSuffix_app. reflexivity.
Qed.

(** A line that ends in a parenthesised identifier: the byte before the
    parenthesis is dropped, the text [a] before it gives the name. *)
Lemma devicesBody_record (st : Part000.devicesLoop) (a id : string) (c : ascii) :
  inDeviceSection (Part000.currentSection st) = true ->
  noParen id = true ->
  HasPrefix (a +:+ String c (String "(" (id +:+ ")"))) "== " = false ->
  Part000.devicesBody st (a +:+ String c (String "(" (id +:+ ")")))
  = (deviceName <-
       (if negb (LastIndex a "(" =? -1)%Z
        then prefix <- sliceTo a (LastIndex a "(") ;; Ok (TrimSpace prefix)
        else Ok a) ;;
     Ok (if fallbackForm id then stored st deviceName id else st)).
Proof.
  intros Hsec Hid Hhead.
  assert (Hline : a +:+ String c (String "(" (id +:+ ")"))
                  = (a +:+ String c EmptyString) +:+ String "(" (id +:+ ")")).
  { rewrite string_app_assoc. reflexivity. }
  pose proof (extractedIdentifier_last_paren (a +:+ String c EmptyString) id Hid)
    as Hudid.
  rewrite <- Hline in Hudid.
  pose proof (accept_test _ _ Hudid) as Htest. rewrite acceptable_fallbackForm in Htest.
  assert (Hlast : LastIndex (a +:+ String c (String "(" (id +:+ ")"))) "("
                  = (len a + 1)%Z).
  { rewrite Hline, (LastIndex_last_paren _ _ (noParen_closed id Hid)), len_app.
    reflexivity. }
  assert (Hnonempty : String.eqb (a +:+ String c (String "(" (id +:+ ")")))
                                 EmptyString = false).
  { destruct a; reflexivity. }
  unfold extractedIdentifier in Hudid. rewrite Hlast in Hudid.
  pose proof (len_nonneg a) as Hlen.
  unfold Part000.devicesBody. cbv zeta.
  rewrite Hhead, Hnonempty, (inDeviceSection_not_offline _ Hsec). cbn [orb].
  fold (inDeviceSection (Part000.currentSection st)). rewrite Hsec, Hlast.
  replace ((len a + 1 =? -1)%Z) with false in * by (symmetry; apply Z.eqb_neq; lia).
  destruct (sliceFrom (a +:+ String c (String "(" (id +:+ ")"))) (len a + 1 + 1))
    as [udidPart|e|msg]; [|discriminate..].
  injection Hudid as Hudid. cbn [bind]. rewrite Hudid.
  replace (len a + 1 - 1)%Z with (len a) by lia.
  rewrite sliceTo_app. cbn [bind].
  fold (fallbackForm id). rewrite Htest.
  destruct (if negb (LastIndex a "(" =? -1)%Z
            then prefix <- sliceTo a (LastIndex a "(") ;; Ok (TrimSpace prefix)
            else Ok a) as [deviceName|e|msg]; cbn [bind]; [|reflexivity..].
  destruct (fallbackForm id); reflexivity.
Qed.

(** X4.  In a Devices or Simulators section, a line made of a name, one
    byte (a space in the listings), and an identifier between parentheses
    is stored under the name as it stands when the name has no parenthesis;
    a line that carries a parenthesised version before the identifier is
    stored under the trimmed text before the version.  In both cases the
    entry is made exactly when the identifier passes the permissive
    test. *)
Theorem devicesBody_parses_record
  (st : Part000.devicesLoop) (name version id : string) (c : ascii) :
  inDeviceSection (Part000.currentSection st) = true ->
  noParen version = true ->
  noParen id = true ->
  (noParen name = true ->
   HasPrefix (name +:+ String c (String "(" (id +:+ ")"))) "== " = false ->
   Part000.devicesBody st (name +:+ String c (String "(" (id +:+ ")")))
   = Ok (if fallbackForm id then stored st name id else st))
  /\ (HasPrefix ((name +:+ String "(" version)
                 +:+ String c (String "(" (id +:+ ")"))) "== " = false ->
      Part000.devicesBody st
        ((name +:+ String "(" version) +:+ String c (String "(" (id +:+ ")")))
      = Ok (if fallbackForm id then stored st (TrimSpace name) id else st)).
Proof.
  intros Hsec Hversion Hid. split.
  - intros Hname Hhead. rewrite (devicesBody_record st name id c Hsec Hid Hhead).
    rewrite (LastIndex_noParen name Hname). reflexivity.
  - intros Hhead. rewrite (devicesBody_record st _ id c Hsec Hid Hhead).
    rewrite (LastIndex_last_paren name version Hversion).
    pose proof (len_nonneg name).
    replace ((len name =? -1)%Z) with false by (symmetry; apply Z.eqb_neq; lia).
    cbn [negb]. rewrite sliceTo_app. reflexivity.
Qed.

Lemma devicesBody_parses_record_witness :
  Part000.devicesBody
    {| Part000.currentSection := "== Simulators =="; Part000.devices := ∅ |}
    "iPhone 15 (17.0) (12345678-1234-1234-1234-123456789ABC)"
  = Ok {| Part000.currentSection := "== Simulators ==";
          Part000.devices :=
            {[ "iPhone 15" := "12345678-1234-1234-1234-123456789ABC" ]} |}.
Proof.
  apply (proj2 (devicesBody_parses_record
                  {| Part000.currentSection := "== Simulators ==";
                     Part000.devices := ∅ |}
                  "iPhone 15 " "17.0)" "12345678-1234-1234-1234-123456789ABC" " "
                  eq_refl eq_refl eq_refl)).
  reflexivity.
Defined.

(** ** The project locator *)

Lemma detectXcodeProject_listing (w : world) (files : list DirEntry) :
  ReadDir w "." = inr files ->
  detectXcodeProject w
  = (let st := fold_left detectBody files
                 {| project := EmptyString; workspace := EmptyString |} in
     if negb (String.eqb (workspace st) EmptyString) then Ok (workspace st)
     else if negb (String.eqb (project st) EmptyString) then Ok (project st)
     else Err notFound).
Proof. intros Hread. unfold detectXcodeProject. rewrite Hread. reflexivity. Qed.

(** X5.  What the locator returns is the name of a sub-directory of the
    listing with one of the two extensions: never a regular file, never
    another directory, never an empty name. *)
Theorem detectXcodeProject_returns_descriptor (w : world) (name : string) :
  detectXcodeProject w = Ok name ->
  exists files file,
    ReadDir w "." = inr files /\ file ∈ files /\ entryName file = name
    /\ IsDir file = true /\ name <> EmptyString
    /\ (Ext name = ".xcworkspace" \/ Ext name = ".xcodeproj").
Proof.
  intros Hdetect.
  destruct (ReadDir w ".") as [err|files] eqn:Hread;
    [unfold detectXcodeProject in Hdetect; rewrite Hread in Hdetect; discriminate|].
  rewrite (detectXcodeProject_listing w files Hread) in Hdetect. cbv zeta in Hdetect.
  exists files.
  pose proof (detect_loop isWorkspace workspace detectBody_workspace files
                {| project := EmptyString; workspace := EmptyString |}) as Hw.
  pose proof (detect_loop isProject project detectBody_project files
                {| project := EmptyString; workspace := EmptyString |}) as Hp.
  set (st := fold_left detectBody files _) in *.
  destruct (String.eqb (workspace st) EmptyString) eqn:Hws; cbn [negb] in Hdetect.
  - destruct (String.eqb (project st) EmptyString) eqn:Hpr; cbn [negb] in Hdetect;
      [discriminate|]. injection Hdetect as <-.
    destruct Hp as [[Heq _]|(f & Hin & Hk & Heq)].
    + rewrite Heq in Hpr. discriminate.
    + exists f. unfold isProject in Hk. apply andb_true_iff in Hk as [Hdir Hext].
      apply String.eqb_eq in Hext. rewrite Heq.
      repeat split; try assumption; try reflexivity.
      * apply (Ext_of_entry_nonempty _ _ Hext). discriminate.
      * right. exact Hext.
  - injection Hdetect as <-.
    destruct Hw as [[Heq _]|(f & Hin & Hk & Heq)].
    + rewrite Heq in Hws. discriminate.
    + exists f. unfold isWorkspace in Hk. apply andb_true_iff in Hk as [Hdir Hext].
      apply String.eqb_eq in Hext. rewrite Heq.
      repeat split; try assumption; try reflexivity.
      * apply (Ext_of_entry_nonempty _ _ Hext). discriminate.
      * left. exact Hext.
Qed.

Lemma detectXcodeProject_returns_descriptor_witness :
  exists files file,
    ReadDir (onlyFiles [dir "App.xcodeproj"]) "." = inr files /\ file ∈ files
    /\ entryName file = "App.xcodeproj"
    /\ IsDir file = true /\ "App.xcodeproj" <> EmptyString
    /\ (Ext "App.xcodeproj" = ".xcworkspace" \/ Ext "App.xcodeproj" = ".xcodeproj").
Proof.
  apply (detectXcodeProject_returns_descriptor (onlyFiles [dir "App.xcodeproj"])).
  reflexivity.
Defined.

Lemma detect_loop_last (kind : DirEntry -> bool) (var : detectLoop -> string) :
  (forall st file, var (detectBody st file)
                   = if kind file then entryName file else var st) ->
  forall pre file post st,
    kind file = true ->
    (forall f, f ∈ post -> kind f = false) ->
    var (fold_left detectBody (pre ++ file :: post) st) = entryName file.
Proof.
  intros Hbody pre file post st Hfile Hpost.
  rewrite fold_left_app. cbn [fold_left].
  destruct (detect_loop kind var Hbody post
              (detectBody (fold_left detectBody pre st) file))
    as [[Heq _]|(f & Hin & Hk & _)].
  - rewrite Heq, Hbody, Hfile. reflexivity.
  - rewrite (Hpost f Hin) in Hk. discriminate.
Qed.

(** X6.  With several workspaces in the listing the locator returns the
    one listed last; with no workspace and several projects, the project
    listed last. *)
Theorem detectXcodeProject_last_listed
  (w : world) (pre post : list DirEntry) (file : DirEntry) :
  ReadDir w "." = inr (pre ++ file :: post) ->
  (isWorkspace file = true ->
   (forall f, f ∈ post -> isWorkspace f = false) ->
   detectXcodeProject w = Ok (entryName file))
  /\ (isProject file = true ->
      (forall f, f ∈ post -> isProject f = false) ->
      (forall f, f ∈ pre ++ file :: post -> isWorkspace f = false) ->
      detectXcodeProject w = Ok (entryName file)).
Proof.
  intros Hread. rewrite (detectXcodeProject_listing w _ Hread). cbv zeta. split.
  - intros Hfile Hpost.
    rewrite (detect_loop_last isWorkspace workspace detectBody_workspace
               pre file post _ Hfile Hpost).
    rewrite (isWorkspace_named file Hfile). reflexivity.
  - intros Hfile Hpost Hnone.
    destruct (detect_loop isWorkspace workspace detectBody_workspace
                (pre ++ file :: post)
                {| project := EmptyString; workspace := EmptyString |})
      as [[Heq _]|(f & Hin & Hk & _)];
      [|rewrite (Hnone f Hin) in Hk; discriminate].
    rewrite Heq. cbn [workspace String.eqb negb].
    rewrite (detect_loop_last isProject project detectBody_project
               pre file post _ Hfile Hpost).
    rewrite (isProject_named file Hfile). reflexivity.
Qed.

Lemma detectXcodeProject_last_listed_witness :
  detectXcodeProject (onlyFiles [dir "A.xcworkspace"; dir "B.xcworkspace";
                                 dir "C.xcodeproj"])
  = Ok "B.xcworkspace".
Proof.
  apply (proj1 (detectXcodeProject_last_listed
                  (onlyFiles [dir "A.xcworkspace"; dir "B.xcworkspace";
                              dir "C.xcodeproj"])
                  [dir "A.xcworkspace"] [dir "C.xcodeproj"] (dir "B.xcworkspace")
                  eq_refl)).
  - reflexivity.
  - intros f Hf. apply list_elem_of_singleton in Hf as ->. reflexivity.
Defined.

Lemma detectBody_other (st : detectLoop) (file : DirEntry) :
  isDescriptor file = false -> detectBody st file = st.
Proof.
  unfold isDescriptor, isWorkspace, isProject, detectBody. intros H.
  apply orb_false_iff in H as [Hw Hp].
  destruct (IsDir file); [|reflexivity]. cbn [andb] in Hw, Hp.
  rewrite Hw, Hp. reflexivity.
Qed.

Lemma detect_loop_descriptors (files : list DirEntry) (st : detectLoop) :
  fold_left detectBody (List.filter isDescriptor files) st
  = fold_left detectBody files st.
Proof.
  revert st. induction files as [|f files IH]; intros st; [reflexivity|].
  cbn [List.filter fold_left]. destruct (isDescriptor f) eqn:Hf.
  - cbn [fold_left]. apply IH.
  - rewrite (detectBody_other st f Hf). apply IH.
Qed.

(** X7.  The locator looks only at the sub-directories with one of the two
    extensions: regular files, whatever their names, and other directories
    can be added to or removed from the listing without changing what it
    returns. *)
Theorem detectXcodeProject_ignores_other_entries
  (w1 w2 : world) (files : list DirEntry) :
  ReadDir w1 "." = inr files ->
  ReadDir w2 "." = inr (List.filter isDescriptor files) ->
  detectXcodeProject w1 = detectXcodeProject w2.
Proof.
  intros H1 H2.
  rewrite (detectXcodeProject_listing w1 _ H1), (detectXcodeProject_listing w2 _ H2).
  rewrite detect_loop_descriptors. reflexivity.
Qed.

Lemma detectXcodeProject_ignores_other_entries_witness :
  detectXcodeProject
    (onlyFiles [ {| entryName := "Fake.xcworkspace"; IsDir := false |};
                 dir "Pods"; dir "App.xcodeproj" ])
  = detectXcodeProject (onlyFiles [dir "App.xcodeproj"]).
Proof.
  apply (detectXcodeProject_ignores_other_entries _ _
           [ {| entryName := "Fake.xcworkspace"; IsDir := false |};
             dir "Pods"; dir "App.xcodeproj" ]);
    reflexivity.
Defined.

(** ** The build settings *)

Lemma assertString_Ok (settings : gmap string any) (key value : string) :
  assertString (index settings key) = Ok value ->
  settings !! key = Some (anyString value).
Proof.
  unfold index. destruct (settings !! key) as [v|]; [|discriminate].
  destruct v; try discriminate. intros [= ->]. reflexivity.
Qed.

Lemma assertMap_Ok (record settings : gmap string any) (key : string) :
  assertMap (index record key) = Ok settings ->
  record !! key = Some (anyMap settings).
Proof.
  unfold index. destruct (record !! key) as [v|]; [|discriminate].
  destruct v; try discriminate. intros [= ->]. reflexivity.
Qed.

(** X8.  When the extraction returns a pair, the command exited normally,
    the decoded sequence has a first record, that record binds
    [buildSettings] to a mapping in which the three keys are bound to
    strings, and the pair is made of these strings; the path of the
    application is then never empty. *)
Theorem GetBuildSettings_Ok_inversion
  (w : world) (selectedScheme deviceID appPath bundleIdentifier : string) :
  GetBuildSettings w selectedScheme deviceID = Ok (appPath, bundleIdentifier) ->
  exitError (run w "xcodebuild" (showBuildSettingsArgs selectedScheme deviceID)) = None
  /\ exists first others settings outputDir contentsFolderPath,
       unmarshalBuildSettings w
         (captured (run w "xcodebuild" (showBuildSettingsArgs selectedScheme deviceID)))
       = inr (first :: others)
       /\ first !! "buildSettings" = Some (anyMap settings)
       /\ settings !! "BUILT_PRODUCTS_DIR" = Some (anyString outputDir)
       /\ settings !! "CONTENTS_FOLDER_PATH" = Some (anyString contentsFolderPath)
       /\ settings !! "PRODUCT_BUNDLE_IDENTIFIER" = Some (anyString bundleIdentifier)
       /\ appPath = outputDir +:+ "/" +:+ contentsFolderPath
       /\ appPath <> EmptyString.
Proof.
  unfold GetBuildSettings.
  destruct (exitError (run w "xcodebuild" (showBuildSettingsArgs selectedScheme deviceID)));
    [discriminate|].
  destruct (unmarshalBuildSettings w _) as [err|[|first others]]; cbn [lift bind];
    [discriminate..|].
  intros H. split; [reflexivity|].
  apply bind_Ok in H as (settings & Hsettings & H).
  apply bind_Ok in H as (outputDir & Hdir & H).
  apply bind_Ok in H as (contents & Hcontents & H).
  apply bind_Ok in H as (bundle & Hbundle & H).
  injection H as <- <-.
  exists first, others, settings, outputDir, contents.
  split; [reflexivity|].
  split; [apply assertMap_Ok, Hsettings|].
  split; [apply assertString_Ok, Hdir|].
  split; [apply assertString_Ok, Hcontents|].
  split; [apply assertString_Ok, Hbundle|].
  split; [reflexivity|].
  destruct outputDir; discriminate.
Qed.

Lemma GetBuildSettings_Ok_inversion_witness :
  "/tmp/Build/Debug-iphonesimulator/App.app" <> EmptyString.
Proof.
  destruct (GetBuildSettings_Ok_inversion (onlySettings minimalSettings)
              "App" "ABCD-1234" "/tmp/Build/Debug-iphonesimulator/App.app"
              "com.example.App")
    as (_ & first & others & settings & outputDir & contents & _ & _ & _ & _ & _ & _ & Hne).
  - vm_compute. reflexivity.
  - exact Hne.
Defined.

(** X9.  The extraction reads the three required bindings of the settings
    mapping of the first record and nothing else: two runs whose first
    records agree on these bindings give the same outcome, whatever the
    other records, the other keys, the schemes and the device identifiers
    are. *)
Theorem GetBuildSettings_reads_three_bindings
  (w1 w2 : world) (scheme1 device1 scheme2 device2 : string)
  (first1 first2 : gmap string any) (others1 others2 : list (gmap string any))
  (settings1 settings2 : gmap string any) :
  exitError (run w1 "xcodebuild" (showBuildSettingsArgs scheme1 device1)) = None ->
  exitError (run w2 "xcodebuild" (showBuildSettingsArgs scheme2 device2)) = None ->
  unmarshalBuildSettings w1
    (captured (run w1 "xcodebuild" (showBuildSettingsArgs scheme1 device1)))
  = inr (first1 :: others1) ->
  unmarshalBuildSettings w2
    (captured (run w2 "xcodebuild" (showBuildSettingsArgs scheme2 device2)))
  = inr (first2 :: others2) ->
  first1 !! "buildSettings" = Some (anyMap settings1) ->
  first2 !! "buildSettings" = Some (anyMap settings2) ->
  (forall key, key ∈ requiredKeys -> settings1 !! key = settings2 !! key) ->
  GetBuildSettings w1 scheme1 device1 = GetBuildSettings w2 scheme2 device2.
Proof.
  intros Hrun1 Hrun2 Hjson1 Hjson2 Hfirst1 Hfirst2 Hagree.
  unfold GetBuildSettings. rewrite Hrun1, Hrun2, Hjson1, Hjson2. cbn [lift bind].
  unfold index. rewrite Hfirst1, Hfirst2. cbn [from_option id assertMap bind].
  rewrite !Hagree by (unfold requiredKeys; set_solver). reflexivity.
Qed.

Lemma GetBuildSettings_reads_three_bindings_witness :
  GetBuildSettings (onlySettings minimalSettings) "App" "ABCD-1234"
  = GetBuildSettings
      (onlySettings [settingsRecord (("SDKROOT", anyString "iphonesimulator")
                                     :: minimalFields);
                     settingsRecord []])
      "AppTests" "EF01-5678".
Proof.
  apply (GetBuildSettings_reads_three_bindings _ _ _ _ _ _
           (settingsRecord minimalFields)
           (settingsRecord (("SDKROOT", anyString "iphonesimulator") :: minimalFields))
           [] [settingsRecord []]
           (list_to_map minimalFields)
           (list_to_map (("SDKROOT", anyString "iphonesimulator") :: minimalFields)));
    try (vm_compute; reflexivity).
  intros key Hkey. unfold requiredKeys in Hkey.
  repeat (apply elem_of_cons in Hkey as [->|Hkey]; [vm_compute; reflexivity|]).
  inversion Hkey.
Defined.

(** X10.  The extraction ends in a panic exactly when the command exits
    normally, the decoded sequence has a first record, and that record
    does not bind [buildSettings] to a mapping with the three keys bound to
    strings. *)
Theorem GetBuildSettings_panics_exactly (w : world) (selectedScheme deviceID : string) :
  returned (GetBuildSettings w selectedScheme deviceID) = false
  <-> exitError (run w "xcodebuild" (showBuildSettingsArgs selectedScheme deviceID)) = None
      /\ exists first others,
           unmarshalBuildSettings w
             (captured (run w "xcodebuild"
                            (showBuildSettingsArgs selectedScheme deviceID)))
           = inr (first :: others)
           /\ forall settings,
                first !! "buildSettings" = Some (anyMap settings) ->
                exists key, key ∈ requiredKeys /\ notAString settings key.
Proof.
  split.
  - unfold GetBuildSettings.
    destruct (exitError (run w "xcodebuild"
                             (showBuildSettingsArgs selectedScheme deviceID)));
      [discriminate|].
    destruct (unmarshalBuildSettings w _) as [err|[|first others]]; cbn [lift bind];
      [discriminate..|].
    intros Hpanic. split; [reflexivity|]. exists first, others. split; [reflexivity|].
    intros settings Hfirst. unfold index at 1 in Hpanic.
    rewrite Hfirst in Hpanic. cbn [from_option id assertMap bind] in Hpanic.
    unfold requiredKeys, notAString.
    destruct (settings !! "BUILT_PRODUCTS_DIR") as [v1|] eqn:H1;
      [|exists "BUILT_PRODUCTS_DIR"; split; [set_solver | congruence]].
    destruct (settings !! "CONTENTS_FOLDER_PATH") as [v2|] eqn:H2;
      [|exists "CONTENTS_FOLDER_PATH"; split; [set_solver | congruence]].
    destruct (settings !! "PRODUCT_BUNDLE_IDENTIFIER") as [v3|] eqn:H3;
      [|exists "PRODUCT_BUNDLE_IDENTIFIER"; split; [set_solver | congruence]].
    unfold index in Hpanic. rewrite H1, H2, H3 in Hpanic.
    cbn [from_option id] in Hpanic.
    destruct v1;
      try (exists "BUILT_PRODUCTS_DIR"; split; [set_solver | congruence]).
    destruct v2;
      try (exists "CONTENTS_FOLDER_PATH"; split; [set_solver | congruence]).
    destruct v3;
      try (exists "PRODUCT_BUNDLE_IDENTIFIER"; split; [set_solver | congruence]).
    discriminate Hpanic.
  - intros (Hrun & first & others & Hjson & Hbad).
    assert (Hpanic : exists msg,
               GetBuildSettings w selectedScheme deviceID = Panic msg).
    { destruct (first !! "buildSettings") as [v|] eqn:Hfirst.
      - destruct v as [| | | |elems|settings];
          try (unfold GetBuildSettings; rewrite Hrun, Hjson; cbn [lift bind];
               unfold index; rewrite Hfirst; eexists; reflexivity).
        destruct (Hbad settings eq_refl) as (key & Hkey & Hnot).
        apply (GetBuildSettings_absent_field_panics w selectedScheme deviceID Hrun
                 first others Hjson settings key Hfirst Hkey Hnot).
      - apply (GetBuildSettings_absent_mapping_panics w selectedScheme deviceID Hrun
                 first others Hjson Hfirst). }
    destruct Hpanic as [msg ->]. reflexivity.
Qed.

Lemma GetBuildSettings_panics_exactly_witness :
  returned (GetBuildSettings (onlySettings [settingsRecord []]) "App" "ABCD-1234")
  = false.
Proof.
  apply (proj2 (GetBuildSettings_panics_exactly
                  (onlySettings [settingsRecord []]) "App" "ABCD-1234")).
  split; [reflexivity|]. exists (settingsRecord []), []. split; [reflexivity|].
  intros settings Hsettings. exists "BUILT_PRODUCTS_DIR".
  split; [unfold requiredKeys; set_solver|].
  vm_compute in Hsettings. injection Hsettings as <-.
  intros s. vm_compute. discriminate.
Defined.

(** ** The JSON listing *)

Lemma visitedRecords_elem_of (visited : list (string * list Device))
  (group : string) (records : list Device) (d : Device) :
  (group, records) ∈ visited -> d ∈ records -> d ∈ visitedRecords visited.
Proof.
  unfold visitedRecords. induction visited as [|g visited IH]; intros Hin Hd.
  - inversion Hin.
  - cbn [map concat]. apply elem_of_app.
    apply elem_of_cons in Hin as [<-|Hin]; [left; exact Hd | right; auto].
Qed.

(** A run that visits every group once meets exactly the listed records. *)
Lemma visited_listed (w : world) (deviceList : DeviceList) (d : Device) :
  visitsEachGroupOnce w ->
  d ∈ visitedRecords (rangeGroups w (Devices deviceList)) <-> listed deviceList d.
Proof.
  intros Hvisit. unfold listed. split.
  - intros Hd. apply visitedRecords_elem in Hd as (group & records & Hg & Hd).
    rewrite (Hvisit (Devices deviceList)) in Hg. apply elem_of_map_to_list in Hg.
    exists group, records. split; assumption.
  - intros (group & records & Hg & Hd).
    apply (visitedRecords_elem_of _ group records); [|exact Hd].
    rewrite (Hvisit (Devices deviceList)). apply elem_of_map_to_list, Hg.
Qed.

Lemma lastSeen_is_Some (records : list Device) (d : Device) :
  d ∈ records -> Avail d = true -> is_Some (lastSeen (Name d) records).
Proof.
  intros Hin Ha. unfold lastSeen.
  destruct (last (filter (fun d' => Avail d' = true /\ Name d' = Name d) records))
    as [d'|] eqn:Hlast; [eexists; reflexivity|].
  apply last_None in Hlast.
  assert (Hd : d ∈ filter (fun d' => Avail d' = true /\ Name d' = Name d) records)
    by (apply list_elem_of_filter; auto).
  rewrite Hlast in Hd. inversion Hd.
Qed.

Lemma GetDevices_decoded (w : world) (deviceList : DeviceList) :
  exitError (run w "xcrun" simctlArgs) = None ->
  unmarshalDeviceList w (captured (run w "xcrun" simctlArgs)) = inr deviceList ->
  XcodeRunner.GetDevices w
  = (let devices := XcodeRunner.collect (rangeGroups w (Devices deviceList)) in
     if bool_decide (size devices = 0%nat) then Err noSimulators else Ok devices).
Proof.
  intros Hrun Hjson. unfold XcodeRunner.GetDevices. fold simctlArgs.
  rewrite Hrun, Hjson. reflexivity.
Qed.

(** X11.  When some record of the listing is available, the registry is
    returned and has a key for the name of every available record; when
    none is, the error is returned and no registry. *)
Theorem GetDevices_keeps_available_names (w : world) (deviceList : DeviceList) :
  visitsEachGroupOnce w ->
  exitError (run w "xcrun" simctlArgs) = None ->
  unmarshalDeviceList w (captured (run w "xcrun" simctlArgs)) = inr deviceList ->
  ((exists d, listed deviceList d /\ Avail d = true) ->
   exists registry,
     XcodeRunner.GetDevices w = Ok registry
     /\ forall d, listed deviceList d -> Avail d = true ->
                  is_Some (registry !! Name d))
  /\ ((forall d, listed deviceList d -> Avail d = false) ->
      XcodeRunner.GetDevices w = Err noSimulators).
Proof.
  intros Hvisit Hrun Hjson. rewrite (GetDevices_decoded w deviceList Hrun Hjson).
  cbv zeta. split.
  - intros (d0 & Hlisted0 & Ha0).
    assert (Hkeys : forall d, listed deviceList d -> Avail d = true ->
                              is_Some (XcodeRunner.collect
                                         (rangeGroups w (Devices deviceList))
                                       !! Name d)).
    { intros d Hlisted Ha. rewrite collect_lookup.
      apply lastSeen_is_Some; [|exact Ha].
      apply (visited_listed w deviceList d Hvisit), Hlisted. }
    case_bool_decide as Hsize.
    + exfalso. apply map_size_empty_iff in Hsize.
      destruct (Hkeys d0 Hlisted0 Ha0) as [udid Hudid].
      rewrite Hsize, lookup_empty in Hudid. discriminate.
    + eexists. split; [reflexivity | exact Hkeys].
  - intros Hnone.
    assert (Hempty : XcodeRunner.collect (rangeGroups w (Devices deviceList)) = ∅).
    { apply map_empty. intros name. rewrite collect_lookup.
      destruct (lastSeen name (visitedRecords (rangeGroups w (Devices deviceList))))
        as [udid|] eqn:Hlast; [|reflexivity].
      apply lastSeen_Some in Hlast as (d & Hin & Ha & _).
      apply (visited_listed w deviceList d Hvisit) in Hin.
      rewrite (Hnone d Hin) in Ha. discriminate. }
    rewrite Hempty, map_size_empty. reflexivity.
Qed.

Lemma GetDevices_keeps_available_names_witness :
  exists registry,
    XcodeRunner.GetDevices (onlyListing oneSimulator) = Ok registry
    /\ forall d, listed {| Devices := list_to_map oneSimulator |} d ->
                 Avail d = true -> is_Some (registry !! Name d).
Proof.
  apply (GetDevices_keeps_available_names (onlyListing oneSimulator)
           {| Devices := list_to_map oneSimulator |}).
  - intros groups. reflexivity.
  - reflexivity.
  - reflexivity.
  - exists {| Name := "iPhone 15"; UDID := "ABCD-1234"; Avail := true |}.
    split; [|reflexivity].
    exists "com.apple.CoreSimulator.SimRuntime.iOS-17-0",
           [ {| Name := "iPhone 15"; UDID := "ABCD-1234"; Avail := true |};
             {| Name := "iPhone 14"; UDID := "EF01-5678"; Avail := false |} ].
    split; [vm_compute; reflexivity | left].
Defined.

Lemma lastSeen_consistent (w1 w2 : world) (deviceList : DeviceList) (name : string) :
  visitsEachGroupOnce w1 -> visitsEachGroupOnce w2 ->
  consistentNames deviceList ->
  forall udid,
    lastSeen name (visitedRecords (rangeGroups w1 (Devices deviceList))) = Some udid ->
    lastSeen name (visitedRecords (rangeGroups w2 (Devices deviceList))) = Some udid.
Proof.
  intros Hv1 Hv2 Hcons udid Hlast.
  apply lastSeen_Some in Hlast as (d1 & Hin1 & Ha1 & Hn1 & Hu1).
  apply (visited_listed w1 deviceList d1 Hv1) in Hin1.
  pose proof (proj2 (visited_listed w2 deviceList d1 Hv2) Hin1) as Hin2.
  destruct (lastSeen_is_Some _ d1 Hin2 Ha1) as [udid2 Hlast2].
  rewrite Hn1 in Hlast2. rewrite Hlast2. f_equal.
  apply lastSeen_Some in Hlast2 as (d2 & Hin2' & Ha2 & Hn2 & Hu2).
  apply (visited_listed w2 deviceList d2 Hv2) in Hin2'.
  rewrite <- Hu1, <- Hu2. apply Hcons; try assumption. congruence.
Qed.

(** X12.  When the available records of one name all carry one identifier
    (names that are unique among them, for one), the outcome does not
    depend on the order in which the runtime visits the groups, and the
    registry maps the name of every available record to its identifier. *)
Theorem GetDevices_order_independent (w1 w2 : world) (deviceList : DeviceList) :
  visitsEachGroupOnce w1 -> visitsEachGroupOnce w2 ->
  exitError (run w1 "xcrun" simctlArgs) = None ->
  exitError (run w2 "xcrun" simctlArgs) = None ->
  unmarshalDeviceList w1 (captured (run w1 "xcrun" simctlArgs)) = inr deviceList ->
  unmarshalDeviceList w2 (captured (run w2 "xcrun" simctlArgs)) = inr deviceList ->
  consistentNames deviceList ->
  XcodeRunner.GetDevices w1 = XcodeRunner.GetDevices w2
  /\ forall registry d,
       XcodeRunner.GetDevices w1 = Ok registry ->
       listed deviceList d -> Avail d = true ->
       registry !! Name d = Some (UDID d).
Proof.
  intros Hv1 Hv2 Hrun1 Hrun2 Hjson1 Hjson2 Hcons.
  rewrite (GetDevices_decoded w1 deviceList Hrun1 Hjson1).
  rewrite (GetDevices_decoded w2 deviceList Hrun2 Hjson2). cbv zeta.
  assert (Hsame : XcodeRunner.collect (rangeGroups w1 (Devices deviceList))
                  = XcodeRunner.collect (rangeGroups w2 (Devices deviceList))).
  { apply map_eq. intros name. rewrite !collect_lookup.
    destruct (lastSeen name (visitedRecords (rangeGroups w1 (Devices deviceList))))
      as [udid|] eqn:H1.
    - symmetry. apply (lastSeen_consistent w1 w2 deviceList name Hv1 Hv2 Hcons), H1.
    - destruct (lastSeen name (visitedRecords (rangeGroups w2 (Devices deviceList))))
        as [udid|] eqn:H2; [|reflexivity].
      apply (lastSeen_consistent w2 w1 deviceList name Hv2 Hv1 Hcons) in H2.
      congruence. }
  split; [rewrite Hsame; reflexivity|].
  intros registry d Hget Hlisted Ha.
  case_bool_decide; [discriminate|]. injection Hget as <-.
  rewrite collect_lookup.
  pose proof (proj2 (visited_listed w1 deviceList d Hv1) Hlisted) as Hin.
  destruct (lastSeen_is_Some _ d Hin Ha) as [udid Hlast]. rewrite Hlast. f_equal.
  apply lastSeen_Some in Hlast as (d' & Hin' & Ha' & Hn' & Hu').
  apply (visited_listed w1 deviceList d' Hv1) in Hin'.
  rewrite <- Hu'. apply Hcons; assumption.
Qed.

Lemma listed_list_to_map (groups : list (string * list Device)) (d : Device) :
  listed {| Devices := list_to_map groups |} d ->
  exists group records, (group, records) ∈ groups /\ d ∈ records.
Proof.
  intros (group & records & Hg & Hd). cbn [Devices] in Hg.
  apply elem_of_list_to_map_2 in Hg. exists group, records. split; assumption.
Qed.

Lemma twoRuntimes_consistent : consistentNames {| Devices := list_to_map twoRuntimes |}.
Proof.
  intros d1 d2 H1 H2 Ha1 Ha2 Hname.
  apply listed_list_to_map in H1 as (g1 & r1 & Hg1 & Hd1).
  apply listed_list_to_map in H2 as (g2 & r2 & Hg2 & Hd2).
  unfold twoRuntimes in Hg1, Hg2.
  repeat (apply elem_of_cons in Hg1 as [Hg1|Hg1]; [injection Hg1 as -> ->|]);
    [| |inversion Hg1];
    repeat (apply elem_of_cons in Hd1 as [->|Hd1]); try (inversion Hd1; fail);
    try discriminate Ha1;
    (repeat (apply elem_of_cons in Hg2 as [Hg2|Hg2]; [injection Hg2 as -> ->|]);
     [| |inversion Hg2]);
    repeat (apply elem_of_cons in Hd2 as [->|Hd2]); try (inversion Hd2; fail);
    try discriminate Ha2; try discriminate Hname; reflexivity.
Qed.

Lemma GetDevices_order_independent_witness :
  XcodeRunner.GetDevices (onlyListing twoRuntimes)
  = XcodeRunner.GetDevices (backwards (onlyListing twoRuntimes)).
Proof.
  apply (GetDevices_order_independent (onlyListing twoRuntimes)
           (backwards (onlyListing twoRuntimes))
           {| Devices := list_to_map twoRuntimes |}).
  - intros groups. reflexivity.
  - intros groups. cbn [backwards rangeGroups onlyListing sampleWorld].
    apply reverse_Permutation.
  - reflexivity.
  - reflexivity.
  - reflexivity.
  - reflexivity.
  - exact twoRuntimes_consistent.
Defined.

(** ** [strings.TrimSpace] is idempotent *)

Lemma runeWidth_nil (runes : list string) : runeWidth runes EmptyString = O.
Proof.
  unfold runeWidth.
  destruct (List.find (fun r => String.prefix r EmptyString) runes) as [r|] eqn:Hfind;
    [|reflexivity].
  apply List.find_some in Hfind as [_ Hpre]. destruct r; [reflexivity | discriminate].
Qed.

Lemma runeWidth_zero (runes : list string) (s : string) :
  (forall r, In r runes -> r <> EmptyString) ->
  runeWidth runes s = O <-> forall r, In r runes -> String.prefix r s = false.
Proof.
  intros Hne. unfold runeWidth. split.
  - destruct (List.find (fun r => String.prefix r s) runes) as [r|] eqn:Hfind.
    + apply List.find_some in Hfind as [Hin _]. intros Hlen.
      destruct r; [destruct (Hne _ Hin eq_refl) | discriminate].
    + intros _ r Hin. apply (List.find_none _ _ Hfind r Hin).
  - intros Hnone.
    destruct (List.find (fun r => String.prefix r s) runes) as [r|] eqn:Hfind;
      [|reflexivity].
    apply List.find_some in Hfind as [Hin Hpre]. rewrite (Hnone r Hin) in Hpre.
    discriminate.
Qed.

Lemma prefix_weaken (r t v : string) :
  String.prefix r t = true -> String.prefix r (t +:+ v) = true.
Proof.
  revert t. induction r as [|c r IH]; intros t H; [apply prefix_nil|].
  destruct t as [|d t]; [discriminate|].
  rewrite string_app_cons, prefix_cons. rewrite prefix_cons in H.
  apply andb_true_iff in H as [Hc Hr]. rewrite Hc, (IH t Hr). reflexivity.
Qed.

(** The loop stops in front of a byte sequence that is none of the runes. *)
Lemma trimLeftFrom_stops (runes : list string) (s : string) (k : nat) :
  runeWidth runes (trimLeftFrom runes k s) = O.
Proof.
  revert k. induction s as [|c s IH]; intros k; cbn [trimLeftFrom].
  - apply runeWidth_nil.
  - destruct k as [|k]; [|apply IH].
    destruct (runeWidth runes (String c s)) as [|k] eqn:Hw; [exact Hw | apply IH].
Qed.

Lemma trimLeftFrom_fixed (runes : list string) (s : string) :
  runeWidth runes s = O -> trimLeftFrom runes 0 s = s.
Proof. intros Hw. destruct s as [|c s]; [reflexivity|]. cbn [trimLeftFrom]. rewrite Hw. reflexivity. Qed.

Lemma whiteSpaceRunes_nonempty :
  (forall r, In r whiteSpaceRunes -> r <> EmptyString)
  /\ (forall r, In r (map String.rev whiteSpaceRunes) -> r <> EmptyString).
Proof.
  assert (H : forallb (fun r => negb (String.eqb r EmptyString)) whiteSpaceRunes = true
              /\ forallb (fun r => negb (String.eqb r EmptyString))
                         (map String.rev whiteSpaceRunes) = true)
    by (split; vm_compute; reflexivity).
  destruct H as [H1 H2]. rewrite forallb_forall in H1, H2.
  split; intros r Hin; [specialize (H1 r Hin) | specialize (H2 r Hin)];
    apply negb_true_iff, String.eqb_neq in H1 || apply negb_true_iff, String.eqb_neq in H2;
    assumption.
Qed.

(** A trimmed string is left as it is by a second trimming. *)
Lemma TrimSpace_idempotent (s : string) : TrimSpace (TrimSpace s) = TrimSpace s.
Proof.
  destruct whiteSpaceRunes_nonempty as [Hne Hne'].
  set (t1 := TrimLeftSpace s).
  pose proof (trimLeftFrom_stops whiteSpaceRunes s 0) as Hleft. fold (TrimLeftSpace s) in Hleft.
  fold t1 in Hleft.
  set (rt := trimLeftFrom (map String.rev whiteSpaceRunes) 0 (String.rev t1)).
  pose proof (trimLeftFrom_stops (map String.rev whiteSpaceRunes) (String.rev t1) 0)
    as Hright. fold rt in Hright.
  assert (Ht : TrimSpace s = String.rev rt) by reflexivity.
  destruct (trimLeft_decomp (fun _ => true) (map String.rev whiteSpaceRunes)
              (String.rev t1)) as (u & Hu & _).
  { intros r _. clear. induction r as [|c r IH]; [reflexivity | exact IH]. }
  fold rt in Hu.
  assert (Hsplit : t1 = String.rev rt +:+ String.rev u).
  { rewrite <- string_rev_app_distr, <- Hu, string_rev_involutive. reflexivity. }
  assert (Hclean : runeWidth whiteSpaceRunes (String.rev rt) = O).
  { apply (runeWidth_zero _ _ Hne). intros r Hin.
    destruct (String.prefix r (String.rev rt)) eqn:Hpre; [|reflexivity].
    apply (prefix_weaken r _ (String.rev u)) in Hpre. rewrite <- Hsplit in Hpre.
    rewrite (proj1 (runeWidth_zero _ _ Hne) Hleft r Hin) in Hpre. discriminate. }
  rewrite Ht. unfold TrimSpace, TrimLeftSpace, TrimRightSpace.
  rewrite (trimLeftFrom_fixed _ _ Hclean), string_rev_involutive.
  rewrite (trimLeftFrom_fixed _ _ Hright). reflexivity.
Qed.

(** ** The scheme listing *)

Lemma schemes_loop_elements (lines : list string) (st : schemesLoop) (s : string) :
  s ∈ schemes (fold_left schemesBody lines st) ->
  s ∈ schemes st
  \/ (s <> EmptyString /\ exists line, line ∈ lines /\ s = TrimSpace line).
Proof.
  revert st. induction lines as [|l lines IH]; intros st Hs; [left; exact Hs|].
  cbn [fold_left] in Hs. destruct (IH _ Hs) as [Hst|(Hne & line & Hin & Heq)].
  - unfold schemesBody in Hst. cbn [schemes] in Hst.
    destruct (inSchemes st && negb (String.eqb (TrimSpace l) EmptyString)) eqn:Hadd;
      [|left; exact Hst].
    apply elem_of_app in Hst as [Hst|Hst]; [left; exact Hst|].
    apply list_elem_of_singleton in Hst as ->.
    apply andb_true_iff in Hadd as [_ Hadd].
    apply negb_true_iff, String.eqb_neq in Hadd.
    right. split; [exact Hadd|]. exists l. split; [left | reflexivity].
  - right. split; [exact Hne|]. exists line. split; [right; exact Hin | exact Heq].
Qed.

(** X13.  A list of schemes that the parser returns is not empty, and each
    scheme in it is a trimmed line of the output: not empty, without white
    space at either end. *)
Theorem GetSchemes_schemes_are_trimmed_lines (w : world) (found : list string) :
  GetSchemes w = Ok found ->
  found <> []
  /\ forall s, s ∈ found ->
       s <> EmptyString /\ TrimSpace s = s
       /\ exists line,
            line ∈ ScanLines (captured (run w "xcodebuild" listArgs))
            /\ s = TrimSpace line.
Proof.
  unfold GetSchemes, RunShellCommand. fold listArgs.
  destruct (exitError (run w "xcodebuild" listArgs)); cbn [bind]; [discriminate|].
  set (st := fold_left schemesBody _ _).
  destruct (schemes st) as [|s0 rest] eqn:Hschemes; [discriminate|].
  intros [= <-]. split; [discriminate|].
  intros s Hs. rewrite <- Hschemes in Hs.
  apply schemes_loop_elements in Hs as [Hinit|(Hne & line & Hin & Heq)];
    [inversion Hinit|].
  split; [exact Hne|]. split.
  - rewrite Heq. apply TrimSpace_idempotent.
  - exists line. split; assumption.
Qed.

Lemma GetSchemes_schemes_are_trimmed_lines_witness : ["Debug"; "Release"] <> [].
Proof.
  apply (GetSchemes_schemes_are_trimmed_lines (onlyOutput twoSchemes)).
  vm_compute. reflexivity.
Defined.

Lemma schemes_loop_trimmed (lines : list string) (st : schemesLoop) :
  fold_left schemesBody lines st
  = fold_left schemesBodyTrimmed (map TrimSpace lines) st.
Proof.
  revert st. induction lines as [|l lines IH]; intros st; [reflexivity|].
  cbn [map fold_left]. apply IH.
Qed.

(** X14.  The parser looks at the lines only through their trimmed form:
    two outputs whose delivered lines agree after trimming (other
    indentation, other line ends) give the same outcome. *)
Theorem GetSchemes_reads_trimmed_lines (w1 w2 : world) :
  exitError (run w1 "xcodebuild" listArgs) = None ->
  exitError (run w2 "xcodebuild" listArgs) = None ->
  map TrimSpace (ScanLines (captured (run w1 "xcodebuild" listArgs)))
  = map TrimSpace (ScanLines (captured (run w2 "xcodebuild" listArgs))) ->
  GetSchemes w1 = GetSchemes w2.
Proof.
  intros Hrun1 Hrun2 Hlines. unfold GetSchemes, RunShellCommand. fold listArgs.
  rewrite Hrun1, Hrun2. cbn [bind]. rewrite !schemes_loop_trimmed, Hlines.
  reflexivity.
Qed.

Lemma GetSchemes_reads_trimmed_lines_witness :
  GetSchemes (onlyOutput twoSchemes)
  = GetSchemes (onlyOutput ("Schemes:" +:+ String "013" LF +:+ "Debug"
                            +:+ String "013" LF +:+ String "009" "Release")).
Proof.
  apply GetSchemes_reads_trimmed_lines; vm_compute; reflexivity.
Defined.

(** ** The orchestrator *)

Lemma lift_not_panic {A : Type} (r : string + A) (msg : string) : lift r <> Panic msg.
Proof. destruct r; discriminate. Qed.

Lemma detectXcodeProject_not_panic (w : world) (msg : string) :
  detectXcodeProject w <> Panic msg.
Proof.
  unfold detectXcodeProject. destruct (ReadDir w "."); cbn [lift bind]; [discriminate|].
  destruct (negb _); [discriminate|]. destruct (negb _); discriminate.
Qed.

Lemma GetSchemes_not_panic (w : world) (msg : string) : GetSchemes w <> Panic msg.
Proof.
  unfold GetSchemes, RunShellCommand.
  destruct (exitError _); cbn [bind]; [discriminate|].
  destruct (schemes _); discriminate.
Qed.

Lemma GetSchemes_not_nil (w : world) : GetSchemes w <> Ok [].
Proof.
  unfold GetSchemes, RunShellCommand.
  destruct (exitError _); cbn [bind]; [discriminate|].
  destruct (schemes _); discriminate.
Qed.

Lemma PromptUser_not_panic (w : world) (label : string) (items : list string)
  (msg : string) : PromptUser w label items <> Panic msg.
Proof. apply lift_not_panic. Qed.

Lemma legacy_GetDevices_not_panic (w : world) (msg : string) :
  XcodeRunner.GetDevices w <> Panic msg.
Proof.
  unfold XcodeRunner.GetDevices. destruct (exitError _); [discriminate|].
  destruct (unmarshalDeviceList w _); cbn [lift bind]; [discriminate|].
  destruct (bool_decide _); discriminate.
Qed.

Ltac stops_early :=
  intros [= <-];
  first [ eapply (stoppedEarly _ _ [_]); reflexivity
        | eapply (stoppedEarly _ _ [_; _]); reflexivity
        | eapply (stoppedEarly _ _ [_; _; _]); reflexivity ].

(** X15.  A run of [main] of [part_000] that does not panic ends in one of
    three ways: with the report of a failed stage, before any command has
    been run for its effect; with the build command, which failed, and the
    report of it; or with the build command, which succeeded, the steps
    that install and launch, and the closing line.  So nothing is
    installed unless the build succeeded, and the run is reported done
    only after the deployment. *)
Theorem main_ends_in_one_of_three_ways (w : world) (trace : list event) :
  Part000.main w = Ok trace -> ending w trace.
Proof.
  unfold Part000.main. cbv zeta.
  destruct (detectXcodeProject w) as [projectPath|e|msg]; cbn [orReport];
    [|stops_early|discriminate].
  destruct (GetSchemes w) as [[|selectedScheme others]|e|msg]; cbn [orReport];
    [discriminate| |stops_early|discriminate].
  destruct (Part000.GetDevices w) as [devices|e|msg]; cbn [orReport];
    [|stops_early|discriminate].
  destruct (PromptUser w "Select a Device" (rangeNames w devices))
    as [selectedDevice|e|msg]; cbn [orReport];
    [|stops_early|discriminate].
  destruct (devices !! selectedDevice) as [deviceUDID|];
    [|stops_early].
  destruct (GetBuildSettings w selectedScheme deviceUDID)
    as [[appPath bundleIdentifier]|e|msg] eqn:Hsettings; cbn [orReport fst snd];
    [|stops_early|discriminate].
  destruct (String.eqb appPath EmptyString) eqn:Hpath; cbn [orb];
    [stops_early|].
  destruct (String.eqb bundleIdentifier EmptyString) eqn:Hbundle;
    [stops_early|].
  destruct (exitError (run w "xcodebuild" (Part000.buildArgs selectedScheme deviceUDID)))
    as [e|] eqn:Hbuild; intros [= <-].
  - eapply (buildFailed _ _ [_; _; _] selectedScheme deviceUDID);
      [reflexivity|reflexivity|rewrite Hbuild; discriminate].
  - eapply (deployed _ _ [_; _; _] selectedScheme deviceUDID appPath bundleIdentifier);
      [destruct (Contains appPath "simulator"); reflexivity
      |reflexivity|exact Hsettings|apply String.eqb_neq; exact Hbundle|exact Hbuild].
Qed.

Lemma main_ends_in_one_of_three_ways_witness :
  ending phoneSession
    [ Println Banner;
      Println (DetectedProject "App.xcodeproj");
      Println (Building "App" "My iPhone" "00008030-001C195E0E87802E");
      Exec "xcodebuild" (Part000.buildArgs "App" "00008030-001C195E0E87802E");
      Println DeployingToPhysicalDevice;
      Exec "xcrun" ["devicectl"; "device"; "install"; "app"; "--device";
                    "00008030-001C195E0E87802E"; "--bundle";
                    "/tmp/Build/Debug-iphoneos/App.app"];
      Exec "xcrun" ["devicectl"; "device"; "process"; "launch"; "--device";
                    "00008030-001C195E0E87802E"; "--start-stopped";
                    "com.example.App"];
      Println Done ].
Proof.
  apply main_ends_in_one_of_three_ways. vm_compute. reflexivity.
Defined.

(** X16.  [main] of [part_000] panics only inside one of the two parsers
    that can: the one of the text listing, or the one of the build
    settings, then called with the first scheme and the identifier of a
    registered device.  Taking the first scheme does not panic, since the
    scheme parser never returns an empty list. *)
Theorem main_panics_only_in_parsers (w : world) (msg : string) :
  Part000.main w = Panic msg ->
  Part000.GetDevices w = Panic msg
  \/ exists selectedScheme others devices selectedDevice deviceUDID,
       GetSchemes w = Ok (selectedScheme :: others)
       /\ Part000.GetDevices w = Ok devices
       /\ devices !! selectedDevice = Some deviceUDID
       /\ GetBuildSettings w selectedScheme deviceUDID = Panic msg.
Proof.
  unfold Part000.main. cbv zeta.
  destruct (detectXcodeProject w) as [projectPath|e|msg'] eqn:Hdetect; cbn [orReport];
    [|discriminate|intros _; destruct (detectXcodeProject_not_panic _ _ Hdetect)].
  destruct (GetSchemes w) as [[|selectedScheme others]|e|msg'] eqn:Hschemes;
    cbn [orReport];
    [destruct (GetSchemes_not_nil _ Hschemes)| |discriminate
    |intros _; destruct (GetSchemes_not_panic _ _ Hschemes)].
  destruct (Part000.GetDevices w) as [devices|e|msg']; cbn [orReport];
    [|discriminate|intros [= <-]; left; reflexivity].
  destruct (PromptUser w "Select a Device" (rangeNames w devices))
    as [selectedDevice|e|msg'] eqn:Hprompt; cbn [orReport];
    [|discriminate|intros _; destruct (PromptUser_not_panic _ _ _ _ Hprompt)].
  destruct (devices !! selectedDevice) as [deviceUDID|] eqn:Hudid; [|discriminate].
  destruct (GetBuildSettings w selectedScheme deviceUDID)
    as [[appPath bundleIdentifier]|e|msg'] eqn:Hsettings; cbn [orReport fst snd].
  - destruct (_ || _); [discriminate|]. destruct (exitError _); discriminate.
  - discriminate.
  - intros [= <-]. right.
    exists selectedScheme, others, devices, selectedDevice, deviceUDID. auto.
Qed.

Lemma main_panics_only_in_parsers_witness :
  Part000.GetDevices faultySession
  = Panic "interface conversion: interface {} is not string"
  \/ exists selectedScheme others devices selectedDevice deviceUDID,
       GetSchemes faultySession = Ok (selectedScheme :: others)
       /\ Part000.GetDevices faultySession = Ok devices
       /\ devices !! selectedDevice = Some deviceUDID
       /\ GetBuildSettings faultySession selectedScheme deviceUDID
          = Panic "interface conversion: interface {} is not string".
Proof.
  apply main_panics_only_in_parsers. vm_compute. reflexivity.
Defined.

(** X17.  [main] of [xcode-runner.go] panics only inside the parser of the
    build settings, called with the scheme that the operator chose and the
    identifier of a registered simulator. *)
Theorem legacy_main_panics_only_in_settings (w : world) (msg : string) :
  XcodeRunner.main w = Panic msg ->
  exists schemes selectedScheme devices selectedDevice deviceUDID,
    GetSchemes w = Ok schemes
    /\ PromptUser w "Select a Scheme" schemes = Ok selectedScheme
    /\ XcodeRunner.GetDevices w = Ok devices
    /\ devices !! selectedDevice = Some deviceUDID
    /\ GetBuildSettings w selectedScheme deviceUDID = Panic msg.
Proof.
  unfold XcodeRunner.main. cbv zeta.
  destruct (detectXcodeProject w) as [projectPath|e|msg'] eqn:Hdetect; cbn [orReport];
    [|discriminate|intros _; destruct (detectXcodeProject_not_panic _ _ Hdetect)].
  destruct (GetSchemes w) as [schemes|e|msg'] eqn:Hschemes; cbn [orReport];
    [|discriminate|intros _; destruct (GetSchemes_not_panic _ _ Hschemes)].
  destruct (PromptUser w "Select a Scheme" schemes)
    as [selectedScheme|e|msg'] eqn:Hscheme; cbn [orReport];
    [|discriminate|intros _; destruct (PromptUser_not_panic _ _ _ _ Hscheme)].
  destruct (XcodeRunner.GetDevices w) as [devices|e|msg'] eqn:Hdevices; cbn [orReport];
    [|discriminate|intros _; destruct (legacy_GetDevices_not_panic _ _ Hdevices)].
  destruct (PromptUser w "Select a Device" (rangeNames w devices))
    as [selectedDevice|e|msg'] eqn:Hprompt; cbn [orReport];
    [|discriminate|intros _; destruct (PromptUser_not_panic _ _ _ _ Hprompt)].
  destruct (devices !! selectedDevice) as [deviceUDID|] eqn:Hudid; [|discriminate].
  destruct (GetBuildSettings w selectedScheme deviceUDID)
    as [[appPath bundleIdentifier]|e|msg'] eqn:Hsettings; cbn [orReport fst snd].
  - destruct (_ || _); [discriminate|]. destruct (exitError _); discriminate.
  - discriminate.
  - intros [= <-].
    exists schemes, selectedScheme, devices, selectedDevice, deviceUDID. auto.
Qed.

Lemma legacy_main_panics_only_in_settings_witness :
  exists schemes selectedScheme devices selectedDevice deviceUDID,
    GetSchemes faultySession = Ok schemes
    /\ PromptUser faultySession "Select a Scheme" schemes = Ok selectedScheme
    /\ XcodeRunner.GetDevices faultySession = Ok devices
    /\ devices !! selectedDevice = Some deviceUDID
    /\ GetBuildSettings faultySession selectedScheme deviceUDID
       = Panic "interface conversion: interface {} is not string".
Proof.
  apply legacy_main_panics_only_in_settings. vm_compute. reflexivity.
Defined.

Lemma selected_device_found (w : world) (devices : gmap string string)
  (selectedDevice : string) :
  picksAnItem w -> rangesOverKeys w ->
  PromptUser w "Select a Device" (rangeNames w devices) = Ok selectedDevice ->
  devices !! selectedDevice <> None.
Proof.
  intros Hpick Hkeys Hprompt Hnone. unfold PromptUser in Hprompt.
  destruct (prompt w "Select a Device" (rangeNames w devices)) as [e|choice] eqn:Hchoice;
    [discriminate|].
  injection Hprompt as ->.
  apply Hpick, Hkeys in Hchoice. rewrite Hnone in Hchoice.
  destruct Hchoice as [? [=]].
Qed.

Ltac not_in_trace :=
  rewrite list_elem_of_In; cbn [app In]; intuition discriminate.

(** X18.  With an operator who picks one of the names shown, and a runtime
    that ranges over keys of the registry, neither program ever reports
    that it could not find the identifier of the selected device. *)
Theorem main_finds_the_selected_device (w : world) (trace : list event) :
  picksAnItem w -> rangesOverKeys w ->
  Part000.main w = Ok trace \/ XcodeRunner.main w = Ok trace ->
  Println NoUDIDForDevice ∉ trace.
Proof.
  intros Hpick Hkeys [Hmain|Hmain]; revert Hmain.
  - unfold Part000.main. cbv zeta.
    destruct (detectXcodeProject w) as [projectPath|e|msg]; cbn [orReport];
      [|intros [= <-]; not_in_trace|discriminate].
    destruct (GetSchemes w) as [[|selectedScheme others]|e|msg]; cbn [orReport];
      [discriminate| |intros [= <-]; not_in_trace|discriminate].
    destruct (Part000.GetDevices w) as [devices|e|msg]; cbn [orReport];
      [|intros [= <-]; not_in_trace|discriminate].
    destruct (PromptUser w "Select a Device" (rangeNames w devices))
      as [selectedDevice|e|msg] eqn:Hprompt; cbn [orReport];
      [|intros [= <-]; not_in_trace|discriminate].
    destruct (devices !! selectedDevice) as [deviceUDID|] eqn:Hudid;
      [|destruct (selected_device_found _ _ _ Hpick Hkeys Hprompt Hudid)].
    destruct (GetBuildSettings w selectedScheme deviceUDID)
      as [[appPath bundleIdentifier]|e|msg]; cbn [orReport fst snd];
      [|intros [= <-]; not_in_trace|discriminate].
    destruct (_ || _); [intros [= <-]; not_in_trace|].
    destruct (exitError _); [intros [= <-]; not_in_trace|].
    destruct (Contains appPath "simulator"); intros [= <-]; not_in_trace.
  - unfold XcodeRunner.main. cbv zeta.
    destruct (detectXcodeProject w) as [projectPath|e|msg]; cbn [orReport];
      [|intros [= <-]; not_in_trace|discriminate].
    destruct (GetSchemes w) as [schemes|e|msg]; cbn [orReport];
      [|intros [= <-]; not_in_trace|discriminate].
    destruct (PromptUser w "Select a Scheme" schemes) as [selectedScheme|e|msg];
      cbn [orReport]; [|intros [= <-]; not_in_trace|discriminate].
    destruct (XcodeRunner.GetDevices w) as [devices|e|msg]; cbn [orReport];
      [|intros [= <-]; not_in_trace|discriminate].
    destruct (PromptUser w "Select a Device" (rangeNames w devices))
      as [selectedDevice|e|msg] eqn:Hprompt; cbn [orReport];
      [|intros [= <-]; not_in_trace|discriminate].
    destruct (devices !! selectedDevice) as [deviceUDID|] eqn:Hudid;
      [|destruct (selected_device_found _ _ _ Hpick Hkeys Hprompt Hudid)].
    destruct (GetBuildSettings w selectedScheme deviceUDID)
      as [[appPath bundleIdentifier]|e|msg]; cbn [orReport fst snd];
      [|intros [= <-]; not_in_trace|discriminate].
    destruct (_ || _); [intros [= <-]; not_in_trace|].
    destruct (exitError _); [intros [= <-]; not_in_trace|].
    destruct (Contains deviceUDID "-"); intros [= <-]; not_in_trace.
Qed.

Lemma carefulOperator_picks (choice : string) (w : world) :
  picksAnItem (carefulOperator choice w).
Proof.
  intros label items picked. cbn [prompt carefulOperator].
  case_bool_decide as Hin; [|discriminate]. intros [= <-]. exact Hin.
Qed.

Lemma sampleWorld_ranges (files : list DirEntry)
  (runs : string -> list string -> execution)
  (settings : string + list (gmap string any)) (listing : string + DeviceList)
  (choice : string + string) (answer : string) :
  rangesOverKeys (carefulOperator answer (sampleWorld files runs settings listing choice)).
Proof.
  intros m name. cbn [rangeNames carefulOperator sampleWorld].
  intros Hin. apply list_elem_of_fmap in Hin as [[k v] [-> Hin]].
  apply elem_of_map_to_list in Hin. exists v. exact Hin.
Qed.

Lemma main_finds_the_selected_device_witness :
  Println NoUDIDForDevice
  ∉ [ Println Banner;
      Println (DetectedProject "App.xcodeproj");
      Println (Building "App" "My iPhone" "00008030-001C195E0E87802E");
      Exec "xcodebuild" (Part000.buildArgs "App" "00008030-001C195E0E87802E");
      Println DeployingToPhysicalDevice;
      Exec "xcrun" ["devicectl"; "device"; "install"; "app"; "--device";
                    "00008030-001C195E0E87802E"; "--bundle";
                    "/tmp/Build/Debug-iphoneos/App.app"];
      Exec "xcrun" ["devicectl"; "device"; "process"; "launch"; "--device";
                    "00008030-001C195E0E87802E"; "--start-stopped";
                    "com.example.App"];
      Println Done ].
Proof.
  apply (main_finds_the_selected_device (carefulOperator "My iPhone" phoneSession)).
  - apply carefulOperator_picks.
  - apply sampleWorld_ranges.
  - left. vm_compute. reflexivity.
Defined.

Lemma deploy_free_stages (w1 w2 : world) :
  sameUpToDeployment w1 w2 ->
  detectXcodeProject w1 = detectXcodeProject w2
  /\ GetSchemes w1 = GetSchemes w2
  /\ Part000.GetDevices w1 = Part000.GetDevices w2
  /\ XcodeRunner.GetDevices w1 = XcodeRunner.GetDevices w2
  /\ (forall label items, PromptUser w1 label items = PromptUser w2 label items)
  /\ (forall selectedScheme deviceID,
        GetBuildSettings w1 selectedScheme deviceID
        = GetBuildSettings w2 selectedScheme deviceID).
Proof.
  intros (Hrun & Hdir & Hsettings & Hlisting & Hgroups & Hnames & Hprompt).
  repeat split.
  - unfold detectXcodeProject. rewrite Hdir. reflexivity.
  - unfold GetSchemes, RunShellCommand. rewrite (Hrun "xcodebuild" ["-list"] eq_refl).
    reflexivity.
  - unfold Part000.GetDevices.
    rewrite (Hrun "xcrun" ["xctrace"; "list"; "devices"] eq_refl). reflexivity.
  - unfold XcodeRunner.GetDevices.
    rewrite (Hrun "xcrun" ["simctl"; "list"; "devices"; "--json"] eq_refl).
    destruct (exitError _); [reflexivity|]. rewrite Hlisting.
    destruct (unmarshalDeviceList w2 _); cbn [lift bind]; [reflexivity|].
    rewrite Hgroups. reflexivity.
  - intros label items. unfold PromptUser. rewrite Hprompt. reflexivity.
  - intros selectedScheme deviceID. unfold GetBuildSettings.
    rewrite (Hrun "xcodebuild" (showBuildSettingsArgs selectedScheme deviceID) eq_refl).
    destruct (exitError _); [reflexivity|]. rewrite Hsettings. reflexivity.
Qed.

(** X19.  What the commands of the deployment do has no influence on a
    run: in two worlds that differ at most in the outcome of these
    commands, either program prints the same lines and runs the same
    commands, and reports the run done also when every one of them
    failed. *)
Theorem main_ignores_deployment_outcome (w1 w2 : world) :
  sameUpToDeployment w1 w2 ->
  Part000.main w1 = Part000.main w2 /\ XcodeRunner.main w1 = XcodeRunner.main w2.
Proof.
  intros Hsame.
  destruct (deploy_free_stages _ _ Hsame)
    as (Hdetect & Hschemes & Htext & Hjson & Hprompt & Hsettings).
  destruct Hsame as (Hrun & _ & _ & _ & _ & Hnames & _).
  split.
  - unfold Part000.main. cbv zeta. rewrite Hdetect.
    destruct (detectXcodeProject w2); cbn [orReport]; try reflexivity.
    rewrite Hschemes.
    destruct (GetSchemes w2) as [[|selectedScheme others]| |]; cbn [orReport];
      try reflexivity.
    rewrite Htext.
    destruct (Part000.GetDevices w2) as [devices| |]; cbn [orReport]; try reflexivity.
    rewrite Hnames, Hprompt.
    destruct (PromptUser w2 _ _) as [selectedDevice| |]; cbn [orReport];
      try reflexivity.
    destruct (devices !! selectedDevice) as [deviceUDID|]; [|reflexivity].
    rewrite Hsettings.
    destruct (GetBuildSettings w2 selectedScheme deviceUDID) as [[appPath bundle]| |];
      cbn [orReport fst snd]; try reflexivity.
    rewrite (Hrun "xcodebuild" (Part000.buildArgs selectedScheme deviceUDID) eq_refl).
    reflexivity.
  - unfold XcodeRunner.main. cbv zeta. rewrite Hdetect.
    destruct (detectXcodeProject w2); cbn [orReport]; try reflexivity.
    rewrite Hschemes.
    destruct (GetSchemes w2) as [schemes| |]; cbn [orReport]; try reflexivity.
    rewrite Hprompt.
    destruct (PromptUser w2 _ _) as [selectedScheme| |]; cbn [orReport];
      try reflexivity.
    rewrite Hjson.
    destruct (XcodeRunner.GetDevices w2) as [devices| |]; cbn [orReport];
      try reflexivity.
    rewrite Hnames, Hprompt.
    destruct (PromptUser w2 _ _) as [selectedDevice| |]; cbn [orReport];
      try reflexivity.
    destruct (devices !! selectedDevice) as [deviceUDID|]; [|reflexivity].
    rewrite Hsettings.
    destruct (GetBuildSettings w2 selectedScheme deviceUDID) as [[appPath bundle]| |];
      cbn [orReport fst snd]; try reflexivity.
    rewrite (Hrun "xcodebuild" (XcodeRunner.buildArgs selectedScheme deviceUDID) eq_refl).
    reflexivity.
Qed.

Lemma failingDeployment_same (w : world) : sameUpToDeployment (failingDeployment w) w.
Proof.
  repeat split. intros command args Hdeploy. cbn [run failingDeployment].
  rewrite Hdeploy. reflexivity.
Qed.

Lemma main_ignores_deployment_outcome_witness :
  Part000.main (failingDeployment phoneSession) = Part000.main phoneSession
  /\ XcodeRunner.main (failingDeployment phoneSession) = XcodeRunner.main phoneSession.
Proof.
  apply main_ignores_deployment_outcome. apply failingDeployment_same.
Defined.
